(** * The MCP gateway: routing, health gating and session capacity

    A shallow embedding of the gateway of omni-personal:
    - [apps/gateway/src/gateway/protocol-adapter.ts] ([MCPProtocolAdapter]),
    - [apps/gateway/src/gateway/server-manager.ts]   ([MCPServerManager]),
    - [apps/gateway/src/gateway/session-manager.ts]  ([MCPSessionManager]),
    - [apps/gateway/src/gateway/mcp-gateway.ts]      ([MCPGateway]).

    Requests arrive as parsed JSON and the TypeScript casts ([as string],
    [as MCPRequest]) do nothing at run time, so requests and replies are
    JavaScript values here, read with the property accesses, truthiness
    tests and strict comparisons the code performs.  Of the log lines the
    evaluation of their arguments is kept: a template literal converts
    the values it holds to strings, and that conversion throws for some
    objects.  What the logger then does with the line is left out: it
    changes neither the state nor a reply. *)

From Stdlib Require Import Ascii Sorted.
From stdpp Require Import base option list gmap strings pretty.

Set Warnings "-register-all".

Open Scope string_scope.
Open Scope Z_scope.

(** ** JavaScript values *)

(** The values [JSON.parse] produces, plus [undefined] (what a missing
    property reads as).  Numbers are the integer literals: [JNum n] is the
    number [JSON.parse] reads from the literal [n], which is the double
    nearest to [n].  The code tests numbers for truthiness, copies them
    and prints them in a template literal. *)
Inductive JsValue : Type :=
| JUndefined
| JNull
| JBool (b : bool)
| JNum (n : Z)
| JStr (s : string)
| JArr (items : list JsValue)
| JObj (fields : list (string * JsValue)).

(** An object literal: its properties in the order they are written. *)
Abbreviation JsObject := (list (string * JsValue)).

(** [!!v] of JavaScript. *)
Definition truthy (v : JsValue) : bool :=
  match v with
  | JUndefined | JNull => false
  | JBool b => b
  | JNum n => negb (Z.eqb n 0)
  | JStr s => negb (String.eqb s "")
  | JArr _ | JObj _ => true
  end.

(** [o.k] on an object: the own property, [undefined] when there is none. *)
Fixpoint field (k : string) (o : JsObject) : JsValue :=
  match o with
  | [] => JUndefined
  | (k', v) :: rest => if String.eqb k k' then v else field k rest
  end.

(** [v.k] for a value that is neither [null] nor [undefined].  Of the
    property names the gateway reads (jsonrpc, method, params, id, name,
    uri, result, error, tools, resources, prompts) none is defined on
    strings, numbers, booleans or arrays. *)
Definition member (k : string) (v : JsValue) : JsValue :=
  match v with
  | JObj o => field k o
  | _ => JUndefined
  end.

(** [v?.k]: [undefined] on [null] and [undefined], [v.k] otherwise. *)
Definition opt_member (k : string) (v : JsValue) : JsValue := member k v.

(** [v.k] as the engine evaluates it: a [TypeError] on [null] and
    [undefined]. *)
Definition member_strict (k : string) (v : JsValue) : option JsValue :=
  match v with
  | JUndefined | JNull => None
  | _ => Some (member k v)
  end.

(** [v === "s"] against a string literal. *)
Definition is_string (s : string) (v : JsValue) : bool :=
  match v with
  | JStr s' => String.eqb s' s
  | _ => false
  end.

(** [arr.includes(v)] for an array of strings: SameValueZero, which only
    another string satisfies. *)
Definition includes (arr : list string) (v : JsValue) : bool :=
  existsb (fun c => is_string c v) arr.

(** [Object.hasOwn(o, k)]. *)
Definition has_own (k : string) (o : JsObject) : bool :=
  existsb (fun entry => String.eqb k entry.1) o.

(** What a [throw] carries: an [Error] with its message, or another value
    (a primitive or a plain object, which [String] converts). *)
Inductive Thrown : Type :=
| ThrownError (message : string)
| ThrownOther.

(** [error instanceof Error ? error.message : "Unknown error"]. *)
Definition error_message (e : Thrown) : string :=
  match e with
  | ThrownError m => m
  | ThrownOther => "Unknown error"
  end.

(** A computation that returns a value ([inr]) or throws ([inl]), and
    the sequencing of two of them. *)
Definition andThen {A B : Type} (c : Thrown + A) (k : A -> Thrown + B)
  : Thrown + B :=
  match c with
  | inl e => inl e
  | inr a => k a
  end.

Notation "'let*' x ':=' c 'in' k" := (andThen c (fun x => k))
  (at level 10, x name, c at level 100, k at level 200).

Notation "'let*' '_' ':=' c 'in' k" := (andThen c (fun _ => k))
  (at level 10, c at level 100, k at level 200).

(** The double [JSON.parse] reads from the integer literal [n], for
    [0 <= n]: [n] itself below 2^53, otherwise [n] rounded to 53
    significant bits, a tie going to the even mantissa; [None] is
    [Infinity]. *)
Definition nearest_double (n : Z) : option Z :=
  let e := Z.log2 n - 52 in
  if e <=? 0 then Some n
  else
    let q := Z.shiftr n e in
    let r := n - Z.shiftl q e in
    let half := Z.shiftl 1 (e - 1) in
    let q' := if (half <? r) || ((r =? half) && Z.odd q) then q + 1 else q in
    let x := Z.shiftl q' e in
    if 2 ^ 1024 <=? x then None else Some x.

(** The decimal [c], a positive integer, reads back as the double [x]. *)
Definition reads_as (x c : Z) : bool :=
  (0 <? c)
  && match nearest_double c with
     | Some y => y =? x
     | None => false
     end.

(** The digits [Number.prototype.toString] prints for the double [x]: the
    decimal with the fewest significant digits that reads back as [x],
    the nearest to [x] if there are two.  [j] zeros are tried at the end;
    the result is the decimal and the number of zeros it ends in. *)
Fixpoint shortest (fuel : nat) (x : Z) (j : Z) (best : Z * Z) : Z * Z :=
  match fuel with
  | O => best
  | S fuel' =>
      let p := 10 ^ j in
      let low := (x / p) * p in
      let high := low + p in
      match reads_as x low, reads_as x high with
      | false, false => best
      | true, false => shortest fuel' x (j + 1) (low, j)
      | false, true => shortest fuel' x (j + 1) (high, j)
      | true, true =>
          let c := if x - low <? high - x then low
                   else if high - x <? x - low then high
                   else if Z.even (low / p) then low else high in
          shortest fuel' x (j + 1) (c, j)
      end
  end.

(** [String(n)] of a number: its digits below 10^21, the exponent form
    from there on ([1e+21]), [Infinity] beyond the doubles. *)
Definition number_to_string (n : Z) : string :=
  if n =? 0 then "0"
  else
    let sign := if n <? 0 then "-" else "" in
    match nearest_double (Z.abs n) with
    | None => sign +:+ "Infinity"
    | Some x =>
        let '(c, j) := shortest 400 x 1 (x, 0) in
        let digits := pretty c in
        if (String.length digits <=? 21)%nat then sign +:+ digits
        else
          match pretty (c / 10 ^ j) with
          | String d rest =>
              sign +:+ String d (if String.eqb rest "" then ""
                                 else "." +:+ rest)
              +:+ "e+" +:+ pretty (Z.of_nat (String.length digits) - 1)
          | EmptyString => sign +:+ digits
          end
    end.

(** The [TypeError] of a conversion to a primitive that finds neither a
    callable [toString] nor a [valueOf] returning a primitive. *)
Definition cannot_convert : Thrown :=
  ThrownError "Cannot convert object to primitive value".

(** The string a template literal [`${v}`] puts in place of [v], which is
    also [String(v)].  An array prints its elements separated by commas,
    [null] and [undefined] as nothing.  An object prints as
    [[object Object]] through [Object.prototype.toString], unless it has
    an own property [toString]: a parsed value is never a function, and
    the inherited [valueOf] returns the object itself, so the conversion
    throws. *)
Fixpoint to_string (v : JsValue) : Thrown + string :=
  match v with
  | JUndefined => inr "undefined"
  | JNull => inr "null"
  | JBool true => inr "true"
  | JBool false => inr "false"
  | JNum n => inr (number_to_string n)
  | JStr s => inr s
  | JArr items =>
      (fix join (l : list JsValue) : Thrown + string :=
         match l with
         | [] => inr ""
         | x :: rest =>
             let* sx := match x with
                        | JUndefined | JNull => inr ""
                        | _ => to_string x
                        end in
             match rest with
             | [] => inr sx
             | _ => let* srest := join rest in
                    inr (sx +:+ "," +:+ srest)
             end
         end) items
  | JObj o => if has_own "toString" o then inl cannot_convert
              else inr "[object Object]"
  end.

(** A log line that prints [v]: nothing to keep of it if the conversion
    returns. *)
Definition logged (v : JsValue) : Thrown + unit :=
  let* _ := to_string v in inr tt.

(** ** Protocol adapter *)

(** [Map<string, string[]>] in its iteration order, which is the order in
    which the keys were first set. *)
Abbreviation CapabilityMap := (list (string * list string)).

(** [Map.prototype.set]: a key already present keeps its place. *)
Fixpoint map_set {V : Type} (k : string) (v : V) (m : list (string * V))
  : list (string * V) :=
  match m with
  | [] => [(k, v)]
  | (k', v') :: rest =>
      if String.eqb k k' then (k, v) :: rest else (k', v') :: map_set k v rest
  end.

(** [handleHttpToMCP]: the body itself, or the error it throws.  A value
    that passes the test has a [jsonrpc] property, so it is an object. *)
Definition handleHttpToMCP (requestBody : JsValue) : Thrown + JsObject :=
  if negb (truthy requestBody)
     || negb (is_string "2.0" (member "jsonrpc" requestBody))
     || negb (truthy (member "method" requestBody))
  then inl (ThrownError "Invalid JSON-RPC request")
  else match requestBody with
       | JObj o => inr o
       | _ => inl (ThrownError "Invalid JSON-RPC request")
       end.

(** The loop of [resolveCapability] over [capabilityMap.entries()]. *)
Fixpoint scanCapabilities (capabilityToResolve : JsValue)
  (entries : CapabilityMap) : option string :=
  match entries with
  | [] => None
  | (serverId, capabilities) :: rest =>
      if includes capabilities capabilityToResolve then Some serverId
      else scanCapabilities capabilityToResolve rest
  end.

(** [resolveCapability]: [null] is [None].  Its three log lines print
    the method, then the routing key (with the backend found, or alone
    when none was found). *)
Definition resolveCapability (request : JsObject)
  (capabilityMap : CapabilityMap) : Thrown + option string :=
  let method := field "method" request in
  let params := field "params" request in
  let* _ := logged method in
  let capabilityToResolve := method in
  let capabilityToResolve :=
    if is_string "tools/call" method && truthy (opt_member "name" params)
    then member "name" params else capabilityToResolve in
  let capabilityToResolve :=
    if is_string "resources/read" method && truthy (opt_member "uri" params)
    then member "uri" params else capabilityToResolve in
  let capabilityToResolve :=
    if is_string "prompts/get" method && truthy (opt_member "name" params)
    then member "name" params else capabilityToResolve in
  match scanCapabilities capabilityToResolve capabilityMap with
  | Some serverId =>
      let* _ := logged capabilityToResolve in inr (Some serverId)
  | None =>
      let* _ := logged capabilityToResolve in inr None
  end.

(** ** Server manager *)

(** [ServerConfig] of [@mcp/schemas] (the fields the gateway reads). *)
Record ServerConfig : Type := mkServerConfig {
  cfg_url : string;
  cfg_capabilities : list string;
  cfg_healthCheckInterval : Z;
}.

(** [Record<string, ServerConfig>] as [Object.entries] lists it: one entry
    per key. *)
Abbreviation ServerConfigs := (list (string * ServerConfig)).

(** [ServerInstance]; dates are milliseconds since the epoch. *)
Record ServerInstance : Type := mkServerInstance {
  id : string;
  serverId : string;
  url : string;
  isHealthy : bool;
  lastHealthCheck : Z;
  activeConnections : Z;
  capabilities : list string;
}.

(** The [servers] map.  Its values are objects shared by reference: what
    [getServerInstance] hands out is the object stored under the key, so a
    reference to an instance is the key it is stored under. *)
Abbreviation Servers := (gmap string ServerInstance).

Definition set_isHealthy (h : bool) (now : Z) (s : ServerInstance)
  : ServerInstance :=
  {| id := id s; serverId := serverId s; url := url s;
     isHealthy := h; lastHealthCheck := now;
     activeConnections := activeConnections s;
     capabilities := capabilities s |}.

Definition set_activeConnections (n : Z) (s : ServerInstance)
  : ServerInstance :=
  {| id := id s; serverId := serverId s; url := url s;
     isHealthy := isHealthy s; lastHealthCheck := lastHealthCheck s;
     activeConnections := n;
     capabilities := capabilities s |}.

(** The constructor: one instance for each config with a truthy [url],
    unhealthy until the first check passes. *)
Definition newServerManager (serverConfigs : ServerConfigs) (now : Z)
  : Servers :=
  foldl (fun servers '(sid, config) =>
           if negb (String.eqb (cfg_url config) "")
           then <[sid := {| id := sid; serverId := sid;
                            url := cfg_url config;
                            isHealthy := false;
                            lastHealthCheck := now;
                            activeConnections := 0;
                            capabilities := cfg_capabilities config |}]>
                  servers
           else servers)
        ∅ serverConfigs.

(** How the [fetch] of [/health] ends: with a response and its status, or
    with an exception (abort after 5 s, network error). *)
Inductive ProbeOutcome : Type :=
| ProbeResponse (status : Z)
| ProbeThrew (error : Thrown).

(** [response.ok]. *)
Definition response_ok (status : Z) : bool :=
  (200 <=? status) && (status <=? 299).

(** [performHealthCheck], from the completion of its [fetch] on: the
    branch taken, then the [finally].  The object it writes to is the one
    it looked up before the [await]; nothing removes or replaces an
    entry of [servers], so that is the object under [serverId]. *)
Definition performHealthCheck (sid : string) (probe : ProbeOutcome)
  (now : Z) (servers : Servers) : Servers :=
  match servers !! sid with
  | None => servers
  | Some server =>
      if String.eqb (url server) "" then servers
      else
        let healthy := match probe with
                       | ProbeResponse status => response_ok status
                       | ProbeThrew _ => false
                       end in
        <[sid := set_isHealthy healthy now server]> servers
  end.

(** [getServerInstance]: the instance, checked out, or [null]. *)
Definition getServerInstance (sid : string) (servers : Servers)
  : option string * Servers :=
  match servers !! sid with
  | None => (None, servers)
  | Some server =>
      if negb (isHealthy server) then (None, servers)
      else (Some sid,
            <[sid := set_activeConnections (activeConnections server + 1)
                       server]> servers)
  end.

(** [releaseServerInstance]; an object that is not one of the manager's
    leaves the manager as it is. *)
Definition releaseServerInstance (instance : string) (servers : Servers)
  : Servers :=
  match servers !! instance with
  | None => servers
  | Some server =>
      if 0 <? activeConnections server
      then <[instance := set_activeConnections (activeConnections server - 1)
                           server]> servers
      else servers
  end.

(** What can happen to the manager after construction. *)
Inductive ServerEvent : Type :=
| HealthCheckCompleted (sid : string) (probe : ProbeOutcome) (now : Z)
| Checkout (sid : string)
| Release (instance : string).

Definition server_step (servers : Servers) (e : ServerEvent) : Servers :=
  match e with
  | HealthCheckCompleted sid probe now =>
      performHealthCheck sid probe now servers
  | Checkout sid => (getServerInstance sid servers).2
  | Release instance => releaseServerInstance instance servers
  end.

Definition server_run (servers : Servers) (events : list ServerEvent)
  : Servers :=
  foldl server_step servers events.

(** The outcome of the last health check of [sid] that completed. *)
Fixpoint lastProbe (sid : string) (events : list ServerEvent)
  (seen : option ProbeOutcome) : option ProbeOutcome :=
  match events with
  | [] => seen
  | HealthCheckCompleted sid' probe _ :: rest =>
      lastProbe sid rest (if String.eqb sid' sid then Some probe else seen)
  | _ :: rest => lastProbe sid rest seen
  end.

Definition observed_2xx (p : option ProbeOutcome) : bool :=
  match p with
  | Some (ProbeResponse status) => response_ok status
  | _ => false
  end.

(** ** Session manager *)

Inductive Transport : Type := Http | Websocket.

(** A WebSocket handle. *)
Abbreviation IWebSocket := nat.

(** [Session]; [serverConnections] is created empty and never written. *)
Record Session : Type := mkSession {
  session_id : string;
  userId : string;
  createdAt : Z;
  lastActivity : Z;
  transport : Transport;
  connection : option IWebSocket;
}.

(** The fields of [GatewayConfig] the session manager reads. *)
Record SessionConfig : Type := mkSessionConfig {
  sessionTimeout : Z;
  maxConcurrentSessions : Z;
}.

Abbreviation Sessions := (gmap string Session).

(** [createSession(userId, transport)]; [sessionId] is what [uuidv4()]
    returned and [now] what [new Date()] did. *)
Definition createSession (sessionId : string) (now : Z) (user : string)
  (tr : Transport) (sessions : Sessions) : Session * Sessions :=
  let session := {| session_id := sessionId; userId := user;
                    createdAt := now; lastActivity := now;
                    transport := tr; connection := None |} in
  (session, <[sessionId := session]> sessions).

Definition touch (now : Z) (s : Session) : Session :=
  {| session_id := session_id s; userId := userId s;
     createdAt := createdAt s; lastActivity := now;
     transport := transport s; connection := connection s |}.

(** [getSession]. *)
Definition getSession (sessionId : string) (now : Z) (sessions : Sessions)
  : option Session * Sessions :=
  match sessions !! sessionId with
  | Some session =>
      let session := touch now session in
      (Some session, <[sessionId := session]> sessions)
  | None => (None, sessions)
  end.

(** [attachWebSocket]. *)
Definition attachWebSocket (sessionId : string) (ws : IWebSocket)
  (sessions : Sessions) : bool * Sessions :=
  match sessions !! sessionId with
  | Some s =>
      (true, <[sessionId := {| session_id := session_id s;
                               userId := userId s;
                               createdAt := createdAt s;
                               lastActivity := lastActivity s;
                               transport := Websocket;
                               connection := Some ws |}]> sessions)
  | None => (false, sessions)
  end.

(** [removeSession]; closing the socket is an effect on the socket. *)
Definition removeSession (sessionId : string) (sessions : Sessions)
  : Sessions :=
  match sessions !! sessionId with
  | Some _ => delete sessionId sessions
  | None => sessions
  end.

(** [getActiveSessionCount]: [sessions.size]. *)
Definition getActiveSessionCount (sessions : Sessions) : Z :=
  Z.of_nat (size sessions).

(** [canCreateNewSession]. *)
Definition canCreateNewSession (config : SessionConfig) (sessions : Sessions)
  : bool :=
  getActiveSessionCount sessions <? maxConcurrentSessions config.

(** [cleanupExpiredSessions]: collect the expired ids, then remove them. *)
Definition cleanupExpiredSessions (config : SessionConfig) (now : Z)
  (sessions : Sessions) : Sessions :=
  let expiredSessions :=
    omap (fun '(sessionId, session) =>
            let timeSinceLastActivity := now - lastActivity session in
            if sessionTimeout config <? timeSinceLastActivity
            then Some sessionId else None)
         (map_to_list sessions) in
  foldl (fun sessions sessionId => removeSession sessionId sessions)
        sessions expiredSessions.

(** [getSessionFromAuthHeader]; [validateToken] is [jwt.verify] under the
    configured secret, [None] when it throws. *)
Definition getSessionFromAuthHeader (validateToken : string -> option string)
  (authHeader : string) (now : Z) (sessions : Sessions)
  : option Session * Sessions :=
  if negb (String.prefix "Bearer " authHeader) then (None, sessions)
  else
    let token := String.substring 7 (String.length authHeader - 7)%nat authHeader in
    match validateToken token with
    | Some sessionId =>
        if negb (String.eqb sessionId "") then getSession sessionId now sessions
        else (None, sessions)
    | None => (None, sessions)
    end.

(** ** Gateway *)

(** [handleWebSocketMessage]: the request, or [null] after a parse-error
    frame was sent on the socket.  [JSON_parse] is [JSON.parse], [None]
    where it throws; the second component is what was sent. *)
Definition handleWebSocketMessage (JSON_parse : string -> option JsValue)
  (message : string) : option JsObject * list JsValue :=
  let errorResponse :=
    JObj [("jsonrpc", JStr "2.0");
          ("error", JObj [("code", JNum (-32700));
                          ("message", JStr "Parse error")])] in
  match JSON_parse message with
  | None => (None, [errorResponse])
  | Some parsedMessage =>
      if negb (truthy parsedMessage)
         || negb (is_string "2.0" (member "jsonrpc" parsedMessage))
         || negb (truthy (member "method" parsedMessage))
      then (None, [errorResponse])
      else match parsedMessage with
           | JObj o => (Some o, [])
           | _ => (None, [errorResponse])
           end
  end.

Record GatewayConfig : Type := mkGatewayConfig {
  sessionConfig : SessionConfig;
  mcpServers : ServerConfigs;
}.

Record Gateway : Type := mkGateway {
  config : GatewayConfig;
  serverManager : Servers;
  sessionManager : Sessions;
  capabilityMap : CapabilityMap;
}.

Definition with_serverManager (servers : Servers) (gw : Gateway) : Gateway :=
  {| config := config gw; serverManager := servers;
     sessionManager := sessionManager gw;
     capabilityMap := capabilityMap gw |}.

Definition with_sessionManager (sessions : Sessions) (gw : Gateway)
  : Gateway :=
  {| config := config gw; serverManager := serverManager gw;
     sessionManager := sessions;
     capabilityMap := capabilityMap gw |}.

(** [buildCapabilityMap]. *)
Definition buildCapabilityMap (servers : ServerConfigs) : CapabilityMap :=
  foldl (fun m '(sid, c) => map_set sid (cfg_capabilities c) m) [] servers.

(** The constructor of [MCPGateway]. *)
Definition newGateway (c : GatewayConfig) (now : Z) : Gateway :=
  {| config := c;
     serverManager := newServerManager (mcpServers c) now;
     sessionManager := ∅;
     capabilityMap := buildCapabilityMap (mcpServers c) |}.

Definition protocolMethods : list string :=
  ["initialize"; "notifications/initialized"; "tools/list";
   "resources/list"; "prompts/list"; "ping"].

(** [isProtocolMethod]. *)
Definition isProtocolMethod (method : JsValue) : bool :=
  includes protocolMethods method.

(** [getCapabilityToResolve]. *)
Definition getCapabilityToResolve (request : JsObject) : JsValue :=
  let method := field "method" request in
  let params := field "params" request in
  if is_string "tools/call" method && truthy (opt_member "name" params)
  then member "name" params
  else if is_string "resources/read" method
          && truthy (opt_member "uri" params)
  then member "uri" params
  else if is_string "prompts/get" method && truthy (opt_member "name" params)
  then member "name" params
  else method.

(** How a [fetch] of a backend's [/mcp] ends: it throws, or it returns a
    response with [response.ok] and what [response.json()] gives. *)
Inductive FetchOutcome : Type :=
| FetchThrew (error : Thrown)
| FetchResponse (ok : bool) (json : Thrown + JsValue).

(** [...v] in an argument list: the elements of an array, the characters
    of a string (one per code point; strings are ASCII here), a
    [TypeError] on anything else. *)
Definition spread (v : JsValue) : option (list JsValue) :=
  match v with
  | JArr items => Some items
  | JStr s => Some ((fun a => JStr (String a "")) <$> String.list_ascii_of_string s)
  | _ => None
  end.

(** One turn of the loop of [getAvailableTools] (and of its two copies for
    resources and prompts, which differ in [key] only): what the backend
    adds to the list.  Whatever is thrown inside the [try] is caught. *)
Definition reported (key : string) (outcome : FetchOutcome) : list JsValue :=
  match outcome with
  | FetchThrew _ => []
  | FetchResponse false _ => []
  | FetchResponse true (inl _) => []
  | FetchResponse true (inr result) =>
      match member_strict "result" result with
      | None => []
      | Some r =>
          let items := opt_member key r in
          if truthy items
          then match spread items with
               | Some l => l
               | None => []
               end
          else []
      end
  end.

(** The loop over [Object.entries(this.config.mcpServers)]: the URLs
    fetched, in order, and the list built.  [fan] tells how the fetch sent
    to each backend ends. *)
Definition fanOut (key : string) (fan : string -> FetchOutcome)
  (servers : ServerConfigs) : list string * list JsValue :=
  foldl (fun '(fetched, all) '(sid, c) =>
           ((fetched ++ [cfg_url c +:+ "/mcp"])%list,
            (all ++ reported key (fan sid))%list))
        ([], []) servers.

Definition getAvailableTools (fan : string -> FetchOutcome) (gw : Gateway)
  : list string * list JsValue :=
  fanOut "tools" fan (mcpServers (config gw)).

Definition getAvailableResources (fan : string -> FetchOutcome) (gw : Gateway)
  : list string * list JsValue :=
  fanOut "resources" fan (mcpServers (config gw)).

Definition getAvailablePrompts (fan : string -> FetchOutcome) (gw : Gateway)
  : list string * list JsValue :=
  fanOut "prompts" fan (mcpServers (config gw)).

(** [handleProtocolMethod]: the URLs fetched and the response, or what
    the [default] branch throws when it prints the method. *)
Definition handleProtocolMethod (fan : string -> FetchOutcome) (gw : Gateway)
  (request : JsObject) : list string * (Thrown + JsValue) :=
  let method := field "method" request in
  if is_string "initialize" method then
    ([], inr (JObj [("jsonrpc", JStr "2.0"); ("id", field "id" request);
                    ("result",
                     JObj [("protocolVersion", JStr "2024-11-05");
                           ("capabilities", JObj [("tools", JObj []);
                                                  ("resources", JObj []);
                                                  ("prompts", JObj [])]);
                           ("serverInfo",
                            JObj [("name", JStr "omni-mcp-gateway");
                                  ("version", JStr "1.0.0")])])]))
  else if is_string "notifications/initialized" method then
    ([], inr (JObj [("jsonrpc", JStr "2.0"); ("id", field "id" request);
                    ("result", JObj [])]))
  else if is_string "tools/list" method then
    let '(fetched, tools) := getAvailableTools fan gw in
    (fetched, inr (JObj [("jsonrpc", JStr "2.0"); ("id", field "id" request);
                         ("result", JObj [("tools", JArr tools)])]))
  else if is_string "resources/list" method then
    let '(fetched, resources) := getAvailableResources fan gw in
    (fetched, inr (JObj [("jsonrpc", JStr "2.0"); ("id", field "id" request);
                         ("result", JObj [("resources", JArr resources)])]))
  else if is_string "prompts/list" method then
    let '(fetched, prompts) := getAvailablePrompts fan gw in
    (fetched, inr (JObj [("jsonrpc", JStr "2.0"); ("id", field "id" request);
                         ("result", JObj [("prompts", JArr prompts)])]))
  else if is_string "ping" method then
    ([], inr (JObj [("jsonrpc", JStr "2.0"); ("id", field "id" request);
                    ("result", JObj [])]))
  else
    ([], let* text := to_string method in
         inr (JObj [("jsonrpc", JStr "2.0"); ("id", field "id" request);
                    ("error",
                     JObj [("code", JNum (-32601));
                           ("message", JStr "Method not found");
                           ("data", JStr ("Protocol method " +:+ text
                                          +:+ " not implemented"))])])).

(** The [try] around the proxied fetch, without its [finally]: the
    backend's response, or what is thrown.  [mcpResponse.error] is read
    only of a 2xx response, and reading it of [null] is a [TypeError]. *)
Definition proxied (proxy : FetchOutcome) : Thrown + JsValue :=
  match proxy with
  | FetchThrew e => inl e
  | FetchResponse _ (inl e) => inl e
  | FetchResponse ok (inr mcpResponse) =>
      if negb ok then inr mcpResponse
      else match mcpResponse with
           | JNull =>
               inl (ThrownError
                      "Cannot read properties of null (reading 'error')")
           | JUndefined =>
               inl (ThrownError
                      "Cannot read properties of undefined (reading 'error')")
           | _ => inr mcpResponse
           end
  end.

(** What a call of the gateway leaves behind: the gateway, the URLs it
    posted to, and its reply (for a call that can throw, the reply or
    what it throws). *)
Record Outcome (R : Type) : Type := mkOutcome {
  gateway : Gateway;
  fetched : list string;
  reply : R;
}.

Arguments mkOutcome {R} _ _ _.
Arguments gateway {R} _.
Arguments fetched {R} _.
Arguments reply {R} _.

(** The error object the [catch] of [routeAndExecuteRequest] returns. *)
Definition internal_error (request : JsObject) (e : Thrown) : JsValue :=
  JObj [("jsonrpc", JStr "2.0"); ("id", field "id" request);
        ("error", JObj [("code", JNum (-32603));
                        ("message", JStr "Internal error");
                        ("data", JStr (error_message e))])].

(** [routeAndExecuteRequest].  [proxy] tells how the forwarded fetch ends
    and [fan] how each fetch of a fan-out does; of [session] only the id,
    a string, is logged.  The entry log, which prints [request.id] and
    the method, stands before the [try]: what it throws leaves the call.
    What is thrown inside the [try] is caught and answered with -32603.
    The call is taken in one piece, from the checkout to the release of
    its [finally]; what other calls do to the counters in between is the
    subject of [server_run]. *)
Definition routeAndExecuteRequest (proxy : FetchOutcome)
  (fan : string -> FetchOutcome) (gw : Gateway) (request : JsObject)
  (session : Session) : Outcome (Thrown + JsValue) :=
  let method := field "method" request in
  match (let* _ := logged (field "id" request) in logged method) with
  | inl e => {| gateway := gw; fetched := []; reply := inl e |}
  | inr _ =>
      if isProtocolMethod method then
        match handleProtocolMethod fan gw request with
        | (urls, inr response) =>
            {| gateway := gw; fetched := urls; reply := inr response |}
        | (urls, inl e) =>
            {| gateway := gw; fetched := urls;
               reply := inr (internal_error request e) |}
        end
      else
        let notFound :=
          match to_string (getCapabilityToResolve request) with
          | inl e => {| gateway := gw; fetched := [];
                        reply := inr (internal_error request e) |}
          | inr text =>
              {| gateway := gw; fetched := [];
                 reply :=
                   inr (JObj [("jsonrpc", JStr "2.0");
                              ("id", field "id" request);
                              ("error",
                               JObj [("code", JNum (-32601));
                                     ("message", JStr "Method not found");
                                     ("data",
                                      JStr ("No server found for capability: "
                                            +:+ text))])]) |}
          end in
        match resolveCapability request (capabilityMap gw) with
        | inl e => {| gateway := gw; fetched := [];
                      reply := inr (internal_error request e) |}
        | inr None => notFound
        | inr (Some sid) =>
            if String.eqb sid "" then notFound
            else
              match getServerInstance sid (serverManager gw) with
              | (None, servers) =>
                  {| gateway := with_serverManager servers gw; fetched := [];
                     reply :=
                       inr (JObj [("jsonrpc", JStr "2.0");
                                  ("id", field "id" request);
                                  ("error",
                                   JObj [("code", JNum (-32603));
                                         ("message", JStr "Internal error");
                                         ("data",
                                          JStr ("No healthy server instances available for: "
                                                +:+ sid))])]) |}
              | (Some serverInstance, servers) =>
                  let target :=
                    match servers !! serverInstance with
                    | Some s => url s
                    | None => ""
                    end in
                  let response :=
                    match proxied proxy with
                    | inr mcpResponse => mcpResponse
                    | inl e => internal_error request e
                    end in
                  {| gateway := with_serverManager
                                  (releaseServerInstance serverInstance servers)
                                  gw;
                     fetched := [target +:+ "/mcp"];
                     reply := inr response |}
              end
        end
  end.

(** [HTTPHeaders]: the two spellings the gateway reads. *)
Record HTTPHeaders : Type := mkHeaders {
  authorization : option string;
  Authorization : option string;
}.

(** [getSessionFromHeaders]. *)
Definition getSessionFromHeaders (validateToken : string -> option string)
  (headers : HTTPHeaders) (now : Z) (sessions : Sessions)
  : option Session * Sessions :=
  let authHeader :=
    match authorization headers with
    | Some h => if negb (String.eqb h "") then Some h
                else Authorization headers
    | None => Authorization headers
    end in
  match authHeader with
  | Some h =>
      if negb (String.eqb h "")
      then getSessionFromAuthHeader validateToken h now sessions
      else (None, sessions)
  | None => (None, sessions)
  end.

(** The object the [catch] of [handleHttpRequest] returns. *)
Definition http_failure (e : Thrown) : JsValue :=
  JObj [("success", JBool false); ("error", JStr (error_message e))].

(** [handleHttpRequest].  [uuid] and [now] are what [uuidv4()] and
    [new Date()] give if a session is created or refreshed.  Its [catch]
    takes the capacity error, the envelope error and whatever leaves
    [routeAndExecuteRequest]. *)
Definition handleHttpRequest (validateToken : string -> option string)
  (uuid : string) (now : Z) (proxy : FetchOutcome)
  (fan : string -> FetchOutcome) (gw : Gateway) (requestBody : JsValue)
  (headers : HTTPHeaders) : Outcome JsValue :=
  let '(found, sessions) :=
    getSessionFromHeaders validateToken headers now (sessionManager gw) in
  let established : Thrown + (Session * Sessions) :=
    match found with
    | Some session => inr (session, sessions)
    | None =>
        if negb (canCreateNewSession (sessionConfig (config gw)) sessions)
        then inl (ThrownError "Maximum concurrent sessions reached")
        else inr (createSession uuid now "anonymous" Http sessions)
    end in
  match established with
  | inl e => {| gateway := with_sessionManager sessions gw;
                fetched := []; reply := http_failure e |}
  | inr (session, sessions) =>
      let gw := with_sessionManager sessions gw in
      match handleHttpToMCP requestBody with
      | inl e => {| gateway := gw; fetched := []; reply := http_failure e |}
      | inr mcpRequest =>
          let routed := routeAndExecuteRequest proxy fan gw mcpRequest session in
          {| gateway := gateway routed; fetched := fetched routed;
             reply := match reply routed with
                      | inr mcpResponse => mcpResponse
                      | inl e => http_failure e
                      end |}
      end
  end.

(** [new Set(xs)]: the first occurrence of each element, in order. *)
Fixpoint dedupe (xs : list string) (seen : list string) : list string :=
  match xs with
  | [] => []
  | x :: rest =>
      if existsb (String.eqb x) seen then dedupe rest seen
      else x :: dedupe rest (x :: seen)
  end.

Fixpoint insert_sorted (x : string) (xs : list string) : list string :=
  match xs with
  | [] => [x]
  | y :: rest => if String.leb x y then x :: y :: rest
                 else y :: insert_sorted x rest
  end.

(** [getAvailableCapabilities]: every capability once, sorted. *)
Definition getAvailableCapabilities (gw : Gateway) : list string :=
  let allCapabilities := concat (snd <$> capabilityMap gw) in
  foldr insert_sorted [] (dedupe allCapabilities []).

(** What [handleWebSocketConnection] does before any message arrives:
    the session is created and bound, then the welcome frame is built
    and sent and the listeners are registered.  [generateToken] is
    [jwt.sign] under the configured secret, which throws for a secret it
    does not accept (the empty one); what it throws leaves the handler,
    after the session was stored and before any frame or listener.  The
    third component is that exception, or the frames sent by a handler
    that ran to its end. *)
Definition handleWebSocketConnection
  (generateToken : string -> Thrown + string)
  (uuid : string) (now : Z) (ws : IWebSocket) (gw : Gateway)
  : Gateway * Session * (Thrown + list JsValue) :=
  let '(session, sessions) :=
    createSession uuid now "websocket-user" Websocket (sessionManager gw) in
  let '(_, sessions) := attachWebSocket (session_id session) ws sessions in
  let gw' := with_sessionManager sessions gw in
  (gw', session,
   let* sessionToken := generateToken (session_id session) in
   inr [JObj [("type", JStr "connection");
              ("sessionId", JStr (session_id session));
              ("sessionToken", JStr sessionToken);
              ("capabilities", JArr (JStr <$> getAvailableCapabilities gw'))]]).

(** The [message] listener of a connection: the gateway afterwards, the
    URLs fetched and the frames sent on the socket.  What leaves
    [routeAndExecuteRequest] is answered by the [catch] of the listener
    with a -32603 frame that has no [id]. *)
Definition onWebSocketMessage (JSON_parse : string -> option JsValue)
  (proxy : FetchOutcome) (fan : string -> FetchOutcome) (gw : Gateway)
  (session : Session) (message : string)
  : Gateway * list string * list JsValue :=
  match handleWebSocketMessage JSON_parse message with
  | (None, frames) => (gw, [], frames)
  | (Some mcpRequest, frames) =>
      let o := routeAndExecuteRequest proxy fan gw mcpRequest session in
      let frame :=
        match reply o with
        | inr mcpResponse => mcpResponse
        | inl e =>
            JObj [("jsonrpc", JStr "2.0");
                  ("error", JObj [("code", JNum (-32603));
                                  ("message", JStr "Internal error");
                                  ("data", JStr (error_message e))])]
        end in
      (gateway o, fetched o, (frames ++ [frame])%list)
  end.

(** The [close] and [error] listeners of a connection. *)
Definition onWebSocketClosed (gw : Gateway) (session : Session) : Gateway :=
  with_sessionManager
    (removeSession (session_id session) (sessionManager gw)) gw.

(** The tick of the cleanup interval. *)
Definition onCleanupTick (now : Z) (gw : Gateway) : Gateway :=
  with_sessionManager
    (cleanupExpiredSessions (sessionConfig (config gw)) now
       (sessionManager gw)) gw.

(** A JSON-RPC error object: [jsonrpc] is "2.0" and [error] is an object
    with a numeric [code] and a string [message]. *)
Definition is_jsonrpc_error (v : JsValue) : bool :=
  is_string "2.0" (member "jsonrpc" v)
  && match member "error" v with
     | JObj e =>
         match field "code" e, field "message" e with
         | JNum _, JStr _ => true
         | _, _ => false
         end
     | _ => false
     end.

(** ** Specification-side definitions *)

(** The routing key as the design document tabulates it: [params.name] for
    [tools/call], [params.uri] for [resources/read], [params.name] for
    [prompts/get], the method itself otherwise. *)
Definition spec_routingKey (request : JsObject) : JsValue :=
  let method := field "method" request in
  let params := field "params" request in
  if is_string "tools/call" method then member "name" params
  else if is_string "resources/read" method then member "uri" params
  else if is_string "prompts/get" method then member "name" params
  else method.

(** The owner as the design document words it: the first backend, in the
    iteration order of the capability map, whose capability list contains
    the key; none if no list does. *)
Definition spec_firstOwner (key : JsValue) (capabilityMap : CapabilityMap)
  : option string :=
  fst <$> List.find (fun entry => includes entry.2 key) capabilityMap.

(** The routing parameter of a method that has one. *)
Definition routingParameter (request : JsObject) : option JsValue :=
  let method := field "method" request in
  let params := field "params" request in
  if is_string "tools/call" method then Some (member "name" params)
  else if is_string "resources/read" method then Some (member "uri" params)
  else if is_string "prompts/get" method then Some (member "name" params)
  else None.

(** The request carries the parameter its method routes on (a request of
    any other method routes on the method and needs none). *)
Definition carriesRoutingParameter (request : JsObject) : bool :=
  match routingParameter request with
  | Some v => truthy v
  | None => true
  end.

(** The routing key with the fallback of the code: the tabulated parameter
    when the request carries it, the method otherwise. *)
Definition routingKey (request : JsObject) : JsValue :=
  if carriesRoutingParameter request then spec_routingKey request
  else field "method" request.

(** [String(v)] returns: [v] can stand in a template literal.  Every
    string, number and boolean does, and [null] and [undefined]. *)
Definition printable (v : JsValue) : bool :=
  match to_string v with
  | inr _ => true
  | inl _ => false
  end.

(** The list a backend reports to a fan-out, as the design document
    words it: the list under [result.<key>] of its answer if its call
    returned a 2xx response, nothing if the call threw or returned
    another status. *)
Definition spec_reportedList (key : string) (outcome : FetchOutcome)
  : list JsValue :=
  match outcome with
  | FetchResponse true (inr body) =>
      match member key (member "result" body) with
      | JArr items => items
      | _ => []
      end
  | _ => []
  end.

(** The answer of the backend does not hold a string where the list is
    expected (the spread of [allTools.push(...)] takes a string apart
    into its characters). *)
Definition reports_no_string (key : string) (outcome : FetchOutcome) : bool :=
  match outcome with
  | FetchResponse true (inr body) =>
      match member key (member "result" body) with
      | JStr s => String.eqb s ""
      | _ => true
      end
  | _ => true
  end.

(** Counting what happens to the instance of backend [B] along a trace:
    the checkouts that returned it, the releases of it, and those of the
    releases that found its counter at zero. *)
Record Tally : Type := mkTally {
  checkouts : Z;
  releases : Z;
  unmatched : Z;
}.

Definition tally_step (B : string) (servers : Servers) (e : ServerEvent)
  (t : Tally) : Tally :=
  match e with
  | Checkout sid =>
      if String.eqb sid B
      then match (getServerInstance sid servers).1 with
           | Some _ => {| checkouts := checkouts t + 1;
                          releases := releases t;
                          unmatched := unmatched t |}
           | None => t
           end
      else t
  | Release instance =>
      if String.eqb instance B
      then match servers !! instance with
           | Some s => {| checkouts := checkouts t;
                          releases := releases t + 1;
                          unmatched := unmatched t
                                       + (if 0 <? activeConnections s
                                          then 0 else 1) |}
           | None => t
           end
      else t
  | HealthCheckCompleted _ _ _ => t
  end.

Fixpoint tally (B : string) (servers : Servers) (events : list ServerEvent)
  (t : Tally) : Tally :=
  match events with
  | [] => t
  | e :: rest => tally B (server_step servers e) rest (tally_step B servers e t)
  end.

Definition no_tally : Tally :=
  {| checkouts := 0; releases := 0; unmatched := 0 |}.

(** [activeConnections] of backend [B], if the manager has it. *)
Definition connectionsOf (B : string) (servers : Servers) : option Z :=
  activeConnections <$> servers !! B.

(** The counter of [B] minus what the tally accounts for. *)
Definition drift (B : string) (servers : Servers) (t : Tally) : option Z :=
  (fun n => n - (checkouts t - releases t + unmatched t))
    <$> connectionsOf B servers.

(** [error.code] of a reply. *)
Definition error_code (v : JsValue) : JsValue := member "code" (member "error" v).

(** What the constructor builds: every instance has a URL, is unhealthy
    and has no connection. *)
Definition fresh (servers : Servers) : Prop :=
  forall k s, servers !! k = Some s ->
              url s <> "" /\ isHealthy s = false /\ activeConnections s = 0.

(** The health flag of [B] is what its last completed check observed. *)
Definition gated (B : string) (seen : option ProbeOutcome)
           (servers : Servers) : Prop :=
  forall s, servers !! B = Some s ->
            url s <> "" /\ isHealthy s = observed_2xx seen.

Definition seen_after (B : string) (e : ServerEvent)
           (seen : option ProbeOutcome) : option ProbeOutcome :=
  match e with
  | HealthCheckCompleted sid probe _ =>
      if String.eqb sid B then Some probe else seen
  | _ => seen
  end.

(** ** Example configuration *)

Definition linearConfig : ServerConfig :=
  mkServerConfig "http://localhost:3001"
    ["linear_get_teams"; "linear://teams"; "create_issue_workflow"] 15000.

Definition perplexityConfig : ServerConfig :=
  mkServerConfig "http://localhost:3002"
    ["perplexity_search"; "linear_get_teams"] 15000.

Definition exampleServers : ServerConfigs :=
  [("linear", linearConfig); ("perplexity", perplexityConfig)].

Definition exampleConfig : GatewayConfig :=
  mkGatewayConfig (mkSessionConfig 3600000 100) exampleServers.

Definition exampleGateway : Gateway := newGateway exampleConfig 0.

Definition exampleSession : Session :=
  mkSession "s-1" "anonymous" 0 0 Http None.

(** [{jsonrpc: "2.0", id, method: "tools/call", params: {name}}]. *)
Definition toolsCall (id : JsValue) (name : string) : JsObject :=
  [("jsonrpc", JStr "2.0"); ("id", id); ("method", JStr "tools/call");
   ("params", JObj [("name", JStr name)])].

(** [{jsonrpc: "2.0", id: 7, method: "resources/read"}], without params. *)
Definition resourcesReadBare : JsObject :=
  [("jsonrpc", JStr "2.0"); ("id", JNum 7); ("method", JStr "resources/read")].

(** The first health check of [linear] completes with status 200. *)
Definition linearUp : list ServerEvent :=
  [HealthCheckCompleted "linear" (ProbeResponse 200) 5].

(** [linear] comes up, is checked out once and released twice. *)
Definition doubleRelease : list ServerEvent :=
  [HealthCheckCompleted "linear" (ProbeResponse 200) 5;
   Checkout "linear"; Release "linear"; Release "linear"].

(** The example gateway after [linearUp]. *)
Definition gatewayLinearUp : Gateway :=
  with_serverManager (server_run (serverManager exampleGateway) linearUp)
    exampleGateway.

(** A backend that answers a forwarded call with a result. *)
Definition backendAnswers : FetchOutcome :=
  FetchResponse true
    (inr (JObj [("jsonrpc", JStr "2.0"); ("id", JNum 1);
                ("result", JObj [("content", JArr [])])])).

(** Every backend of a fan-out is down. *)
Definition allDown : string -> FetchOutcome :=
  fun _ => FetchThrew (ThrownError "connect ECONNREFUSED").



(** The backend's [fetch] fails. *)
Definition backendUnreachable : FetchOutcome :=
  FetchThrew (ThrownError "connect ECONNREFUSED").

(** Three backends; [devtools] is not marked healthy, nor is any other. *)
Definition threeServers : ServerConfigs :=
  [("linear", linearConfig); ("perplexity", perplexityConfig);
   ("devtools", mkServerConfig "http://localhost:3004" ["console_log"] 15000)].

Definition threeGateway : Gateway :=
  newGateway (mkGatewayConfig (mkSessionConfig 3600000 100) threeServers) 0.

(** A backend's answer to [tools/list] with the given tools. *)
Definition toolsAnswer (tools : list JsValue) : FetchOutcome :=
  FetchResponse true
    (inr (JObj [("jsonrpc", JStr "2.0"); ("id", JStr "tools_0");
                ("result", JObj [("tools", JArr tools)])])).

Definition tool (name : string) : JsValue :=
  JObj [("name", JStr name); ("description", JStr "");
        ("inputSchema", JObj [])].

(** [perplexity] fails its [tools/list] call; the other two answer. *)
Definition oneFails : string -> FetchOutcome :=
  fun sid =>
    if String.eqb sid "linear" then toolsAnswer [tool "linear_get_teams"]
    else if String.eqb sid "perplexity"
    then FetchThrew (ThrownError "connect ECONNREFUSED")
    else toolsAnswer [tool "console_log"].

(** [{jsonrpc: "2.0", id, method}]. *)
Definition bareRequest (id : JsValue) (method : string) : JsObject :=
  [("jsonrpc", JStr "2.0"); ("id", id); ("method", JStr method)].

(** A gateway that admits one session. *)
Definition tinyConfig : GatewayConfig :=
  mkGatewayConfig (mkSessionConfig 1000 1) exampleServers.

Definition tinyGateway : Gateway := newGateway tinyConfig 0.

Definition exampleToken : string -> Thrown + string :=
  fun sid => inr ("jwt." +:+ sid).

(** The gateway after one, and after two, WebSocket connections. *)
Definition oneSocket : Gateway :=
  (handleWebSocketConnection exampleToken "ws-1" 10 1 tinyGateway).1.1.

Definition twoSockets : Gateway :=
  (handleWebSocketConnection exampleToken "ws-2" 20 2 oneSocket).1.1.

(** A session created at time 0 under a timeout of 1000 ms. *)
Definition oneSession : Sessions :=
  (createSession "s-1" 0 "anonymous" Http ∅).2.

(** No header carries a token. *)
Definition noHeaders : HTTPHeaders := mkHeaders None None.

Definition noToken : string -> option string := fun _ => None.

(** A body without [jsonrpc]. *)
Definition malformedBody : JsValue := JObj [("method", JStr "ping")].

(** A gateway that admits no session. *)
Definition fullGateway : Gateway :=
  newGateway (mkGatewayConfig (mkSessionConfig 1000 0) exampleServers) 0.

(** A [JSON.parse] that rejects every frame. *)
Definition parseNothing : string -> option JsValue := fun _ => None.

(** [{jsonrpc: "2.0", id: 7, method: "tools/call"}], without params, and a
    capability map in which a backend declares the capability
    [tools/call]. *)
Definition toolsCallBare : JsObject :=
  [("jsonrpc", JStr "2.0"); ("id", JNum 7); ("method", JStr "tools/call")].

Definition relayMap : CapabilityMap := [("relay", ["tools/call"])].

(** ** More of the gateway *)

(** *** Server manager: health report, start-up, shutdown *)

(** One entry of [HealthStatus]. *)
Record HealthEntry : Type := mkHealthEntry {
  instances : Z;
  healthy : Z;
  reported_capabilities : list string;
  lastCheck : string;
}.

(** [getHealthStatus]: one entry under the id of each backend.
    [toISOString] is [Date.prototype.toISOString]. *)
Definition getHealthStatus (toISOString : Z -> string) (servers : Servers)
  : gmap string HealthEntry :=
  (fun server =>
     {| instances := 1;
        healthy := if isHealthy server then 1 else 0;
        reported_capabilities := capabilities server;
        lastCheck := toISOString (lastHealthCheck server) |})
    <$> servers.

(** The manager with its timers: a timer is kept as the period it runs
    under, and each of its ticks is a [performHealthCheck]. *)
Record ServerManager : Type := mkServerManager {
  mgr_servers : Servers;
  healthCheckIntervals : gmap string Z;
  mgr_serverConfigs : ServerConfigs;
}.

Definition newManager (serverConfigs : ServerConfigs) (now : Z)
  : ServerManager :=
  {| mgr_servers := newServerManager serverConfigs now;
     healthCheckIntervals := ∅;
     mgr_serverConfigs := serverConfigs |}.

(** [getServerConfig]: [this.serverConfigs[serverId]]. *)
Fixpoint getServerConfig (sid : string) (serverConfigs : ServerConfigs)
  : option ServerConfig :=
  match serverConfigs with
  | [] => None
  | (k, c) :: rest =>
      if String.eqb sid k then Some c else getServerConfig sid rest
  end.

(** The period [setInterval(callback, delay)] of Node gives its timer: a
    delay below 1 or above 2^31 - 1 is replaced by 1. *)
Definition setInterval (delay : Z) : Z :=
  if (1 <=? delay) && (delay <=? 2147483647) then delay else 1.

(** [startHealthChecks]. *)
Definition startHealthChecks (sid : string) (m : ServerManager)
  : ServerManager :=
  match mgr_servers m !! sid with
  | None => m
  | Some _ =>
      let healthCheckInterval :=
        match getServerConfig sid (mgr_serverConfigs m) with
        | Some c => if cfg_healthCheckInterval c =? 0 then 30000
                    else cfg_healthCheckInterval c
        | None => 30000
        end in
      {| mgr_servers := mgr_servers m;
         healthCheckIntervals :=
           <[sid := setInterval healthCheckInterval]> (healthCheckIntervals m);
         mgr_serverConfigs := mgr_serverConfigs m |}
  end.

(** [this.servers.keys()]: the keys in the order in which the
    constructor first set them, which is the order of the configuration
    entries that have a URL. *)
Definition serverKeys (serverConfigs : ServerConfigs) : list string :=
  dedupe (filter (fun entry => negb (String.eqb (cfg_url entry.2) ""))
            serverConfigs).*1 [].

(** A health check started by a timer completes.  Only a timer that was
    started ticks. *)
Definition timerTick (m : ServerManager) (t : string * ProbeOutcome * Z)
  : ServerManager :=
  match healthCheckIntervals m !! t.1.1 with
  | Some _ =>
      {| mgr_servers := performHealthCheck t.1.1 t.1.2 t.2 (mgr_servers m);
         healthCheckIntervals := healthCheckIntervals m;
         mgr_serverConfigs := mgr_serverConfigs m |}
  | None => m
  end.

(** One turn of the loop of [initialize]: the first health check of
    [sid], awaited, then its timer.  [probe] and [now] tell how the first
    check of a backend ends and when; [ticks sid] lists the checks of the
    timers already running that complete while the first check of [sid]
    is awaited. *)
Definition firstCheck (probe : string -> ProbeOutcome) (now : string -> Z)
  (ticks : string -> list (string * ProbeOutcome * Z)) (m : ServerManager)
  (sid : string) : ServerManager :=
  let m := foldl timerTick m (ticks sid) in
  startHealthChecks sid
    {| mgr_servers :=
         performHealthCheck sid (probe sid) (now sid) (mgr_servers m);
       healthCheckIntervals := healthCheckIntervals m;
       mgr_serverConfigs := mgr_serverConfigs m |}.

(** [initialize]: the loop over the keys of [servers]. *)
Definition initialize (probe : string -> ProbeOutcome) (now : string -> Z)
  (ticks : string -> list (string * ProbeOutcome * Z)) (m : ServerManager)
  : ServerManager :=
  foldl (firstCheck probe now ticks) m (serverKeys (mgr_serverConfigs m)).

(** [shutdown] of the server manager. *)
Definition shutdownServerManager (m : ServerManager) : ServerManager :=
  {| mgr_servers := mgr_servers m;
     healthCheckIntervals := ∅;
     mgr_serverConfigs := mgr_serverConfigs m |}.

(** *** The gateway as a whole *)

(** What the server delivers to the gateway.  A run takes the handlers
    one after the other, each to completion. *)
Inductive GatewayEvent : Type :=
| HttpRequest (validateToken : string -> option string) (uuid : string)
    (now : Z) (proxy : FetchOutcome) (fan : string -> FetchOutcome)
    (requestBody : JsValue) (headers : HTTPHeaders)
| WebSocketOpened (generateToken : string -> Thrown + string) (uuid : string)
    (now : Z) (ws : IWebSocket)
| WebSocketMessage (JSON_parse : string -> option JsValue)
    (proxy : FetchOutcome) (fan : string -> FetchOutcome)
    (session : Session) (message : string)
| WebSocketClosed (session : Session)
| CleanupTick (now : Z)
| HealthCheckTick (sid : string) (probe : ProbeOutcome) (now : Z).

Definition gateway_step (gw : Gateway) (e : GatewayEvent) : Gateway :=
  match e with
  | HttpRequest validateToken uuid now proxy fan requestBody headers =>
      gateway (handleHttpRequest validateToken uuid now proxy fan gw
                 requestBody headers)
  | WebSocketOpened generateToken uuid now ws =>
      (handleWebSocketConnection generateToken uuid now ws gw).1.1
  | WebSocketMessage JSON_parse proxy fan session message =>
      (onWebSocketMessage JSON_parse proxy fan gw session message).1.1
  | WebSocketClosed session => onWebSocketClosed gw session
  | CleanupTick now => onCleanupTick now gw
  | HealthCheckTick sid probe now =>
      with_serverManager
        (performHealthCheck sid probe now (serverManager gw)) gw
  end.

Definition gateway_run (gw : Gateway) (events : list GatewayEvent)
  : Gateway :=
  foldl gateway_step gw events.

Definition opens_socket (e : GatewayEvent) : bool :=
  match e with
  | WebSocketOpened _ _ _ _ => true
  | _ => false
  end.

(** No backend has an instance checked out. *)
Definition quiescent (servers : Servers) : Prop :=
  map_Forall (fun _ s => activeConnections s = 0) servers.

(** No counter is negative. *)
Definition counters_nonneg (servers : Servers) : Prop :=
  map_Forall (fun _ s => 0 <= activeConnections s) servers.

(** What every handler keeps: the configuration, the capability map, the
    set of backends, and all counters at zero. *)
Definition settled (c : GatewayConfig) (t0 : Z) (gw : Gateway) : Prop :=
  config gw = c
  /\ capabilityMap gw = buildCapabilityMap (mcpServers c)
  /\ quiescent (serverManager gw)
  /\ dom (serverManager gw) = dom (newServerManager (mcpServers c) t0).

(** *** Security middleware *)

(** [typeof v]. *)
Definition js_typeof (v : JsValue) : string :=
  match v with
  | JUndefined => "undefined"
  | JNull | JArr _ | JObj _ => "object"
  | JBool _ => "boolean"
  | JNum _ => "number"
  | JStr _ => "string"
  end.

Definition is_undefined (v : JsValue) : bool :=
  match v with
  | JUndefined => true
  | _ => false
  end.

(** [validateMCPRequest]: [valid] and [errors]. *)
Definition validateMCPRequest (body : JsValue) : bool * list string :=
  if negb (truthy body) || negb (String.eqb (js_typeof body) "object")
  then (false, ["Request body must be a valid JSON object"])
  else
    let errors : list string := [] in
    let errors :=
      if negb (is_string "2.0" (member "jsonrpc" body))
      then (errors ++ ["jsonrpc field must be '2.0'"])%list else errors in
    let errors :=
      if negb (truthy (member "method" body))
         || negb (String.eqb (js_typeof (member "method" body)) "string")
      then (errors ++ ["method field is required and must be a string"])%list
      else errors in
    let errors :=
      if negb (is_undefined (member "id" body))
         && negb (String.eqb (js_typeof (member "id" body)) "string")
         && negb (String.eqb (js_typeof (member "id" body)) "number")
      then (errors ++ ["id field must be a string or number if provided"])%list
      else errors in
    let errors :=
      if is_string "tools/call" (member "method" body) then
        let params := member "params" body in
        if negb (truthy params)
           || negb (String.eqb (js_typeof params) "object")
        then (errors ++ ["params field is required for tools/call"])%list
        else
          let errors :=
            if negb (truthy (member "name" params))
               || negb (String.eqb (js_typeof (member "name" params))
                          "string")
            then (errors ++ ["params.name is required for tools/call"])%list
            else errors in
          if truthy (member "arguments" params)
             && negb (String.eqb (js_typeof (member "arguments" params))
                        "object")
          then (errors
                ++ ["params.arguments must be an object if provided"])%list
          else errors
      else errors in
    (Nat.eqb (List.length errors) 0, errors).

(** [s.charCodeAt(i)] of the character at [i]. *)
Definition charCode (a : Ascii.ascii) : Z := Z.of_N (Ascii.N_of_ascii a).

(** The loop of [isValidApiKey] from index [i] on, [result] so far:
    [result |= providedKey.charCodeAt(i) ^ configuredKey.charCodeAt(i)]. *)
Fixpoint accumulateDifferences (result : Z) (providedKey configuredKey : string)
  : Z :=
  match providedKey, configuredKey with
  | String a p, String b c =>
      accumulateDifferences (Z.lor result (Z.lxor (charCode a) (charCode b)))
        p c
  | _, _ => result
  end.

(** [isValidApiKey]. *)
Definition isValidApiKey (providedKey configuredKey : string) : bool :=
  if negb (Nat.eqb (String.length providedKey) (String.length configuredKey))
  then false
  else accumulateDifferences 0 providedKey configuredKey =? 0.

(** ["*".repeat(n)]. *)
Fixpoint stars (n : nat) : string :=
  match n with
  | O => ""
  | S n' => String "*"%char (stars n')
  end.

(** [maskApiKey]. *)
Definition maskApiKey (apiKey : string) : string :=
  if (String.length apiKey <=? 8)%nat then stars (String.length apiKey)
  else String.substring 0 8 apiKey
       +:+ stars (String.length apiKey - 8)%nat.

(** *** The static capability lookup of [@mcp/utils] *)

(** [MCPServerDefinition] (the fields the two functions read). *)
Record MCPServerDefinition : Type := mkServerDefinition {
  def_port : Z;
  def_productionUrl : string;
  def_envVar : string;
  def_isEnabled : bool;
  def_tools : list string;
  def_resources : list string;
  def_prompts : list string;
}.

(** [getServerByCapability]. *)
Fixpoint getServerByCapability
  (allMcpServers : list (string * MCPServerDefinition)) (capability : string)
  : option string :=
  match allMcpServers with
  | [] => None
  | (serverName, server) :: rest =>
      if includes (def_tools server) (JStr capability)
         || includes (def_resources server) (JStr capability)
         || includes (def_prompts server) (JStr capability)
      then Some serverName
      else getServerByCapability rest capability
  end.

(** The one-character string holding a double quote. *)
Definition double_quote : string := String (Ascii.ascii_of_nat 34) "".

(** [serverDef.isEnabled && devConfig?.[key] !== false]; [devConfig] is
    the development configuration, [null] in production and where no
    file was found. *)
Definition isServerEnabled (devConfig : option (string -> option bool))
  (key : string) (serverDef : MCPServerDefinition) : bool :=
  def_isEnabled serverDef
  && match devConfig with
     | Some dev => match dev key with
                   | Some false => false
                   | _ => true
                   end
     | None => true
     end.

(** The runtime entry [buildMCPServersConfig] gives an enabled server,
    or the error for a server without URL.  [env] is [process.env]. *)
Definition runtimeConfig (production : bool) (env : string -> option string)
  (key : string) (serverDef : MCPServerDefinition) : Thrown + ServerConfig :=
  let url :=
    if production
    then match env (def_envVar serverDef) with
         | Some v => if negb (String.eqb v "") then v
                     else def_productionUrl serverDef
         | None => def_productionUrl serverDef
         end
    else "http://localhost:" +:+ number_to_string (def_port serverDef) in
  if String.eqb url ""
  then inl (ThrownError ("URL for MCP server " +:+ double_quote +:+ key
                         +:+ double_quote +:+ " is not defined. Set the "
                         +:+ def_envVar serverDef
                         +:+ " environment variable."))
  else inr {| cfg_url := url;
              cfg_capabilities :=
                (def_tools serverDef ++ def_resources serverDef
                 ++ def_prompts serverDef)%list;
              cfg_healthCheckInterval := if production then 30000 else 15000 |}.

(** [buildMCPServersConfig]: the loop over [Object.entries(allMcpServers)],
    [result] so far.  The assignment [result[key] = ...] adds an entry,
    except under the key [__proto__], which sets the prototype of
    [result] instead.  [loaded] is what [loadDevServerConfig] returns,
    which is asked only outside production. *)
Fixpoint buildMCPServersConfig_from (production : bool)
  (devConfig : option (string -> option bool)) (env : string -> option string)
  (allMcpServers : list (string * MCPServerDefinition)) (result : ServerConfigs)
  : Thrown + ServerConfigs :=
  match allMcpServers with
  | [] => inr result
  | (key, serverDef) :: rest =>
      if negb (isServerEnabled devConfig key serverDef)
      then buildMCPServersConfig_from production devConfig env rest result
      else
        let* entry := runtimeConfig production env key serverDef in
        buildMCPServersConfig_from production devConfig env rest
          (if String.eqb key "__proto__" then result
           else map_set key entry result)
  end.

Definition buildMCPServersConfig
  (allMcpServers : list (string * MCPServerDefinition)) (production : bool)
  (loaded : option (string -> option bool)) (env : string -> option string)
  : Thrown + ServerConfigs :=
  let devConfig := if production then None else loaded in
  buildMCPServersConfig_from production devConfig env allMcpServers [].

(** A morning of the example gateway without WebSocket clients: an
    anonymous call, a health check, a sweep. *)
Definition httpOnly : list GatewayEvent :=
  [HttpRequest noToken "s-1" 10 backendAnswers allDown
     (JObj (toolsCall (JNum 1) "linear_get_teams")) noHeaders;
   HealthCheckTick "linear" (ProbeResponse 200) 20;
   HttpRequest noToken "s-2" 30 backendAnswers allDown
     (JObj (toolsCall (JNum 2) "linear_get_teams")) noHeaders;
   CleanupTick 60000].

(** A token service that knows the token of session [s-1]. *)
Definition knownToken : string -> option string :=
  fun token => if String.eqb token "jwt.s-1" then Some "s-1" else None.

Definition bearerHeaders : HTTPHeaders :=
  mkHeaders (Some "Bearer jwt.s-1") None.

(** The full gateway of one slot, its slot taken by session [s-1]. *)
Definition busyGateway : Gateway :=
  with_sessionManager oneSession tinyGateway.

(** A frame parser that knows one frame. *)
Definition parsePing : string -> option JsValue :=
  fun message =>
    if String.eqb message "{ping}"
    then Some (JObj (bareRequest (JNum 5) "ping")) else None.

(** What a completed health check leaves of an instance. *)
Definition checked (probe : ProbeOutcome) (now : Z) (s : ServerInstance)
  : ServerInstance :=
  if String.eqb (url s) "" then s
  else set_isHealthy (match probe with
                      | ProbeResponse status => response_ok status
                      | ProbeThrew _ => false
                      end) now s.

(** The period of the timer [startHealthChecks] starts for a backend. *)
Definition period (sid : string) (serverConfigs : ServerConfigs) : Z :=
  setInterval
    match getServerConfig sid serverConfigs with
    | Some c => if cfg_healthCheckInterval c =? 0 then 30000
                else cfg_healthCheckInterval c
    | None => 30000
    end.

(** At start-up [linear] answers its check with 200 and [perplexity]
    with 503. *)
Definition startupProbe : string -> ProbeOutcome :=
  fun sid => if String.eqb sid "linear" then ProbeResponse 200
             else ProbeResponse 503.

Definition startupClock : string -> Z := fun _ => 7.

Definition exampleISO : Z -> string := fun t => "T+" +:+ pretty t.

(** A server is enabled, as the comments of [buildMCPServersConfig] word
    it: enabled in its definition and, outside production, not switched
    off by the development configuration. *)
Definition spec_enabled (production : bool)
  (loaded : option (string -> option bool)) (key : string)
  (serverDef : MCPServerDefinition) : bool :=
  def_isEnabled serverDef
  && (production
      || match loaded with
         | None => true
         | Some dev => match dev key with
                       | Some false => false
                       | _ => true
                       end
         end).

(** The registry definitions of three servers, the third disabled. *)
Definition exampleDefinitions : list (string * MCPServerDefinition) :=
  [("linear",
    mkServerDefinition 3001 "https://linear.example.com" "LINEAR_SERVER_URL"
      true ["linear_get_teams"] ["linear://teams"] ["create_issue_workflow"]);
   ("perplexity",
    mkServerDefinition 3002 "https://perplexity.example.com"
      "PERPLEXITY_SERVER_URL" true ["perplexity_search"] [] []);
   ("devtools",
    mkServerDefinition 3004 "https://devtools.example.com"
      "DEVTOOLS_SERVER_URL" false ["console_log"] [] [])].

(** The runtime configuration of the enabled two, in development. *)
Definition registryServers : ServerConfigs :=
  [("linear",
    mkServerConfig "http://localhost:3001"
      ["linear_get_teams"; "linear://teams"; "create_issue_workflow"] 15000);
   ("perplexity",
    mkServerConfig "http://localhost:3002" ["perplexity_search"] 15000)].

(** No development configuration file, and an empty environment. *)
Definition noDevConfig : option (string -> option bool) := None.

Definition emptyEnv : string -> option string := fun _ => None.

(** While the first check of [perplexity] is awaited, the timer of
    [linear] ticks and its check fails. *)
Definition linearTicks : string -> list (string * ProbeOutcome * Z) :=
  fun sid => if String.eqb sid "perplexity"
             then [("linear", ProbeResponse 503, 9)] else [].

(** [jwt.sign] under the empty secret. *)
Definition noSecret : string -> Thrown + string :=
  fun _ => inl (ThrownError "secretOrPrivateKey must have a value").

(** [{jsonrpc: "2.0", id: 1, method: "resources/read", params: {uri:
    {toString: 1}}}]: the routing key is an object that cannot be
    converted to a string. *)
Definition opaqueUri : JsObject :=
  [("jsonrpc", JStr "2.0"); ("id", JNum 1); ("method", JStr "resources/read");
   ("params", JObj [("uri", JObj [("toString", JNum 1)])])].


(** [{jsonrpc: "2.0", id: {toString: 1}, method}]: the id cannot be
    converted to a string. *)
Definition opaqueId (method : string) : JsObject :=
  [("jsonrpc", JStr "2.0"); ("id", JObj [("toString", JNum 1)]);
   ("method", JStr method)].

(** The two instances are the same backend: same ids, URL and
    capabilities. *)
Definition same_backend (s s0 : ServerInstance) : Prop :=
  id s = id s0 /\ serverId s = serverId s0 /\ url s = url s0
  /\ capabilities s = capabilities s0.

(** A header with a token the token service does not know. *)
Definition staleHeaders : HTTPHeaders :=
  mkHeaders (Some "Bearer jwt.gone") None.

(** * Properties *)

(** Case analysis on every [match] and [if] the goal branches on. *)
Ltac split_branches :=
  repeat match goal with
         | |- context [match ?x with _ => _ end] => destruct x
         end.

Section JsFacts.

Lemma is_string_true (s : string) (v : JsValue) :
  is_string s v = true <-> v = JStr s.
Proof.
  destruct v; simpl; try (split; [discriminate | intros [=]]).
  rewrite String.eqb_eq. split; [intros -> | intros [= ->]]; reflexivity.
Qed.

Lemma is_string_other (s s' : string) :
  s <> s' -> is_string s (JStr s') = false.
Proof. intros Hne. simpl. apply String.eqb_neq. congruence. Qed.

Lemma includes_string (arr : list string) (s : string) :
  includes arr (JStr s) = true <-> In s arr.
Proof.
  unfold includes. rewrite existsb_exists. split.
  - intros (c & Hin & Hc). apply is_string_true in Hc.
    injection Hc as ->. exact Hin.
  - intros Hin. exists s. split; [exact Hin | apply is_string_true; reflexivity].
Qed.

Lemma includes_only_strings (arr : list string) (v : JsValue) :
  includes arr v = true -> exists s, v = JStr s /\ In s arr.
Proof.
  unfold includes. rewrite existsb_exists. intros (c & Hin & Hc).
  apply is_string_true in Hc. eauto.
Qed.

(** Induction on a value and on the elements of its arrays. *)
Lemma JsValue_nested_ind (P : JsValue -> Prop) :
  P JUndefined -> P JNull -> (forall b, P (JBool b)) ->
  (forall n, P (JNum n)) -> (forall s, P (JStr s)) ->
  (forall items, Forall P items -> P (JArr items)) ->
  (forall o, P (JObj o)) ->
  forall v, P v.
Proof.
  intros Hu Hn Hb Hnum Hs Ha Ho. fix IH 1.
  intros [| |b|n|s|items|o];
    [exact Hu | exact Hn | apply Hb | apply Hnum | apply Hs | | apply Ho].
  apply Ha. induction items as [|x items IHitems]; constructor;
    [apply IH | exact IHitems].
Qed.

(** The string of an array, element by element. *)
Lemma to_string_cons (x : JsValue) (rest : list JsValue) :
  to_string (JArr (x :: rest))
  = (let* sx := match x with
                | JUndefined | JNull => inr ""
                | _ => to_string x
                end in
     match rest with
     | [] => inr sx
     | _ => let* srest := to_string (JArr rest) in
            inr (sx +:+ "," +:+ srest)
     end).
Proof. reflexivity. Qed.

(** The only error a conversion to a string throws. *)
Lemma to_string_throws (v : JsValue) (e : Thrown) :
  to_string v = inl e -> e = cannot_convert.
Proof.
  revert e. induction v as [| |b|n|s|items IH|o] using JsValue_nested_ind;
    intros e; try discriminate.
  - destruct b; discriminate.
  - induction IH as [|x items Hx _ IHitems]; [discriminate|].
    rewrite to_string_cons.
    assert (Hel : forall e', match x with
                             | JUndefined | JNull => inr ""
                             | _ => to_string x
                             end = inl e' -> e' = cannot_convert).
    { intros e'. destruct x; try discriminate; apply Hx. }
    destruct (match x with JUndefined | JNull => inr "" | _ => to_string x end)
      as [e'|sx]; cbn [andThen].
    + intros [= ->]. apply Hel. reflexivity.
    + destruct items as [|y items]; [discriminate|].
      destruct (to_string (JArr (y :: items))) as [e'|srest]; cbn [andThen].
      * intros [= ->]. apply IHitems. reflexivity.
      * discriminate.
  - simpl. destruct (has_own "toString" o);
      [intros [= <-]; reflexivity | discriminate].
Qed.

Lemma printable_true (v : JsValue) :
  printable v = true <-> exists text, to_string v = inr text.
Proof.
  unfold printable. destruct (to_string v) as [e|text].
  - split; [discriminate | intros [? [=]]].
  - split; eauto.
Qed.

Lemma printable_false (v : JsValue) :
  printable v = false <-> to_string v = inl cannot_convert.
Proof.
  unfold printable. destruct (to_string v) as [e|text] eqn:Hv.
  - rewrite (to_string_throws v e Hv). tauto.
  - split; discriminate.
Qed.

Lemma logged_printable (v : JsValue) :
  logged v = if printable v then inr tt else inl cannot_convert.
Proof.
  unfold logged, printable. destruct (to_string v) as [e|text] eqn:Hv; simpl.
  - rewrite (to_string_throws v e Hv). reflexivity.
  - reflexivity.
Qed.

(** The ids and methods [MCPRequest] declares can all be printed. *)
Lemma printable_declared (v : JsValue) :
  v = JUndefined \/ (exists s, v = JStr s) \/ (exists n, v = JNum n) ->
  printable v = true.
Proof. intros [->|[[s ->]|[n ->]]]; reflexivity. Qed.

End JsFacts.

Section Routing.

Lemma scanCapabilities_spec (key : JsValue) (capabilityMap : CapabilityMap) :
  scanCapabilities key capabilityMap = spec_firstOwner key capabilityMap.
Proof.
  unfold spec_firstOwner.
  induction capabilityMap as [|[sid caps] rest IH]; simpl; [reflexivity|].
  destruct (includes caps key); [reflexivity | exact IH].
Qed.

Lemma spec_firstOwner_Some (key : JsValue) (capabilityMap : CapabilityMap)
      (sid : string) :
  spec_firstOwner key capabilityMap = Some sid <->
  exists before caps after,
    capabilityMap = (before ++ (sid, caps) :: after)%list
    /\ includes caps key = true
    /\ Forall (fun entry => includes entry.2 key = false) before.
Proof.
  unfold spec_firstOwner.
  induction capabilityMap as [|[sid' caps'] rest IH]; simpl.
  - split; [discriminate|]. intros (before & caps & after & Heq & _).
    destruct before; discriminate.
  - destruct (includes caps' key) eqn:Hinc; simpl.
    + split.
      * intros [= ->]. exists [], caps', rest. auto.
      * intros (before & caps & after & Heq & Hc & Hb).
        destruct before as [|[s0 c0] before]; simpl in Heq.
        -- injection Heq as -> -> ->. reflexivity.
        -- injection Heq as -> -> ->. inversion Hb; subst. simpl in *.
           congruence.
    + rewrite IH. split.
      * intros (before & caps & after & -> & Hc & Hb).
        exists ((sid', caps') :: before), caps, after. repeat split; auto.
      * intros (before & caps & after & Heq & Hc & Hb).
        destruct before as [|[s0 c0] before]; simpl in Heq.
        -- injection Heq as -> -> ->. congruence.
        -- injection Heq as -> -> ->. inversion Hb; subst.
           exists before, caps, after. auto.
Qed.

Lemma spec_firstOwner_None (key : JsValue) (capabilityMap : CapabilityMap) :
  spec_firstOwner key capabilityMap = None <->
  Forall (fun entry => includes entry.2 key = false) capabilityMap.
Proof.
  unfold spec_firstOwner.
  induction capabilityMap as [|[sid caps] rest IH]; simpl.
  - split; auto.
  - destruct (includes caps key) eqn:Hinc; simpl.
    + split; [discriminate|]. intros H. inversion H; subst. simpl in *.
      congruence.
    + rewrite IH. split; [auto | intros H; inversion H; auto].
Qed.

(** A key some backend declares is a string, and prints. *)
Lemma scanCapabilities_printable (key : JsValue)
      (capabilityMap : CapabilityMap) (sid : string) :
  scanCapabilities key capabilityMap = Some sid -> printable key = true.
Proof.
  induction capabilityMap as [|[sid' caps] rest IH]; simpl; [discriminate|].
  destruct (includes caps key) eqn:Hinc; [|exact IH].
  intros _. destruct (includes_only_strings _ _ Hinc) as (s & -> & _).
  reflexivity.
Qed.

(** [resolveCapability] prints the method, then scans for the routing
    key and prints it. *)
Lemma resolveCapability_key (request : JsObject)
      (capabilityMap : CapabilityMap) :
  resolveCapability request capabilityMap
  = if negb (printable (field "method" request)) then inl cannot_convert
    else match scanCapabilities (getCapabilityToResolve request)
                 capabilityMap with
         | Some sid => inr (Some sid)
         | None => if printable (getCapabilityToResolve request)
                   then inr None else inl cannot_convert
         end.
Proof.
  unfold resolveCapability. rewrite logged_printable.
  destruct (printable (field "method" request)); simpl; [|reflexivity].
  assert (Hkey : forall key,
             match scanCapabilities key capabilityMap with
             | Some serverId => let* _ := logged key in inr (Some serverId)
             | None => let* _ := logged key in inr None
             end
             = match scanCapabilities key capabilityMap with
               | Some sid => inr (Some sid)
               | None => if printable key then inr None else inl cannot_convert
               end).
  { intros key. rewrite logged_printable.
    destruct (scanCapabilities key capabilityMap) as [sid|] eqn:Hscan.
    - rewrite (scanCapabilities_printable _ _ _ Hscan). reflexivity.
    - destruct (printable key); reflexivity. }
  unfold getCapabilityToResolve.
  destruct (is_string "tools/call" (field "method" request)) eqn:Ht.
  - apply is_string_true in Ht. rewrite Ht. simpl.
    destruct (truthy _); apply Hkey.
  - destruct (is_string "resources/read" (field "method" request)) eqn:Hr.
    + apply is_string_true in Hr. rewrite Hr. simpl.
      destruct (truthy _); apply Hkey.
    + simpl. destruct (is_string "prompts/get" (field "method" request));
        simpl; [destruct (truthy _)|]; apply Hkey.
Qed.

Lemma getCapabilityToResolve_routingKey (request : JsObject) :
  getCapabilityToResolve request = routingKey request.
Proof.
  unfold routingKey, carriesRoutingParameter, routingParameter,
    getCapabilityToResolve, spec_routingKey, opt_member.
  destruct (is_string "tools/call" (field "method" request)) eqn:Ht; simpl.
  { destruct (truthy _) eqn:Hv; [reflexivity|].
    apply is_string_true in Ht. rewrite Ht. reflexivity. }
  destruct (is_string "resources/read" (field "method" request)) eqn:Hr; simpl.
  { destruct (truthy _) eqn:Hv; [reflexivity|].
    apply is_string_true in Hr. rewrite Hr. reflexivity. }
  destruct (is_string "prompts/get" (field "method" request)); simpl.
  { destruct (truthy _); reflexivity. }
  reflexivity.
Qed.

(** C6, as stated, fails: a [tools/call] request without [params.name] is
    routed on the method string, so a backend declaring the capability
    [tools/call] is returned, where routing on [params.name] finds none. *)
Lemma missing_name_counterexample :
  spec_routingKey toolsCallBare = JUndefined
  /\ spec_firstOwner (spec_routingKey toolsCallBare) relayMap = None
  /\ resolveCapability toolsCallBare relayMap = inr (Some "relay")
  /\ resolveCapability toolsCallBare relayMap
     <> inr (spec_firstOwner (spec_routingKey toolsCallBare) relayMap).
Proof. vm_compute. repeat split; discriminate. Qed.

(** C6, amended. [resolveCapability] takes as routing key [params.name]
    for [tools/call] and [prompts/get] and [params.uri] for
    [resources/read] when the request carries that parameter with a
    truthy value, and the method itself for any other method and when
    the parameter is missing or falsy.  For a method and a key that can
    be converted to strings it returns the first backend in the
    iteration order of the capability map whose capability list contains
    the key: the entries before the returned one do not contain it, so
    of two backends declaring the same name the earlier wins; it returns
    [null] exactly when no list contains the key.  It throws the
    [TypeError] "Cannot convert object to primitive value" of its log
    lines, and returns nothing, exactly when the method cannot be
    converted to a string, or no list contains the key and the key
    cannot be (an object with an own [toString] property, or an array
    that holds one). *)
Theorem resolveCapability_first_owner (request : JsObject)
        (capabilityMap : CapabilityMap) :
  (carriesRoutingParameter request = true ->
   routingKey request = spec_routingKey request)
  /\ (carriesRoutingParameter request = false ->
      routingKey request = field "method" request)
  /\ (printable (field "method" request) = true ->
      printable (routingKey request) = true ->
      resolveCapability request capabilityMap
      = inr (spec_firstOwner (routingKey request) capabilityMap))
  /\ (printable (field "method" request) = true ->
      forall sid,
        resolveCapability request capabilityMap = inr (Some sid) <->
        exists before caps after,
          capabilityMap = (before ++ (sid, caps) :: after)%list
          /\ includes caps (routingKey request) = true
          /\ Forall (fun entry => includes entry.2 (routingKey request)
                                  = false) before)
  /\ (printable (field "method" request) = true ->
      (resolveCapability request capabilityMap = inr None <->
       Forall (fun entry => includes entry.2 (routingKey request) = false)
              capabilityMap
       /\ printable (routingKey request) = true))
  /\ (forall e,
         resolveCapability request capabilityMap = inl e <->
         e = ThrownError "Cannot convert object to primitive value"
         /\ (printable (field "method" request) = false
             \/ (Forall (fun entry => includes entry.2 (routingKey request)
                                      = false) capabilityMap
                 /\ printable (routingKey request) = false))).
Proof.
  rewrite resolveCapability_key, scanCapabilities_spec,
    getCapabilityToResolve_routingKey.
  split; [|split; [|split; [|split; [|split]]]].
  - unfold routingKey. intros ->. reflexivity.
  - unfold routingKey. intros ->. reflexivity.
  - intros -> Hk. simpl.
    destruct (spec_firstOwner (routingKey request) capabilityMap);
      [reflexivity | rewrite Hk; reflexivity].
  - intros -> sid. simpl. rewrite <- spec_firstOwner_Some.
    destruct (spec_firstOwner (routingKey request) capabilityMap) as [sid'|].
    + split; [intros [= ->] | intros [= ->]]; reflexivity.
    + destruct (printable (routingKey request)); split; discriminate.
  - intros ->. simpl. rewrite <- spec_firstOwner_None.
    destruct (spec_firstOwner (routingKey request) capabilityMap) as [sid'|].
    + split; [discriminate | intros [[=] _]].
    + destruct (printable (routingKey request)); split; auto;
        try discriminate. intros [_ [=]].
  - intros e. rewrite <- spec_firstOwner_None.
    destruct (printable (field "method" request)); simpl.
    + destruct (spec_firstOwner (routingKey request) capabilityMap) as [sid'|].
      * split; [discriminate|]. intros [_ [[=]|[[=] _]]].
      * destruct (printable (routingKey request)).
        -- split; [discriminate|]. intros [_ [[=]|[_ [=]]]].
        -- split; [intros [= <-]; auto | intros [-> _]; reflexivity].
    + split; [intros [= <-]; auto | intros [-> _]; reflexivity].
Qed.

Lemma resolveCapability_first_owner_witness :
  routingKey (toolsCall (JNum 1) "linear_get_teams") = JStr "linear_get_teams"
  /\ resolveCapability (toolsCall (JNum 1) "linear_get_teams")
       (capabilityMap exampleGateway) = inr (Some "linear")
  /\ resolveCapability opaqueUri (capabilityMap exampleGateway)
     = inl (ThrownError "Cannot convert object to primitive value").
Proof.
  destruct (resolveCapability_first_owner
              (toolsCall (JNum 1) "linear_get_teams")
              (capabilityMap exampleGateway)) as (Hk & _ & H & _).
  destruct (resolveCapability_first_owner opaqueUri
              (capabilityMap exampleGateway)) as (_ & _ & _ & _ & _ & Hthrow).
  split; [|split].
  - rewrite (Hk eq_refl). reflexivity.
  - rewrite (H eq_refl eq_refl). reflexivity.
  - apply Hthrow. split; [reflexivity|]. right. split; [|reflexivity].
    repeat constructor.
Defined.

(** C10. When a [tools/call], [resources/read] or [prompts/get] request
    has no routing parameter, or a falsy one, resolution still returns:
    both [resolveCapability] and [getCapabilityToResolve] take the method
    string itself as the routing key. *)
Theorem missing_parameter_falls_back (request : JsObject)
        (capabilityMap : CapabilityMap) (method : string) (v : JsValue) :
  In method ["tools/call"; "resources/read"; "prompts/get"] ->
  field "method" request = JStr method ->
  routingParameter request = Some v ->
  truthy v = false ->
  resolveCapability request capabilityMap
  = inr (scanCapabilities (JStr method) capabilityMap)
  /\ getCapabilityToResolve request = JStr method.
Proof.
  intros Hin Hm Hp Hv.
  rewrite resolveCapability_key.
  assert (Hk : getCapabilityToResolve request = JStr method).
  { unfold routingParameter in Hp. unfold getCapabilityToResolve, opt_member.
    rewrite Hm in *.
    destruct Hin as [<-|[<-|[<-|[]]]]; simpl in *;
      injection Hp as <-; rewrite Hv; reflexivity. }
  rewrite Hk, Hm. simpl. split; [|reflexivity].
  destruct (scanCapabilities (JStr method) capabilityMap); reflexivity.
Qed.

Lemma missing_parameter_falls_back_witness :
  resolveCapability resourcesReadBare [("files", ["resources/read"])]
  = inr (Some "files")
  /\ getCapabilityToResolve resourcesReadBare = JStr "resources/read".
Proof.
  destruct (missing_parameter_falls_back resourcesReadBare
              [("files", ["resources/read"])] "resources/read" JUndefined)
    as [H1 H2].
  - simpl. auto.
  - reflexivity.
  - reflexivity.
  - reflexivity.
  - split; [rewrite H1; reflexivity | exact H2].
Defined.

End Routing.

Section ServerManagerFacts.

(** The backend the facts are about. *)
Variable B : string.

Lemma newServerManager_fresh (serverConfigs : ServerConfigs) (now : Z) :
  fresh (newServerManager serverConfigs now).
Proof.
  unfold newServerManager.
  assert (Hgen : forall (l : ServerConfigs) (acc : Servers),
             fresh acc ->
             fresh (foldl (fun servers '(sid, config) =>
                      if negb (String.eqb (cfg_url config) "")
                      then <[sid := {| id := sid; serverId := sid;
                                       url := cfg_url config;
                                       isHealthy := false;
                                       lastHealthCheck := now;
                                       activeConnections := 0;
                                       capabilities := cfg_capabilities config |}]>
                             servers
                      else servers) acc l)).
  { induction l as [|[sid c] l IH]; intros acc Hacc; simpl; [exact Hacc|].
    apply IH. destruct (String.eqb_spec (cfg_url c) ""); simpl; [exact Hacc|].
    intros k s. rewrite lookup_insert. case_decide.
    - intros [= <-]. simpl. auto.
    - apply Hacc. }
  apply Hgen. intros k s. rewrite lookup_empty. discriminate.
Qed.

Lemma server_step_lookup_other (servers : Servers) (e : ServerEvent) :
  match e with
  | HealthCheckCompleted sid _ _ | Checkout sid | Release sid => sid <> B
  end ->
  server_step servers e !! B = servers !! B.
Proof.
  destruct e as [sid probe now|sid|sid]; simpl; intros Hne.
  - unfold performHealthCheck. destruct (servers !! sid); [|reflexivity].
    destruct (String.eqb _ _); [reflexivity|].
    apply lookup_insert_ne. exact Hne.
  - unfold getServerInstance. destruct (servers !! sid); [|reflexivity].
    destruct (negb _); simpl; [reflexivity|].
    apply lookup_insert_ne. exact Hne.
  - unfold releaseServerInstance. destruct (servers !! sid); [|reflexivity].
    destruct (0 <? _); [|reflexivity].
    apply lookup_insert_ne. exact Hne.
Qed.

Lemma server_step_gated (seen : option ProbeOutcome)
      (servers : Servers) (e : ServerEvent) :
  gated B seen servers ->
  gated B (seen_after B e seen) (server_step servers e).
Proof.
  intros Hg s'. destruct e as [sid probe now|sid|sid]; simpl.
  - destruct (String.eqb_spec sid B) as [->|Hne].
    + unfold performHealthCheck. destruct (servers !! B) as [s|] eqn:Hs;
        [|rewrite Hs; discriminate].
      destruct (Hg s Hs) as [Hurl _].
      destruct (String.eqb_spec (url s) ""); [contradiction|].
      rewrite lookup_insert_eq. intros [= <-]. simpl.
      split; [exact Hurl|]. destruct probe; reflexivity.
    + pose proof (server_step_lookup_other servers
                    (HealthCheckCompleted sid probe now) Hne) as Hx.
      simpl in Hx. rewrite Hx. apply Hg.
  - destruct (String.eqb_spec sid B) as [->|Hne].
    + unfold getServerInstance. destruct (servers !! B) as [s|] eqn:Hs;
        [|simpl; rewrite Hs; discriminate].
      destruct (Hg s Hs) as [Hurl Hh].
      destruct (isHealthy s) eqn:Hhs; simpl.
      * rewrite lookup_insert_eq. intros [= <-]. simpl. rewrite Hhs. auto.
      * rewrite Hs. intros [= <-]. rewrite Hhs. auto.
    + pose proof (server_step_lookup_other servers (Checkout sid) Hne)
        as Hx.
      simpl in Hx. rewrite Hx. apply Hg.
  - destruct (String.eqb_spec sid B) as [->|Hne].
    + unfold releaseServerInstance. destruct (servers !! B) as [s|] eqn:Hs;
        [|rewrite Hs; discriminate].
      destruct (Hg s Hs) as [Hurl Hh].
      destruct (0 <? activeConnections s).
      * rewrite lookup_insert_eq. intros [= <-]. simpl. auto.
      * rewrite Hs. intros [= <-]. auto.
    + pose proof (server_step_lookup_other servers (Release sid) Hne)
        as Hx.
      simpl in Hx. rewrite Hx. apply Hg.
Qed.

Lemma server_step_dom (servers : Servers) (e : ServerEvent) :
  is_Some (server_step servers e !! B) <-> is_Some (servers !! B).
Proof.
  destruct e as [sid probe now|sid|sid]; simpl.
  - unfold performHealthCheck. destruct (servers !! sid) eqn:Hs; [|reflexivity].
    destruct (String.eqb _ _); [reflexivity|].
    rewrite lookup_insert. case_decide; [subst; rewrite Hs|]; 
      split; eauto.
  - unfold getServerInstance. destruct (servers !! sid) eqn:Hs; [|reflexivity].
    destruct (negb _); simpl; [reflexivity|].
    rewrite lookup_insert. case_decide; [subst; rewrite Hs|];
      split; eauto.
  - unfold releaseServerInstance. destruct (servers !! sid) eqn:Hs;
      [|reflexivity].
    destruct (0 <? _); [|reflexivity].
    rewrite lookup_insert. case_decide; [subst; rewrite Hs|];
      split; eauto.
Qed.

Lemma server_run_gated (events : list ServerEvent) :
  forall (seen : option ProbeOutcome) (servers : Servers),
    gated B seen servers ->
    gated B (lastProbe B events seen) (server_run servers events)
    /\ (is_Some (server_run servers events !! B)
        <-> is_Some (servers !! B)).
Proof.
  induction events as [|e events IH]; intros seen servers Hg; simpl.
  - split; [exact Hg | reflexivity].
  - pose proof (server_step_gated seen servers e Hg) as Hg'.
    destruct (IH _ _ Hg') as [H1 H2]. split.
    + destruct e; exact H1.
    + rewrite H2. apply server_step_dom.
Qed.

Lemma getServerInstance_result (sid : string) (servers : Servers) :
  (getServerInstance sid servers).1 <> None <->
  exists s, servers !! sid = Some s /\ isHealthy s = true.
Proof.
  unfold getServerInstance. destruct (servers !! sid) as [s|]; simpl.
  - destruct (isHealthy s) eqn:Hh; simpl.
    + split; [eauto | discriminate].
    + split; [congruence|]. intros (s' & [= <-] & ?). congruence.
  - split; [congruence | intros (s & ? & _); discriminate].
Qed.

End ServerManagerFacts.

Section HealthGating.

Lemma fresh_gated (B : string) (servers : Servers) :
  fresh servers -> gated B None servers.
Proof.
  intros Hf s Hs. destruct (Hf B s Hs) as (Hurl & Hh & _).
  split; [exact Hurl | exact Hh].
Qed.

(** The entry log of [routeAndExecuteRequest]. *)
Lemma route_entry (request : JsObject) :
  (let* _ := logged (field "id" request) in logged (field "method" request))
  = if printable (field "id" request) && printable (field "method" request)
    then inr tt else inl cannot_convert.
Proof.
  rewrite !logged_printable.
  destruct (printable (field "id" request)); simpl; [|reflexivity].
  destruct (printable (field "method" request)); reflexivity.
Qed.

(** A request is posted to a backend only out of a checkout, which
    found the backend healthy. *)
Lemma forwarded_to_healthy (proxy : FetchOutcome)
      (fan : string -> FetchOutcome) (gw : Gateway) (request : JsObject)
      (session : Session) :
  isProtocolMethod (field "method" request) = false ->
  fetched (routeAndExecuteRequest proxy fan gw request session) <> [] ->
  exists sid s,
    resolveCapability request (capabilityMap gw) = inr (Some sid)
    /\ serverManager gw !! sid = Some s
    /\ isHealthy s = true
    /\ fetched (routeAndExecuteRequest proxy fan gw request session)
       = [url s +:+ "/mcp"].
Proof.
  intros Hnp. unfold routeAndExecuteRequest. rewrite route_entry, Hnp.
  destruct (_ && _); [|simpl; congruence].
  destruct (resolveCapability request (capabilityMap gw)) as [e|[sid|]];
    [simpl; congruence | |
     destruct (to_string (getCapabilityToResolve request)); simpl; congruence].
  destruct (String.eqb sid "");
    [destruct (to_string (getCapabilityToResolve request)); simpl; congruence|].
  unfold getServerInstance.
  destruct (serverManager gw !! sid) as [s|] eqn:Hs; [|simpl; congruence].
  destruct (isHealthy s) eqn:Hh; simpl; [|congruence].
  intros _. exists sid, s. rewrite lookup_insert_eq. simpl. auto.
Qed.

(** C1. Along every run of the server manager, [getServerInstance(B)]
    returns an instance exactly when [B] is one of the manager's
    backends and the last health check of [B] that completed saw a 2xx
    response; after a failed check, and before any check has completed,
    it returns [null].  Hence a request the gateway forwards goes to a
    backend whose last completed check saw a 2xx response. *)
Theorem health_gating (serverConfigs : ServerConfigs) (t0 : Z)
        (events : list ServerEvent) (B : string) :
  let servers := server_run (newServerManager serverConfigs t0) events in
  ((getServerInstance B servers).1 <> None <->
   is_Some (newServerManager serverConfigs t0 !! B)
   /\ observed_2xx (lastProbe B events None) = true)
  /\ (observed_2xx (lastProbe B events None) = false ->
      (getServerInstance B servers).1 = None)
  /\ (forall proxy fan gw request session,
         serverManager gw = servers ->
         isProtocolMethod (field "method" request) = false ->
         resolveCapability request (capabilityMap gw) = inr (Some B) ->
         fetched (routeAndExecuteRequest proxy fan gw request session)
         <> [] ->
         observed_2xx (lastProbe B events None) = true).
Proof.
  intros servers.
  pose proof (newServerManager_fresh serverConfigs t0) as Hfresh.
  destruct (server_run_gated B events None _ (fresh_gated B _ Hfresh))
    as [Hg Hdom]. fold servers in Hg, Hdom.
  assert (Hiff : (getServerInstance B servers).1 <> None <->
                 is_Some (newServerManager serverConfigs t0 !! B)
                 /\ observed_2xx (lastProbe B events None) = true).
  { rewrite getServerInstance_result. split.
    - intros (s & Hs & Hh). split.
      + apply Hdom. eauto.
      + destruct (Hg s Hs) as [_ Hobs]. congruence.
    - intros [Hin Hobs]. apply Hdom in Hin. destruct Hin as [s Hs].
      exists s. split; [exact Hs|]. destruct (Hg s Hs) as [_ Hh]. congruence. }
  split; [exact Hiff|]. split.
  - intros Hobs. destruct (getServerInstance B servers).1 eqn:Hget;
      [|reflexivity].
    assert (Hne : Some s <> None) by discriminate.
    apply Hiff in Hne. destruct Hne as [_ Hobs']. congruence.
  - intros proxy fan gw request session Hsm Hnp Hres Hf.
    destruct (forwarded_to_healthy proxy fan gw request session Hnp Hf)
      as (sid & s & Hres' & Hs & Hh & _).
    rewrite Hres in Hres'. injection Hres' as <-.
    rewrite Hsm in Hs. destruct (Hg s Hs) as [_ Hobs]. congruence.
Qed.

Lemma health_gating_witness :
  (getServerInstance "linear"
     (server_run (newServerManager exampleServers 0) linearUp)).1 <> None
  /\ (getServerInstance "perplexity"
        (server_run (newServerManager exampleServers 0) linearUp)).1 = None
  /\ observed_2xx (lastProbe "linear" linearUp None) = true.
Proof.
  destruct (health_gating exampleServers 0 linearUp "linear")
    as (Hiff & _ & Hfwd).
  destruct (health_gating exampleServers 0 linearUp "perplexity")
    as (_ & Hnull & _).
  split; [|split].
  - apply Hiff. split; [vm_compute; eauto | reflexivity].
  - apply Hnull. reflexivity.
  - apply (Hfwd backendAnswers allDown gatewayLinearUp
             (toolsCall (JNum 1) "linear_get_teams") exampleSession).
    + reflexivity.
    + reflexivity.
    + reflexivity.
    + vm_compute. discriminate.
Defined.

End HealthGating.

Section ConnectionCounter.

Lemma server_step_tally (B : string) (servers : Servers) (e : ServerEvent)
      (t : Tally) (n : Z) :
  connectionsOf B servers = Some n ->
  exists n',
    connectionsOf B (server_step servers e) = Some n'
    /\ (0 <= n -> 0 <= n')
    /\ drift B (server_step servers e) (tally_step B servers e t)
       = drift B servers t.
Proof.
  unfold drift, connectionsOf. intros Hn.
  destruct (servers !! B) as [s|] eqn:Hs; [|discriminate].
  injection Hn as <-.
  assert (Hother : server_step servers e !! B = servers !! B ->
                   tally_step B servers e t = t ->
                   exists n',
                     activeConnections <$> server_step servers e !! B = Some n'
                     /\ (0 <= activeConnections s -> 0 <= n')
                     /\ (fun n => n - (checkouts (tally_step B servers e t)
                                       - releases (tally_step B servers e t)
                                       + unmatched (tally_step B servers e t)))
                          <$> (activeConnections <$> server_step servers e !! B)
                        = Some (activeConnections s
                                - (checkouts t - releases t + unmatched t))).
  { intros -> ->. rewrite Hs. simpl. eauto. }
  simpl.
  destruct e as [sid probe now|sid|sid].
  - destruct (String.eqb_spec sid B) as [->|Hne].
    + simpl. unfold performHealthCheck. rewrite Hs.
      destruct (String.eqb (url s) ""); [rewrite Hs; simpl; eauto|].
      rewrite lookup_insert_eq. simpl. eauto.
    + apply Hother; [|reflexivity].
      apply (server_step_lookup_other B servers
               (HealthCheckCompleted sid probe now) Hne).
  - destruct (String.eqb_spec sid B) as [->|Hne].
    + simpl. rewrite String.eqb_refl. unfold getServerInstance. rewrite Hs.
      destruct (isHealthy s); simpl.
      * rewrite lookup_insert_eq. simpl. eexists. split; [reflexivity|].
        split; [lia|]. f_equal. lia.
      * rewrite Hs. simpl. eauto.
    + apply Hother.
      * apply (server_step_lookup_other B servers (Checkout sid) Hne).
      * simpl. apply String.eqb_neq in Hne. rewrite Hne. reflexivity.
  - destruct (String.eqb_spec sid B) as [->|Hne].
    + simpl. rewrite String.eqb_refl. unfold releaseServerInstance.
      rewrite Hs. destruct (0 <? activeConnections s) eqn:Hpos; simpl.
      * rewrite lookup_insert_eq. simpl. eexists. split; [reflexivity|].
        apply Z.ltb_lt in Hpos. split; [lia|]. f_equal. lia.
      * rewrite Hs. simpl. eexists. split; [reflexivity|].
        split; [auto|]. f_equal. lia.
    + apply Hother.
      * apply (server_step_lookup_other B servers (Release sid) Hne).
      * simpl. apply String.eqb_neq in Hne. rewrite Hne. reflexivity.
Qed.

Lemma server_run_tally (B : string) (events : list ServerEvent) :
  forall (servers : Servers) (t : Tally) (n : Z),
    connectionsOf B servers = Some n ->
    exists n',
      connectionsOf B (server_run servers events) = Some n'
      /\ (0 <= n -> 0 <= n')
      /\ drift B (server_run servers events) (tally B servers events t)
         = drift B servers t.
Proof.
  induction events as [|e events IH]; intros servers t n Hn; simpl.
  - exists n. auto.
  - destruct (server_step_tally B servers e t n Hn) as (n1 & Hn1 & Hpos1 & Hd1).
    destruct (IH (server_step servers e) (tally_step B servers e t) n1 Hn1)
      as (n' & Hn' & Hpos' & Hd').
    exists n'. split; [exact Hn'|]. split; [auto|]. congruence.
Qed.

(** C3, as stated, fails: released twice after one checkout, [linear] has
    0 active connections, which is not 1 - 2. *)
Lemma double_release_counterexample :
  connectionsOf "linear"
    (server_run (newServerManager exampleServers 0) doubleRelease) = Some 0
  /\ connectionsOf "linear"
       (server_run (newServerManager exampleServers 0) doubleRelease)
     <> Some (checkouts (tally "linear" (newServerManager exampleServers 0)
                           doubleRelease no_tally)
              - releases (tally "linear" (newServerManager exampleServers 0)
                            doubleRelease no_tally))
  /\ checkouts (tally "linear" (newServerManager exampleServers 0)
                 doubleRelease no_tally) = 1
  /\ releases (tally "linear" (newServerManager exampleServers 0)
                doubleRelease no_tally) = 2
  /\ 0 <> 1 - 2.
Proof. vm_compute. repeat split; discriminate. Qed.

(** C3, amended. For every backend and every sequence of health checks,
    checkouts and releases, [activeConnections] is never negative, and it
    equals the number of successful checkouts minus the number of
    releases plus the number of releases that found the counter at zero
    (those change nothing); so it equals checkouts minus releases as long
    as no release was made at zero. *)
Theorem connections_tally (serverConfigs : ServerConfigs) (t0 : Z)
        (events : list ServerEvent) (B : string) :
  is_Some (newServerManager serverConfigs t0 !! B) ->
  exists n,
    connectionsOf B (server_run (newServerManager serverConfigs t0) events)
    = Some n
    /\ 0 <= n
    /\ (let t := tally B (newServerManager serverConfigs t0) events no_tally in
        n = checkouts t - releases t + unmatched t
        /\ (unmatched t = 0 -> n = checkouts t - releases t)).
Proof.
  intros [s Hs].
  destruct (newServerManager_fresh serverConfigs t0 B s Hs) as (_ & _ & Hzero).
  assert (H0 : connectionsOf B (newServerManager serverConfigs t0) = Some 0).
  { unfold connectionsOf. rewrite Hs. simpl. congruence. }
  destruct (server_run_tally B events _ no_tally 0 H0) as (n & Hn & Hpos & Hd).
  exists n. split; [exact Hn|]. split; [lia|].
  unfold drift in Hd. rewrite Hn, H0 in Hd. simpl in Hd.
  injection Hd as Hd. simpl. lia.
Qed.

Lemma connections_tally_witness :
  is_Some (newServerManager exampleServers 0 !! "linear")
  /\ exists n,
      connectionsOf "linear"
        (server_run (newServerManager exampleServers 0) doubleRelease)
      = Some n
      /\ 0 <= n.
Proof.
  assert (H : is_Some (newServerManager exampleServers 0 !! "linear")).
  { vm_compute. eauto. }
  split; [exact H|].
  destruct (connections_tally exampleServers 0 doubleRelease "linear" H)
    as (n & Hn & Hpos & _).
  exists n. split; assumption.
Defined.

End ConnectionCounter.

Section RoutingErrors.




End RoutingErrors.

Section FanOut.

Lemma fanOut_spec (key : string) (fan : string -> FetchOutcome)
      (servers : ServerConfigs) :
  fanOut key fan servers
  = ((fun entry => cfg_url entry.2 +:+ "/mcp") <$> servers,
     flat_map (fun entry => reported key (fan entry.1)) servers).
Proof.
  unfold fanOut.
  assert (Hgen : forall (l : ServerConfigs) urls all,
             foldl (fun '(fetched, all) '(sid, c) =>
                      ((fetched ++ [cfg_url c +:+ "/mcp"])%list,
                       (all ++ reported key (fan sid))%list))
                   (urls, all) l
             = ((urls ++ ((fun entry => cfg_url entry.2 +:+ "/mcp") <$> l))%list,
                (all ++ flat_map (fun entry => reported key (fan entry.1)) l)%list)).
  { induction l as [|[sid c] l IH]; intros urls all; simpl.
    - rewrite !app_nil_r. reflexivity.
    - rewrite IH. simpl. rewrite <- !app_assoc. reflexivity. }
  apply Hgen.
Qed.

(** What a turn of the loop adds is the list the backend reported,
    unless the backend put a string in its place. *)
Lemma reported_list (key : string) (outcome : FetchOutcome) :
  reports_no_string key outcome = true ->
  reported key outcome = spec_reportedList key outcome.
Proof.
  assert (Hitems : forall items,
             match items with
             | JStr s => String.eqb s ""
             | _ => true
             end = true ->
             (if truthy items
              then match spread items with
                   | Some l => l
                   | None => []
                   end
              else [])
             = match items with
               | JArr l => l
               | _ => []
               end).
  { intros [| |b|n|s|l|o]; simpl; try reflexivity.
    - destruct b; reflexivity.
    - destruct (Z.eqb n 0); reflexivity.
    - intros Hs. apply String.eqb_eq in Hs. subst. reflexivity. }
  destruct outcome as [e|[|] [e|body]]; try reflexivity.
  unfold reports_no_string, reported, spec_reportedList, opt_member.
  destruct body as [| |b|n|s|items|o]; try reflexivity; apply Hitems.
Qed.

Lemma reported_lists (key : string) (fan : string -> FetchOutcome)
      (servers : ServerConfigs) :
  Forall (fun entry => reports_no_string key (fan entry.1) = true) servers ->
  flat_map (fun entry => reported key (fan entry.1)) servers
  = flat_map (fun entry => spec_reportedList key (fan entry.1)) servers.
Proof.
  induction 1 as [|entry servers Hentry _ IH]; simpl; [reflexivity|].
  rewrite IH, (reported_list _ _ Hentry). reflexivity.
Qed.

(** C5. [tools/list], [resources/list] and [prompts/list] (with an id
    that can be converted to a string, as every string and number can)
    post to the [/mcp] endpoint of every configured backend, in
    configuration order and whatever the health state of the backends,
    and reply with a result, not an error, that holds the concatenation
    of what the backends report: for a backend that answered with a 2xx
    response the list under [result.<key>] of its answer, nothing for a
    backend whose call threw or returned a non-2xx response -- so every
    item of the reply comes from a backend that answered.  (A backend
    that puts a string where the list is expected is left aside.) *)
Theorem fan_out_partial_failure (proxy : FetchOutcome)
        (fan : string -> FetchOutcome) (gw : Gateway) (request : JsObject)
        (session : Session) (method key : string) :
  In (method, key) [("tools/list", "tools"); ("resources/list", "resources");
                    ("prompts/list", "prompts")] ->
  field "method" request = JStr method ->
  printable (field "id" request) = true ->
  Forall (fun entry => reports_no_string key (fan entry.1) = true)
         (mcpServers (config gw)) ->
  fetched (routeAndExecuteRequest proxy fan gw request session)
  = (fun entry => cfg_url entry.2 +:+ "/mcp") <$> mcpServers (config gw)
  /\ reply (routeAndExecuteRequest proxy fan gw request session)
     = inr (JObj [("jsonrpc", JStr "2.0"); ("id", field "id" request);
                  ("result",
                   JObj [(key,
                          JArr (flat_map
                                  (fun entry =>
                                     match fan entry.1 with
                                     | FetchResponse true (inr body) =>
                                         match member key
                                                 (member "result" body) with
                                         | JArr items => items
                                         | _ => []
                                         end
                                     | _ => []
                                     end)
                                  (mcpServers (config gw))))])])
  /\ gateway (routeAndExecuteRequest proxy fan gw request session) = gw
  /\ (forall item,
         In item (flat_map (fun entry => spec_reportedList key (fan entry.1))
                    (mcpServers (config gw))) ->
         exists entry body items,
           In entry (mcpServers (config gw))
           /\ fan entry.1 = FetchResponse true (inr body)
           /\ member key (member "result" body) = JArr items
           /\ In item items).
Proof.
  intros Hin Hm Hid Hlists.
  assert (Hroute : routeAndExecuteRequest proxy fan gw request session
                   = {| gateway := gw;
                        fetched := (fun entry => cfg_url entry.2 +:+ "/mcp")
                                     <$> mcpServers (config gw);
                        reply :=
                          inr (JObj [("jsonrpc", JStr "2.0");
                                     ("id", field "id" request);
                                     ("result",
                                      JObj [(key,
                                             JArr (flat_map
                                                     (fun entry =>
                                                        spec_reportedList key
                                                          (fan entry.1))
                                                     (mcpServers (config gw))))])])
                     |}).
  { rewrite <- (reported_lists _ _ _ Hlists).
    unfold routeAndExecuteRequest, handleProtocolMethod, getAvailableTools,
      getAvailableResources, getAvailablePrompts.
    rewrite route_entry, Hid, Hm, !fanOut_spec.
    destruct Hin as [[= <- <-]|[[= <- <-]|[[= <- <-]|[]]]]; reflexivity. }
  rewrite Hroute. split; [reflexivity|]. split; [reflexivity|].
  split; [reflexivity|].
  intros item Hitem. apply in_flat_map in Hitem.
  destruct Hitem as (entry & Hentry & Hitem). unfold spec_reportedList in Hitem.
  destruct (fan entry.1) as [e|[|] [e|body]] eqn:Hfan; try contradiction.
  destruct (member key (member "result" body)) as [| |b|n|s|items|o] eqn:Hk;
    try contradiction.
  exists entry, body, items. auto.
Qed.

Lemma fan_out_partial_failure_witness :
  reply (routeAndExecuteRequest backendAnswers oneFails threeGateway
           (bareRequest (JNum 3) "tools/list") exampleSession)
  = inr (JObj [("jsonrpc", JStr "2.0"); ("id", JNum 3);
               ("result",
                JObj [("tools",
                       JArr [tool "linear_get_teams"; tool "console_log"])])])
  /\ fetched (routeAndExecuteRequest backendAnswers oneFails threeGateway
                (bareRequest (JNum 3) "tools/list") exampleSession)
     = ["http://localhost:3001/mcp"; "http://localhost:3002/mcp";
        "http://localhost:3004/mcp"].
Proof.
  destruct (fan_out_partial_failure backendAnswers oneFails threeGateway
              (bareRequest (JNum 3) "tools/list") exampleSession
              "tools/list" "tools") as (Hf & Hr & _).
  - simpl. auto.
  - reflexivity.
  - reflexivity.
  - repeat constructor.
  - split; [rewrite Hr | rewrite Hf]; reflexivity.
Defined.

End FanOut.

Section EnvelopeId.

Lemma handleProtocolMethod_id (fan : string -> FetchOutcome) (gw : Gateway)
      (request : JsObject) :
  isProtocolMethod (field "method" request) = true ->
  exists response,
    (handleProtocolMethod fan gw request).2 = inr response
    /\ member "id" response = field "id" request
    /\ member "error" response = JUndefined.
Proof.
  intros Hp. apply includes_only_strings in Hp.
  destruct Hp as (m & Hm & Hin). unfold handleProtocolMethod. rewrite Hm.
  simpl in Hin.
  destruct Hin as [<-|[<-|[<-|[<-|[<-|[<-|[]]]]]]]; simpl;
    repeat match goal with
           | |- context [let '(_, _) := ?p in _] => destruct p
           end; eexists; repeat split; reflexivity.
Qed.

(** C8. For a request whose id and method can be converted to strings
    (as every string and number can), every response the gateway itself
    builds carries the [id] of the request, unchanged in value and in
    type: the results of protocol methods, the -32601 and -32603 routing
    errors (nothing was fetched), and the -32603 conversion of an
    exception of the forwarded call.  The only other reply is the body a
    backend answered with, passed on as it is.  So the number 42 comes
    back as the number 42, not as the string "42", and the string "abc"
    as "abc".  For an id or a method that cannot be converted to a
    string the call throws at its entry log and builds no response. *)
Theorem id_round_trip (proxy : FetchOutcome) (fan : string -> FetchOutcome)
        (gw : Gateway) (request : JsObject) (session : Session) :
  (printable (field "id" request) = true ->
   printable (field "method" request) = true ->
   exists response,
     reply (routeAndExecuteRequest proxy fan gw request session)
     = inr response
     /\ (isProtocolMethod (field "method" request) = true ->
         member "id" response = field "id" request
         /\ member "error" response = JUndefined)
     /\ (isProtocolMethod (field "method" request) = false ->
         fetched (routeAndExecuteRequest proxy fan gw request session) = [] ->
         member "id" response = field "id" request
         /\ (error_code response = JNum (-32601)
             \/ error_code response = JNum (-32603)))
     /\ (isProtocolMethod (field "method" request) = false ->
         fetched (routeAndExecuteRequest proxy fan gw request session) <> [] ->
         match proxied proxy with
         | inl e =>
             response
             = JObj [("jsonrpc", JStr "2.0"); ("id", field "id" request);
                     ("error", JObj [("code", JNum (-32603));
                                     ("message", JStr "Internal error");
                                     ("data", JStr match e with
                                                    | ThrownError message => message
                                                    | ThrownOther => "Unknown error"
                                                    end)])]
         | inr body => response = body
         end))
  /\ (field "id" request = JUndefined
      \/ (exists s, field "id" request = JStr s)
      \/ (exists n, field "id" request = JNum n) ->
      printable (field "id" request) = true)
  /\ (printable (field "id" request) = false
      \/ printable (field "method" request) = false ->
      routeAndExecuteRequest proxy fan gw request session
      = {| gateway := gw; fetched := [];
           reply := inl (ThrownError
                           "Cannot convert object to primitive value") |}).
Proof.
  split; [|split; [apply printable_declared|]].
  - intros Hid Hm.
    destruct (isProtocolMethod (field "method" request)) eqn:Hp.
    + destruct (handleProtocolMethod_id fan gw request Hp)
        as (response & Hr & Hrid & Herr).
      exists response. unfold routeAndExecuteRequest.
      rewrite route_entry, Hid, Hm, Hp. cbn [andb].
      destruct (handleProtocolMethod fan gw request) as [urls r].
      simpl in Hr. subst r. simpl.
      split; [reflexivity|]. split; [auto|]. split; discriminate.
    + unfold routeAndExecuteRequest.
      rewrite route_entry, Hid, Hm, Hp. cbn [andb].
      destruct (resolveCapability request (capabilityMap gw)) as [e|[sid|]].
      * eexists. split; [reflexivity|]. split; [discriminate|].
        split; [simpl; auto | simpl; congruence].
      * destruct (String.eqb sid "").
        -- destruct (to_string (getCapabilityToResolve request));
             (eexists; split; [reflexivity|]; split; [discriminate|];
              split; [simpl; auto | simpl; congruence]).
        -- destruct (getServerInstance sid (serverManager gw))
             as [[inst|] servers].
           ++ eexists. split; [reflexivity|]. split; [discriminate|].
              split; [simpl; discriminate|]. simpl. intros _ _.
              destruct (proxied proxy); reflexivity.
           ++ eexists. split; [reflexivity|]. split; [discriminate|].
              split; [simpl; auto | simpl; congruence].
      * destruct (to_string (getCapabilityToResolve request));
          (eexists; split; [reflexivity|]; split; [discriminate|];
           split; [simpl; auto | simpl; congruence]).
  - intros Hno. unfold routeAndExecuteRequest. rewrite route_entry.
    destruct Hno as [->| ->]; [reflexivity|].
    rewrite andb_false_r. reflexivity.
Qed.

Lemma id_round_trip_witness :
  (exists response,
      reply (routeAndExecuteRequest backendAnswers allDown exampleGateway
               (bareRequest (JNum 42) "ping") exampleSession) = inr response
      /\ member "id" response = JNum 42)
  /\ (exists response,
         reply (routeAndExecuteRequest backendAnswers allDown exampleGateway
                  (toolsCall (JStr "abc") "nonexistent_tool") exampleSession)
         = inr response
         /\ member "id" response = JStr "abc")
  /\ reply (routeAndExecuteRequest backendUnreachable allDown gatewayLinearUp
              (toolsCall (JNum 42) "linear_get_teams") exampleSession)
     = inr (JObj [("jsonrpc", JStr "2.0"); ("id", JNum 42);
                  ("error", JObj [("code", JNum (-32603));
                                  ("message", JStr "Internal error");
                                  ("data", JStr "connect ECONNREFUSED")])]).
Proof.
  split; [|split].
  - destruct (id_round_trip backendAnswers allDown exampleGateway
                (bareRequest (JNum 42) "ping") exampleSession)
      as (Hr & _).
    destruct (Hr eq_refl eq_refl) as (response & Hreply & Hp & _).
    exists response. split; [exact Hreply|]. apply (Hp eq_refl).
  - destruct (id_round_trip backendAnswers allDown exampleGateway
                (toolsCall (JStr "abc") "nonexistent_tool") exampleSession)
      as (Hr & _).
    destruct (Hr eq_refl eq_refl) as (response & Hreply & _ & Hn & _).
    exists response. split; [exact Hreply|]. apply (Hn eq_refl eq_refl).
  - destruct (id_round_trip backendUnreachable allDown gatewayLinearUp
                (toolsCall (JNum 42) "linear_get_teams") exampleSession)
      as (Hr & _).
    destruct (Hr eq_refl eq_refl) as (response & Hreply & _ & _ & Hc).
    rewrite Hreply. f_equal.
    assert (Hf : fetched (routeAndExecuteRequest backendUnreachable allDown
                            gatewayLinearUp
                            (toolsCall (JNum 42) "linear_get_teams")
                            exampleSession) <> []).
    { vm_compute. discriminate. }
    exact (Hc eq_refl Hf).
Defined.

End EnvelopeId.

Section Sessions.

Lemma removeSession_lookup (sessionId k : string) (sessions : Sessions) :
  removeSession sessionId sessions !! k
  = if decide (sessionId = k) then None else sessions !! k.
Proof.
  unfold removeSession. destruct (sessions !! sessionId) eqn:Hs.
  - rewrite lookup_delete. reflexivity.
  - case_decide; [subst; exact Hs | reflexivity].
Qed.

Lemma remove_all_lookup (ids : list string) :
  forall (sessions : Sessions) (k : string),
    foldl (fun sessions sessionId => removeSession sessionId sessions)
          sessions ids !! k
    = if decide (k ∈ ids) then None else sessions !! k.
Proof.
  induction ids as [|sessionId ids IH]; intros sessions k; simpl.
  - destruct (decide (k ∈ [])) as [Hin|_]; [|reflexivity].
    apply elem_of_nil in Hin. contradiction.
  - rewrite IH, removeSession_lookup.
    rewrite (decide_ext (k ∈ sessionId :: ids) (k = sessionId \/ k ∈ ids))
      by apply elem_of_cons.
    destruct (decide (k ∈ ids)) as [Hin|Hnin].
    + rewrite decide_True; [reflexivity | auto].
    + destruct (decide (sessionId = k)) as [->|Hne].
      * rewrite decide_True; [reflexivity | auto].
      * rewrite decide_False; [reflexivity|].
        intros [->|Hin]; contradiction.
Qed.

(** The sweep removes exactly the sessions idle for longer than the
    timeout. *)
Lemma cleanupExpiredSessions_lookup (config : SessionConfig) (now : Z)
      (sessions : Sessions) (k : string) :
  cleanupExpiredSessions config now sessions !! k
  = match sessions !! k with
    | Some s => if sessionTimeout config <? now - lastActivity s
                then None else Some s
    | None => None
    end.
Proof.
  unfold cleanupExpiredSessions. rewrite remove_all_lookup.
  destruct (sessions !! k) as [s|] eqn:Hs.
  - destruct (sessionTimeout config <? now - lastActivity s) eqn:Hexp.
    + rewrite decide_True; [reflexivity|].
      apply list_elem_of_omap. exists (k, s). split.
      * apply elem_of_map_to_list. exact Hs.
      * simpl. rewrite Hexp. reflexivity.
    + rewrite decide_False; [reflexivity|].
      intros Hin. apply list_elem_of_omap in Hin.
      destruct Hin as ([k' s'] & Hin & Hf).
      apply elem_of_map_to_list in Hin. simpl in Hf.
      destruct (sessionTimeout config <? now - lastActivity s') eqn:Hexp';
        [|discriminate].
      injection Hf as ->. congruence.
  - destruct (decide _) as [Hin|_]; [|reflexivity].
    apply list_elem_of_omap in Hin.
    destruct Hin as ([k' s'] & Hin & Hf).
    apply elem_of_map_to_list in Hin. simpl in Hf.
    destruct (sessionTimeout config <? now - lastActivity s'); [|discriminate].
    injection Hf as ->. congruence.
Qed.

(** C9, as stated, fails: 5000 ms after its last activity, under a
    timeout of 1000 ms and before any sweep, the session is returned. *)
Lemma idle_session_counterexample :
  sessionTimeout (sessionConfig tinyConfig) < 5000 - 0
  /\ (lastActivity <$> oneSession !! "s-1") = Some 0
  /\ (getSession "s-1" 5000 oneSession).1
     = Some (mkSession "s-1" "anonymous" 0 5000 Http None)
  /\ (getSession "s-1" 5000 oneSession).1 <> None.
Proof. vm_compute. repeat split; discriminate. Qed.

(** C9, amended. [getSession(id)] returns the stored session with its
    [lastActivity] set to now, and stores it so; it returns [null] exactly
    when no session is stored under [id].  A session idle for longer than
    [sessionTimeout] is still returned (and refreshed) until a sweep runs;
    a sweep at time [tick] removes the sessions with
    [tick - lastActivity > sessionTimeout], for which [getSession] returns
    [null] afterwards, and keeps the others. *)
Theorem getSession_sliding (config : SessionConfig) (sessions : Sessions)
        (sessionId : string) (now : Z) :
  (forall s, sessions !! sessionId = Some s ->
             getSession sessionId now sessions
             = (Some (touch now s), <[sessionId := touch now s]> sessions)
             /\ lastActivity (touch now s) = now
             /\ (getSession sessionId now sessions).2 !! sessionId
                = Some (touch now s))
  /\ ((getSession sessionId now sessions).1 = None <->
      sessions !! sessionId = None)
  /\ (forall tick s,
         sessions !! sessionId = Some s ->
         sessionTimeout config < tick - lastActivity s ->
         (getSession sessionId now
            (cleanupExpiredSessions config tick sessions)).1 = None)
  /\ (forall tick s,
         sessions !! sessionId = Some s ->
         tick - lastActivity s <= sessionTimeout config ->
         (getSession sessionId now
            (cleanupExpiredSessions config tick sessions)).1
         = Some (touch now s)).
Proof.
  split; [|split; [|split]].
  - intros s Hs. unfold getSession. rewrite Hs. simpl.
    rewrite lookup_insert_eq. auto.
  - unfold getSession. destruct (sessions !! sessionId); simpl;
      split; congruence.
  - intros tick s Hs Hexp. unfold getSession.
    rewrite cleanupExpiredSessions_lookup, Hs.
    apply Z.ltb_lt in Hexp. rewrite Hexp. reflexivity.
  - intros tick s Hs Hlive. unfold getSession.
    rewrite cleanupExpiredSessions_lookup, Hs.
    apply Z.ltb_ge in Hlive. rewrite Hlive. reflexivity.
Qed.

Lemma getSession_sliding_witness :
  (getSession "s-1" 5000 oneSession).1
  = Some (touch 5000 (mkSession "s-1" "anonymous" 0 0 Http None))
  /\ (getSession "s-1" 5000
        (cleanupExpiredSessions (sessionConfig tinyConfig) 1001 oneSession)).1
     = None.
Proof.
  destruct (getSession_sliding (sessionConfig tinyConfig) oneSession "s-1" 5000)
    as (Hget & _ & Hswept & _).
  split.
  - destruct (Hget (mkSession "s-1" "anonymous" 0 0 Http None)) as (H & _).
    + reflexivity.
    + rewrite H. reflexivity.
  - apply (Hswept 1001 (mkSession "s-1" "anonymous" 0 0 Http None)).
    + reflexivity.
    + simpl. lia.
Defined.

End Sessions.

Section Capacity.

Lemma getSession_size (sessionId : string) (now : Z) (sessions : Sessions) :
  size (getSession sessionId now sessions).2 = size sessions.
Proof.
  unfold getSession. destruct (sessions !! sessionId) as [s|] eqn:Hs;
    [|reflexivity].
  simpl. apply map_size_insert_Some. eauto.
Qed.

Lemma getSessionFromHeaders_size (validateToken : string -> option string)
      (headers : HTTPHeaders) (now : Z) (sessions : Sessions) :
  size (getSessionFromHeaders validateToken headers now sessions).2
  = size sessions.
Proof.
  unfold getSessionFromHeaders, getSessionFromAuthHeader.
  split_branches; simpl; try reflexivity; apply getSession_size.
Qed.

Lemma routeAndExecuteRequest_sessions (proxy : FetchOutcome)
      (fan : string -> FetchOutcome) (gw : Gateway) (request : JsObject)
      (session : Session) :
  sessionManager (gateway (routeAndExecuteRequest proxy fan gw request session))
  = sessionManager gw.
Proof.
  unfold routeAndExecuteRequest. split_branches; reflexivity.
Qed.

(** The HTTP path asks [canCreateNewSession] first, and so keeps the
    number of sessions within [maxConcurrentSessions]. *)
Lemma handleHttpRequest_within_capacity
      (validateToken : string -> option string) (uuid : string) (now : Z)
      (proxy : FetchOutcome) (fan : string -> FetchOutcome) (gw : Gateway)
      (requestBody : JsValue) (headers : HTTPHeaders) :
  getActiveSessionCount (sessionManager gw)
  <= maxConcurrentSessions (sessionConfig (config gw)) ->
  getActiveSessionCount
    (sessionManager
       (gateway (handleHttpRequest validateToken uuid now proxy fan gw
                   requestBody headers)))
  <= maxConcurrentSessions (sessionConfig (config gw)).
Proof.
  unfold handleHttpRequest, getActiveSessionCount. intros Hle.
  pose proof (getSessionFromHeaders_size validateToken headers now
                (sessionManager gw)) as Hsize.
  destruct (getSessionFromHeaders validateToken headers now (sessionManager gw))
    as [found sessions]. simpl in Hsize.
  assert (Hroute : forall sessions' session,
             Z.of_nat (size sessions')
             <= maxConcurrentSessions (sessionConfig (config gw)) ->
             Z.of_nat
               (size (sessionManager
                        (gateway
                           match handleHttpToMCP requestBody with
                           | inl e =>
                               {| gateway := with_sessionManager sessions' gw;
                                  fetched := []; reply := http_failure e |}
                           | inr mcpRequest =>
                               {| gateway :=
                                    gateway
                                      (routeAndExecuteRequest proxy fan
                                         (with_sessionManager sessions' gw)
                                         mcpRequest session);
                                  fetched :=
                                    fetched
                                      (routeAndExecuteRequest proxy fan
                                         (with_sessionManager sessions' gw)
                                         mcpRequest session);
                                  reply :=
                                    match
                                      reply
                                        (routeAndExecuteRequest proxy fan
                                           (with_sessionManager sessions' gw)
                                           mcpRequest session)
                                    with
                                    | inr mcpResponse => mcpResponse
                                    | inl e => http_failure e
                                    end |}
                           end)))
             <= maxConcurrentSessions (sessionConfig (config gw))).
  { intros sessions' session Hle'.
    destruct (handleHttpToMCP requestBody); simpl; [exact Hle'|].
    rewrite routeAndExecuteRequest_sessions. exact Hle'. }
  destruct found as [session|].
  - apply Hroute. rewrite Hsize. exact Hle.
  - unfold canCreateNewSession, getActiveSessionCount.
    destruct (Z.of_nat (size sessions)
              <? maxConcurrentSessions (sessionConfig (config gw))) eqn:Hroom;
      simpl.
    + apply Hroute. apply Z.ltb_lt in Hroom.
      pose proof (map_size_insert uuid
                    {| session_id := uuid; userId := "anonymous";
                       createdAt := now; lastActivity := now;
                       transport := Http; connection := None |} sessions) as Hi.
      destruct (sessions !! uuid); simpl in Hi; unfold Datatypes.id in Hi; lia.
    + rewrite Hsize. exact Hle.
Qed.

(** The WebSocket path does not ask: a connection adds a session
    whatever [canCreateNewSession] says. *)
Lemma handleWebSocketConnection_admits
      (generateToken : string -> Thrown + string)
      (uuid : string) (now : Z) (ws : IWebSocket) (gw : Gateway) :
  sessionManager gw !! uuid = None ->
  getActiveSessionCount
    (sessionManager (handleWebSocketConnection generateToken uuid now ws gw).1.1)
  = getActiveSessionCount (sessionManager gw) + 1.
Proof.
  intros Hfresh. unfold handleWebSocketConnection, getActiveSessionCount.
  simpl. unfold attachWebSocket. rewrite lookup_insert_eq. simpl.
  rewrite insert_insert_eq, map_size_insert_None by exact Hfresh. lia.
Qed.

(** C2 fails on the WebSocket path, which creates its session without
    asking [canCreateNewSession]: under [maxConcurrentSessions = 1], a
    second connection arrives when no new session may be created, and
    leaves two active sessions. *)
Theorem websocket_admission_unchecked :
  maxConcurrentSessions (sessionConfig (config tinyGateway)) = 1
  /\ getActiveSessionCount (sessionManager oneSocket) = 1
  /\ canCreateNewSession (sessionConfig (config oneSocket))
       (sessionManager oneSocket) = false
  /\ getActiveSessionCount (sessionManager twoSockets) = 2
  /\ maxConcurrentSessions (sessionConfig (config twoSockets))
     < getActiveSessionCount (sessionManager twoSockets).
Proof. vm_compute. repeat split; reflexivity. Qed.

End Capacity.

Section FailureShapes.

(** C7, as stated, fails: a body without [jsonrpc], and a request that
    arrives when no session may be created, are both answered over HTTP
    with [{success: false, error}], which is not a JSON-RPC error object. *)
Lemma http_failure_counterexample :
  reply (handleHttpRequest noToken "s-1" 10 backendAnswers allDown
           exampleGateway malformedBody noHeaders)
  = JObj [("success", JBool false);
          ("error", JStr "Invalid JSON-RPC request")]
  /\ is_jsonrpc_error
       (reply (handleHttpRequest noToken "s-1" 10 backendAnswers allDown
                 exampleGateway malformedBody noHeaders)) = false
  /\ reply (handleHttpRequest noToken "s-1" 10 backendAnswers allDown
              fullGateway (JObj (bareRequest (JNum 1) "ping")) noHeaders)
     = JObj [("success", JBool false);
             ("error", JStr "Maximum concurrent sessions reached")]
  /\ is_jsonrpc_error
       (reply (handleHttpRequest noToken "s-1" 10 backendAnswers allDown
                 fullGateway (JObj (bareRequest (JNum 1) "ping")) noHeaders))
     = false.
Proof. vm_compute. repeat split; reflexivity. Qed.

(** The replies [routeAndExecuteRequest] builds for a failure of routing
    are JSON-RPC errors with the id of the request. *)
Lemma routing_failure_shape (proxy : FetchOutcome)
      (fan : string -> FetchOutcome) (gw : Gateway) (request : JsObject)
      (session : Session) :
  printable (field "id" request) = true ->
  printable (field "method" request) = true ->
  isProtocolMethod (field "method" request) = false ->
  fetched (routeAndExecuteRequest proxy fan gw request session) = []
  \/ (exists e, proxied proxy = inl e) ->
  exists code message data,
    reply (routeAndExecuteRequest proxy fan gw request session)
    = inr (JObj [("jsonrpc", JStr "2.0"); ("id", field "id" request);
                 ("error", JObj [("code", JNum code);
                                 ("message", JStr message);
                                 ("data", JStr data)])])
    /\ (code = -32601 \/ code = -32603).
Proof.
  intros Hid Hm Hnp. unfold routeAndExecuteRequest.
  rewrite route_entry, Hid, Hm, Hnp. cbn [andb].
  destruct (resolveCapability request (capabilityMap gw)) as [e|[sid|]].
  - intros _. unfold internal_error. eauto 10.
  - destruct (String.eqb sid "").
    + intros _. destruct (to_string (getCapabilityToResolve request));
        unfold internal_error; simpl; eauto 10.
    + destruct (getServerInstance sid (serverManager gw))
        as [[inst|] servers]; simpl.
      * intros [Hf|[e He]]; [discriminate|]. rewrite He.
        unfold internal_error. eauto 10.
      * intros _. eauto 10.
  - intros _. destruct (to_string (getCapabilityToResolve request));
      unfold internal_error; simpl; eauto 10.
Qed.

(** C7, amended. A failure of routing (no owner for the capability, owner
    unhealthy, exception of the forwarded call or of the resolution) of
    a request whose id and method can be converted to strings yields the
    JSON-RPC error object [{jsonrpc: "2.0", id, error: {code, message,
    data}}] with the [id] of the request and the code -32601 or -32603,
    over HTTP as the reply and over WebSocket as a frame.  Three failures
    are not answered in that shape.  The session-capacity limit and a
    malformed envelope, which [handleHttpRequest] raises before routing,
    are answered with [{success: false, error: <message>}], which is not
    a JSON-RPC object.  A request whose id or method cannot be converted
    to a string makes [routeAndExecuteRequest] throw at its entry log:
    over HTTP it is answered with [{success: false, error: "Cannot
    convert object to primitive value"}], over WebSocket with a -32603
    frame that has no [id].  A WebSocket frame that does not parse into
    a request is answered with the frame [{jsonrpc: "2.0", error:
    {code: -32700, message: "Parse error"}}], without [id]. *)
Theorem failure_shapes (validateToken : string -> option string)
        (JSON_parse : string -> option JsValue) (uuid : string) (now : Z)
        (proxy : FetchOutcome) (fan : string -> FetchOutcome) (gw : Gateway)
        (session : Session) :
  (forall request,
      printable (field "id" request) = true ->
      printable (field "method" request) = true ->
      isProtocolMethod (field "method" request) = false ->
      fetched (routeAndExecuteRequest proxy fan gw request session) = []
      \/ (exists e, proxied proxy = inl e) ->
      exists code message data,
        reply (routeAndExecuteRequest proxy fan gw request session)
        = inr (JObj [("jsonrpc", JStr "2.0"); ("id", field "id" request);
                     ("error", JObj [("code", JNum code);
                                     ("message", JStr message);
                                     ("data", JStr data)])])
        /\ (code = -32601 \/ code = -32603))
  /\ (forall requestBody headers sessions,
         getSessionFromHeaders validateToken headers now (sessionManager gw)
         = (None, sessions) ->
         canCreateNewSession (sessionConfig (config gw)) sessions = false ->
         reply (handleHttpRequest validateToken uuid now proxy fan gw
                  requestBody headers)
         = JObj [("success", JBool false);
                 ("error", JStr "Maximum concurrent sessions reached")])
  /\ (forall requestBody headers e,
         handleHttpToMCP requestBody = inl e ->
         reply (handleHttpRequest validateToken uuid now proxy fan gw
                  requestBody headers)
         = JObj [("success", JBool false);
                 ("error", JStr "Maximum concurrent sessions reached")]
         \/ reply (handleHttpRequest validateToken uuid now proxy fan gw
                     requestBody headers)
            = JObj [("success", JBool false);
                    ("error", JStr "Invalid JSON-RPC request")])
  /\ (forall requestBody headers mcpRequest,
         handleHttpToMCP requestBody = inr mcpRequest ->
         let found :=
           getSessionFromHeaders validateToken headers now (sessionManager gw) in
         let admitted :=
           match found.1 with
           | Some session' => Some (session', found.2)
           | None =>
               if canCreateNewSession (sessionConfig (config gw)) found.2
               then Some (createSession uuid now "anonymous" Http found.2)
               else None
           end in
         reply (handleHttpRequest validateToken uuid now proxy fan gw
                  requestBody headers)
         = match admitted with
           | None =>
               JObj [("success", JBool false);
                     ("error", JStr "Maximum concurrent sessions reached")]
           | Some (session', sessions) =>
               match reply (routeAndExecuteRequest proxy fan
                              (with_sessionManager sessions gw) mcpRequest
                              session') with
               | inr mcpResponse => mcpResponse
               | inl e => JObj [("success", JBool false);
                                ("error", JStr match e with
                                                | ThrownError message => message
                                                | ThrownOther => "Unknown error"
                                                end)]
               end
           end)
  /\ (forall request gw' session',
         printable (field "id" request) = false
         \/ printable (field "method" request) = false ->
         reply (routeAndExecuteRequest proxy fan gw' request session')
         = inl (ThrownError "Cannot convert object to primitive value"))
  /\ (forall message request,
         (handleWebSocketMessage JSON_parse message).1 = Some request ->
         printable (field "id" request) = false
         \/ printable (field "method" request) = false ->
         onWebSocketMessage JSON_parse proxy fan gw session message
         = (gw, [],
            [JObj [("jsonrpc", JStr "2.0");
                   ("error",
                    JObj [("code", JNum (-32603));
                          ("message", JStr "Internal error");
                          ("data",
                           JStr "Cannot convert object to primitive value")])]]))
  /\ (forall m, is_jsonrpc_error
                  (JObj [("success", JBool false); ("error", JStr m)]) = false)
  /\ (forall message,
         (handleWebSocketMessage JSON_parse message).1 = None ->
         onWebSocketMessage JSON_parse proxy fan gw session message
         = (gw, [],
            [JObj [("jsonrpc", JStr "2.0");
                   ("error", JObj [("code", JNum (-32700));
                                   ("message", JStr "Parse error")])]]))
  /\ (forall message request response,
         (handleWebSocketMessage JSON_parse message).1 = Some request ->
         reply (routeAndExecuteRequest proxy fan gw request session)
         = inr response ->
         (onWebSocketMessage JSON_parse proxy fan gw session message).2
         = [response]).
Proof.
  assert (Hthrows : forall request gw' session',
             printable (field "id" request) = false
             \/ printable (field "method" request) = false ->
             routeAndExecuteRequest proxy fan gw' request session'
             = {| gateway := gw'; fetched := [];
                  reply := inl cannot_convert |}).
  { intros request gw' session' Hno. unfold routeAndExecuteRequest.
    rewrite route_entry. destruct Hno as [->| ->]; [reflexivity|].
    rewrite andb_false_r. reflexivity. }
  assert (Hframes : forall message request,
             (handleWebSocketMessage JSON_parse message).1 = Some request ->
             handleWebSocketMessage JSON_parse message = (Some request, [])).
  { intros message request. unfold handleWebSocketMessage.
    destruct (JSON_parse message) as [parsed|]; [|discriminate].
    destruct (negb (truthy parsed) || _ || _); [discriminate|].
    destruct parsed; try discriminate. simpl. intros [= ->]. reflexivity. }
  split; [|split; [|split; [|split; [|split; [|split; [|split; [|split]]]]]]].
  - intros request. apply routing_failure_shape.
  - intros requestBody headers sessions Hs Hfull. unfold handleHttpRequest.
    rewrite Hs, Hfull. reflexivity.
  - intros requestBody headers e He. unfold handleHttpRequest.
    assert (Hmsg : e = ThrownError "Invalid JSON-RPC request").
    { unfold handleHttpToMCP in He. destruct (_ || _); [congruence|].
      destruct requestBody; congruence. }
    subst e.
    destruct (getSessionFromHeaders validateToken headers now
                (sessionManager gw)) as [[s|] sessions].
    + rewrite He. right. reflexivity.
    + destruct (canCreateNewSession _ sessions); simpl;
        [rewrite He; right | left]; reflexivity.
  - intros requestBody headers mcpRequest Hreq. unfold handleHttpRequest.
    destruct (getSessionFromHeaders validateToken headers now
                (sessionManager gw)) as [[s|] sessions]; cbn [fst snd].
    + rewrite Hreq. reflexivity.
    + destruct (canCreateNewSession _ sessions); simpl.
      * rewrite Hreq. reflexivity.
      * reflexivity.
  - intros request gw' session' Hno. rewrite (Hthrows _ _ _ Hno). reflexivity.
  - intros message request Hsome Hno. unfold onWebSocketMessage.
    rewrite (Hframes _ _ Hsome), (Hthrows _ _ _ Hno). reflexivity.
  - intros m. reflexivity.
  - intros message Hnone. unfold onWebSocketMessage.
    unfold handleWebSocketMessage in *.
    destruct (JSON_parse message) as [parsed|]; [|reflexivity].
    destruct (negb (truthy parsed) || _ || _); [reflexivity|].
    destruct parsed; simpl in *; try discriminate; reflexivity.
  - intros message request response Hsome Hreply. unfold onWebSocketMessage.
    rewrite (Hframes _ _ Hsome), Hreply. reflexivity.
Qed.

Lemma failure_shapes_witness :
  (exists code message data,
      reply (routeAndExecuteRequest backendAnswers allDown exampleGateway
               (toolsCall (JNum 1) "nonexistent_tool") exampleSession)
      = inr (JObj [("jsonrpc", JStr "2.0"); ("id", JNum 1);
                   ("error", JObj [("code", JNum code);
                                   ("message", JStr message);
                                   ("data", JStr data)])]))
  /\ reply (handleHttpRequest noToken "s-1" 10 backendAnswers allDown
              fullGateway (JObj (bareRequest (JNum 1) "ping")) noHeaders)
     = JObj [("success", JBool false);
             ("error", JStr "Maximum concurrent sessions reached")]
  /\ onWebSocketMessage parseNothing backendAnswers allDown exampleGateway
       exampleSession "{"
     = (exampleGateway, [],
        [JObj [("jsonrpc", JStr "2.0");
               ("error", JObj [("code", JNum (-32700));
                               ("message", JStr "Parse error")])]])
  /\ reply (routeAndExecuteRequest backendAnswers allDown exampleGateway
              (opaqueId "ping") exampleSession)
     = inl (ThrownError "Cannot convert object to primitive value").
Proof.
  destruct (failure_shapes noToken parseNothing "s-1" 10 backendAnswers allDown
              exampleGateway exampleSession)
    as (Hroute & _ & _ & _ & Hthrow & _ & _ & Hws & _).
  destruct (failure_shapes noToken parseNothing "s-1" 10 backendAnswers allDown
              fullGateway exampleSession)
    as (_ & Hfull & _).
  split; [|split; [|split]].
  - destruct (Hroute (toolsCall (JNum 1) "nonexistent_tool"))
      as (code & message & data & H & _).
    + reflexivity.
    + reflexivity.
    + reflexivity.
    + left. reflexivity.
    + exists code, message, data. exact H.
  - apply (Hfull (JObj (bareRequest (JNum 1) "ping")) noHeaders ∅);
      reflexivity.
  - apply (Hws "{"). reflexivity.
  - apply (Hthrow (opaqueId "ping") exampleGateway exampleSession).
    left. reflexivity.
Defined.

End FailureShapes.

Section NoLeak.

Lemma set_activeConnections_same (s : ServerInstance) :
  set_activeConnections (activeConnections s) s = s.
Proof. destruct s. reflexivity. Qed.

Lemma with_serverManager_same (gw : Gateway) :
  with_serverManager (serverManager gw) gw = gw.
Proof. destruct gw. reflexivity. Qed.

(** A checkout followed by the release of what it returned undoes it. *)
Lemma checkout_release (sid : string) (servers : Servers) (s : ServerInstance) :
  servers !! sid = Some s ->
  isHealthy s = true ->
  0 <= activeConnections s ->
  getServerInstance sid servers
  = (Some sid,
     <[sid := set_activeConnections (activeConnections s + 1) s]> servers)
  /\ releaseServerInstance sid (getServerInstance sid servers).2 = servers.
Proof.
  intros Hs Hh Hpos. unfold getServerInstance. rewrite Hs, Hh. simpl.
  split; [reflexivity|].
  unfold releaseServerInstance. rewrite lookup_insert_eq. simpl.
  assert (Hlt : (0 <? activeConnections s + 1) = true) by (apply Z.ltb_lt; lia).
  rewrite Hlt, insert_insert_eq.
  replace (activeConnections s + 1 - 1) with (activeConnections s) by lia.
  unfold set_activeConnections. simpl. destruct s; simpl.
  apply insert_id. exact Hs.
Qed.

Lemma routeAndExecuteRequest_servers (proxy : FetchOutcome)
      (fan : string -> FetchOutcome) (gw : Gateway) (request : JsObject)
      (session : Session) :
  counters_nonneg (serverManager gw) ->
  serverManager (gateway (routeAndExecuteRequest proxy fan gw request session))
  = serverManager gw.
Proof.
  intros Hpos. unfold routeAndExecuteRequest.
  destruct (let* _ := logged (field "id" request)
            in logged (field "method" request)); [reflexivity|].
  destruct (isProtocolMethod (field "method" request)).
  { destruct (handleProtocolMethod fan gw request) as [urls [e|response]];
      reflexivity. }
  destruct (resolveCapability request (capabilityMap gw)) as [e|[sid|]];
    [reflexivity | |
     destruct (to_string (getCapabilityToResolve request)); reflexivity].
  destruct (String.eqb sid "");
    [destruct (to_string (getCapabilityToResolve request)); reflexivity|].
  destruct (serverManager gw !! sid) as [s|] eqn:Hs.
  - destruct (isHealthy s) eqn:Hh.
    + destruct (checkout_release sid (serverManager gw) s Hs Hh
                  (Hpos sid s Hs)) as [Hget Hrel].
      rewrite Hget in *. simpl in *. exact Hrel.
    + unfold getServerInstance. rewrite Hs, Hh. reflexivity.
  - unfold getServerInstance. rewrite Hs. reflexivity.
Qed.

Lemma routeAndExecuteRequest_frame (proxy : FetchOutcome)
      (fan : string -> FetchOutcome) (gw : Gateway) (request : JsObject)
      (session : Session) :
  config (gateway (routeAndExecuteRequest proxy fan gw request session))
  = config gw
  /\ capabilityMap
       (gateway (routeAndExecuteRequest proxy fan gw request session))
     = capabilityMap gw.
Proof.
  unfold routeAndExecuteRequest. split_branches; split; reflexivity.
Qed.

Lemma gateway_ext (gw gw' : Gateway) :
  config gw = config gw' ->
  serverManager gw = serverManager gw' ->
  sessionManager gw = sessionManager gw' ->
  capabilityMap gw = capabilityMap gw' ->
  gw = gw'.
Proof. destruct gw, gw'. simpl. congruence. Qed.

(** X1. Whatever the request and however the backend call ends -- a
    response, an error response, an exception -- [routeAndExecuteRequest]
    leaves the gateway as it found it: the instance it checked out is
    released, and no other state is written.  (No counter is negative in
    a gateway that runs: they are all zero between two calls.) *)
Theorem routeAndExecuteRequest_restores (proxy : FetchOutcome)
        (fan : string -> FetchOutcome) (gw : Gateway) (request : JsObject)
        (session : Session) :
  counters_nonneg (serverManager gw) ->
  gateway (routeAndExecuteRequest proxy fan gw request session) = gw.
Proof.
  intros Hpos.
  destruct (routeAndExecuteRequest_frame proxy fan gw request session)
    as [Hc Hm].
  apply gateway_ext.
  - exact Hc.
  - apply routeAndExecuteRequest_servers. exact Hpos.
  - apply routeAndExecuteRequest_sessions.
  - exact Hm.
Qed.

Lemma routeAndExecuteRequest_restores_witness :
  counters_nonneg (serverManager gatewayLinearUp)
  /\ gateway (routeAndExecuteRequest backendUnreachable allDown
                gatewayLinearUp (toolsCall (JNum 1) "linear_get_teams")
                exampleSession) = gatewayLinearUp.
Proof.
  assert (H : counters_nonneg (serverManager gatewayLinearUp)).
  { apply (bool_decide_unpack _). vm_compute. reflexivity. }
  split; [exact H|].
  apply (routeAndExecuteRequest_restores backendUnreachable allDown
           gatewayLinearUp (toolsCall (JNum 1) "linear_get_teams")
           exampleSession H).
Defined.

End NoLeak.

Section GatewayRuns.

Lemma fresh_quiescent (servers : Servers) : fresh servers -> quiescent servers.
Proof. intros Hf k s Hs. destruct (Hf k s Hs) as (_ & _ & H0). exact H0. Qed.

Lemma quiescent_nonneg (servers : Servers) :
  quiescent servers -> counters_nonneg servers.
Proof. intros Hq k s Hs. rewrite (Hq k s Hs). lia. Qed.

Lemma performHealthCheck_quiescent (sid : string) (probe : ProbeOutcome)
      (now : Z) (servers : Servers) :
  quiescent servers -> quiescent (performHealthCheck sid probe now servers).
Proof.
  intros Hq. unfold performHealthCheck.
  destruct (servers !! sid) as [s|] eqn:Hs; [|exact Hq].
  destruct (String.eqb (url s) ""); [exact Hq|].
  apply map_Forall_insert_2; [|exact Hq]. simpl. exact (Hq sid s Hs).
Qed.

Lemma handleHttpRequest_gateway (validateToken : string -> option string)
      (uuid : string) (now : Z) (proxy : FetchOutcome)
      (fan : string -> FetchOutcome) (gw : Gateway) (requestBody : JsValue)
      (headers : HTTPHeaders) :
  counters_nonneg (serverManager gw) ->
  exists sessions,
    gateway (handleHttpRequest validateToken uuid now proxy fan gw
               requestBody headers)
    = with_sessionManager sessions gw.
Proof.
  intros Hpos. unfold handleHttpRequest.
  destruct (getSessionFromHeaders validateToken headers now (sessionManager gw))
    as [found sessions].
  assert (Hroute : forall sessions' session,
             exists sessions'',
               gateway
                 match handleHttpToMCP requestBody with
                 | inl e =>
                     {| gateway := with_sessionManager sessions' gw;
                        fetched := []; reply := http_failure e |}
                 | inr mcpRequest =>
                     {| gateway :=
                          gateway
                            (routeAndExecuteRequest proxy fan
                               (with_sessionManager sessions' gw)
                               mcpRequest session);
                        fetched :=
                          fetched
                            (routeAndExecuteRequest proxy fan
                               (with_sessionManager sessions' gw)
                               mcpRequest session);
                        reply :=
                          match
                            reply
                              (routeAndExecuteRequest proxy fan
                                 (with_sessionManager sessions' gw)
                                 mcpRequest session)
                          with
                          | inr mcpResponse => mcpResponse
                          | inl e => http_failure e
                          end |}
                 end
               = with_sessionManager sessions'' gw).
  { intros sessions' session. exists sessions'.
    destruct (handleHttpToMCP requestBody); [reflexivity|].
    cbn [gateway]. apply gateway_ext.
    - apply routeAndExecuteRequest_frame.
    - apply routeAndExecuteRequest_servers. exact Hpos.
    - apply routeAndExecuteRequest_sessions.
    - apply routeAndExecuteRequest_frame. }
  destruct found as [session|]; [apply Hroute|].
  destruct (canCreateNewSession _ sessions); simpl; [apply Hroute | eauto].
Qed.

Lemma performHealthCheck_dom (sid : string) (probe : ProbeOutcome) (now : Z)
      (servers : Servers) :
  dom (performHealthCheck sid probe now servers) = dom servers.
Proof.
  unfold performHealthCheck.
  destruct (servers !! sid) as [s|] eqn:Hs; [|reflexivity].
  destruct (String.eqb (url s) ""); [reflexivity|].
  apply dom_insert_lookup_L. eauto.
Qed.

Lemma onWebSocketMessage_gateway (JSON_parse : string -> option JsValue)
      (proxy : FetchOutcome) (fan : string -> FetchOutcome) (gw : Gateway)
      (session : Session) (message : string) :
  counters_nonneg (serverManager gw) ->
  (onWebSocketMessage JSON_parse proxy fan gw session message).1.1 = gw.
Proof.
  intros Hpos. unfold onWebSocketMessage.
  destruct (handleWebSocketMessage JSON_parse message) as [[request|] frames];
    [|reflexivity].
  simpl. apply gateway_ext.
  - apply routeAndExecuteRequest_frame.
  - apply routeAndExecuteRequest_servers. exact Hpos.
  - apply routeAndExecuteRequest_sessions.
  - apply routeAndExecuteRequest_frame.
Qed.

Lemma settled_sessions (c : GatewayConfig) (t0 : Z) (gw : Gateway)
      (sessions : Sessions) :
  settled c t0 gw -> settled c t0 (with_sessionManager sessions gw).
Proof. intros H. exact H. Qed.

Lemma gateway_step_settled (c : GatewayConfig) (t0 : Z) (gw : Gateway)
      (e : GatewayEvent) :
  settled c t0 gw -> settled c t0 (gateway_step gw e).
Proof.
  intros Hs. pose proof Hs as (Hc & Hm & Hq & Hd).
  pose proof (quiescent_nonneg _ Hq) as Hpos.
  destruct e as [vt uuid now proxy fan body headers|gen uuid now ws
                |parse proxy fan session message|session|now|sid probe now];
    simpl.
  - destruct (handleHttpRequest_gateway vt uuid now proxy fan gw body headers
                Hpos) as [sessions ->].
    apply settled_sessions. exact Hs.
  - unfold handleWebSocketConnection. simpl.
    destruct (attachWebSocket uuid ws _) as [ok sessions]. simpl.
    apply settled_sessions. exact Hs.
  - rewrite onWebSocketMessage_gateway by exact Hpos. exact Hs.
  - apply settled_sessions. exact Hs.
  - apply settled_sessions. exact Hs.
  - repeat split; simpl.
    + exact Hc.
    + exact Hm.
    + apply performHealthCheck_quiescent. exact Hq.
    + rewrite performHealthCheck_dom. exact Hd.
Qed.

Lemma newGateway_settled (c : GatewayConfig) (t0 : Z) :
  settled c t0 (newGateway c t0).
Proof.
  repeat split; simpl.
  apply fresh_quiescent, newServerManager_fresh.
Qed.

Lemma gateway_run_settled (c : GatewayConfig) (t0 : Z)
      (events : list GatewayEvent) :
  forall gw, settled c t0 gw -> settled c t0 (gateway_run gw events).
Proof.
  induction events as [|e events IH]; intros gw Hs; simpl; [exact Hs|].
  apply IH, gateway_step_settled, Hs.
Qed.

(** X2. Along every run of the gateway -- HTTP calls, WebSocket
    connections, messages and disconnections, cleanup ticks, health
    checks, in any order, each handled to completion -- the configuration
    and the capability map stay what the constructor made them, the set
    of backends never changes, and after each handler every backend has
    [activeConnections = 0]: no call leaves an instance checked out. *)
Theorem gateway_run_keeps (c : GatewayConfig) (t0 : Z)
        (events : list GatewayEvent) :
  config (gateway_run (newGateway c t0) events) = c
  /\ capabilityMap (gateway_run (newGateway c t0) events)
     = buildCapabilityMap (mcpServers c)
  /\ (forall B, is_Some (serverManager (gateway_run (newGateway c t0) events)
                         !! B)
                <-> is_Some (newServerManager (mcpServers c) t0 !! B))
  /\ (forall B s,
         serverManager (gateway_run (newGateway c t0) events) !! B = Some s ->
         activeConnections s = 0).
Proof.
  destruct (gateway_run_settled c t0 events _ (newGateway_settled c t0))
    as (Hc & Hm & Hq & Hd).
  split; [exact Hc|]. split; [exact Hm|]. split.
  - intros B. rewrite <- !elem_of_dom, Hd. reflexivity.
  - intros B s HB. exact (Hq B s HB).
Qed.

Lemma removeSession_size (sessionId : string) (sessions : Sessions) :
  (size (removeSession sessionId sessions) <= size sessions)%nat.
Proof.
  unfold removeSession. destruct (sessions !! sessionId) eqn:Hs; [|lia].
  rewrite map_size_delete, Hs. simpl. lia.
Qed.

Lemma remove_all_size (ids : list string) :
  forall sessions : Sessions,
    (size (foldl (fun sessions sessionId => removeSession sessionId sessions)
                 sessions ids) <= size sessions)%nat.
Proof.
  induction ids as [|k ids IH]; intros sessions; simpl; [reflexivity|].
  etransitivity; [apply IH | apply removeSession_size].
Qed.

Lemma cleanupExpiredSessions_size (config : SessionConfig) (now : Z)
      (sessions : Sessions) :
  (size (cleanupExpiredSessions config now sessions) <= size sessions)%nat.
Proof. unfold cleanupExpiredSessions. apply remove_all_size. Qed.

Lemma gateway_step_capacity (c : GatewayConfig) (t0 : Z) (gw : Gateway)
      (e : GatewayEvent) :
  settled c t0 gw ->
  opens_socket e = false ->
  getActiveSessionCount (sessionManager gw)
  <= maxConcurrentSessions (sessionConfig c) ->
  getActiveSessionCount (sessionManager (gateway_step gw e))
  <= maxConcurrentSessions (sessionConfig c).
Proof.
  intros Hs Hno Hle. pose proof Hs as (Hc & _ & Hq & _).
  pose proof (quiescent_nonneg _ Hq) as Hpos.
  destruct e as [vt uuid now proxy fan body headers|gen uuid now ws
                |parse proxy fan session message|session|now|sid probe now];
    simpl in *; try discriminate.
  - rewrite <- Hc in *. apply handleHttpRequest_within_capacity. exact Hle.
  - rewrite onWebSocketMessage_gateway by exact Hpos. exact Hle.
  - unfold getActiveSessionCount in *.
    pose proof (removeSession_size (session_id session) (sessionManager gw)).
    lia.
  - unfold getActiveSessionCount in *.
    pose proof (cleanupExpiredSessions_size (sessionConfig (config gw)) now
                  (sessionManager gw)).
    lia.
  - exact Hle.
Qed.

(** X3. As long as no WebSocket connection is opened, the number of
    sessions never exceeds [maxConcurrentSessions]: over HTTP a session
    is created only after [canCreateNewSession()] said yes, and messages,
    disconnections, sweeps and health checks add none. *)
Theorem capacity_without_sockets (c : GatewayConfig) (t0 : Z)
        (events : list GatewayEvent) :
  0 <= maxConcurrentSessions (sessionConfig c) ->
  forallb (fun e => negb (opens_socket e)) events = true ->
  getActiveSessionCount (sessionManager (gateway_run (newGateway c t0) events))
  <= maxConcurrentSessions (sessionConfig c).
Proof.
  intros Hmax.
  assert (Hgen : forall gw,
             settled c t0 gw ->
             forallb (fun e => negb (opens_socket e)) events = true ->
             getActiveSessionCount (sessionManager gw)
             <= maxConcurrentSessions (sessionConfig c) ->
             getActiveSessionCount (sessionManager (gateway_run gw events))
             <= maxConcurrentSessions (sessionConfig c)).
  { induction events as [|e events IH]; intros gw Hs Hno Hle; simpl;
      [exact Hle|].
    simpl in Hno. apply andb_true_iff in Hno. destruct Hno as [He Hrest].
    apply negb_true_iff in He.
    apply IH; [apply gateway_step_settled, Hs | exact Hrest |].
    apply (gateway_step_capacity c t0); assumption. }
  intros Hno. apply Hgen; [apply newGateway_settled | exact Hno |].
  unfold getActiveSessionCount. simpl. rewrite map_size_empty. exact Hmax.
Qed.

Lemma capacity_without_sockets_witness :
  getActiveSessionCount (sessionManager (gateway_run (newGateway tinyConfig 0)
                                           httpOnly))
  <= maxConcurrentSessions (sessionConfig tinyConfig).
Proof.
  apply (capacity_without_sockets tinyConfig 0 httpOnly).
  - simpl. lia.
  - reflexivity.
Defined.

End GatewayRuns.

Section CapabilityMapFacts.

Lemma map_set_elem {V : Type} (k k' : string) (v v' : V)
      (m : list (string * V)) :
  (k', v') ∈ map_set k v m -> (k' = k /\ v' = v) \/ (k', v') ∈ m.
Proof.
  induction m as [|[k0 v0] m IH]; simpl.
  - intros H. apply list_elem_of_singleton in H. injection H as -> ->. auto.
  - destruct (String.eqb_spec k k0) as [->|Hne]; intros H;
      apply elem_of_cons in H; destruct H as [H|H].
    + injection H as -> ->. auto.
    + right. apply elem_of_cons. auto.
    + right. apply elem_of_cons. auto.
    + destruct (IH H) as [?|?]; [auto|]. right. apply elem_of_cons. auto.
Qed.

Lemma map_set_fresh {V : Type} (k : string) (v : V) (m : list (string * V)) :
  k ∉ m.*1 -> map_set k v m = (m ++ [(k, v)])%list.
Proof.
  induction m as [|[k0 v0] m IH]; simpl; intros Hnin; [reflexivity|].
  apply not_elem_of_cons in Hnin. destruct Hnin as [Hne Hnin].
  apply String.eqb_neq in Hne. rewrite Hne, IH by exact Hnin. reflexivity.
Qed.

Lemma map_set_keys {V : Type} (k k' : string) (v : V) (m : list (string * V)) :
  k' ∈ (map_set k v m).*1 <-> k' = k \/ k' ∈ m.*1.
Proof.
  induction m as [|[k0 v0] m IH]; simpl.
  - rewrite list_elem_of_singleton, elem_of_nil. tauto.
  - destruct (String.eqb_spec k k0) as [->|Hne]; simpl;
      rewrite !elem_of_cons; [tauto | rewrite IH; tauto].
Qed.

Lemma map_set_NoDup {V : Type} (k : string) (v : V) (m : list (string * V)) :
  NoDup m.*1 -> NoDup (map_set k v m).*1.
Proof.
  induction m as [|[k0 v0] m IH]; simpl; intros Hnd.
  - apply NoDup_singleton.
  - apply NoDup_cons in Hnd. destruct Hnd as [Hnin Hnd].
    destruct (String.eqb_spec k k0) as [->|Hne]; simpl.
    + apply NoDup_cons. auto.
    + apply NoDup_cons. split; [|auto].
      rewrite map_set_keys. intros [->|Hin]; [congruence | contradiction].
Qed.

Lemma buildCapabilityMap_from (servers : ServerConfigs) :
  forall acc : CapabilityMap,
    NoDup acc.*1 ->
    NoDup (foldl (fun m '(sid, c) => map_set sid (cfg_capabilities c) m)
                 acc servers).*1
    /\ (forall sid caps,
           (sid, caps) ∈ foldl (fun m '(sid, c) =>
                                  map_set sid (cfg_capabilities c) m)
                               acc servers ->
           (sid, caps) ∈ acc
           \/ exists c, (sid, c) ∈ servers /\ caps = cfg_capabilities c)
    /\ (NoDup (acc.*1 ++ servers.*1) ->
        foldl (fun m '(sid, c) => map_set sid (cfg_capabilities c) m)
              acc servers
        = (acc ++ ((fun e => (e.1, cfg_capabilities e.2)) <$> servers))%list).
Proof.
  induction servers as [|[sid0 c0] servers IH]; intros acc Hnd; simpl.
  - split; [exact Hnd|]. split; [auto|]. intros _. simpl.
    rewrite app_nil_r. reflexivity.
  - destruct (IH (map_set sid0 (cfg_capabilities c0) acc)
                (map_set_NoDup _ _ _ Hnd)) as (H1 & H2 & H3).
    split; [exact H1|]. split.
    + intros sid caps Hin. destruct (H2 sid caps Hin) as [Hacc|(c & Hc & ->)].
      * destruct (map_set_elem _ _ _ _ _ Hacc) as [[-> ->]|?]; [|auto].
        right. exists c0. split; [apply elem_of_cons; auto | reflexivity].
      * right. exists c. split; [apply elem_of_cons; auto | reflexivity].
    + intros Hall. apply NoDup_app in Hall.
      destruct Hall as (_ & Hdisj & Hs).
      apply NoDup_cons in Hs. destruct Hs as [Hnin0 Hs].
      assert (Hfresh : sid0 ∉ acc.*1).
      { intros Hin. apply (Hdisj sid0 Hin). apply elem_of_cons. auto. }
      rewrite H3.
      * rewrite (map_set_fresh _ _ _ Hfresh), <- app_assoc. reflexivity.
      * rewrite (map_set_fresh _ _ _ Hfresh), fmap_app. simpl.
        rewrite <- app_assoc. simpl.
        apply NoDup_app. split; [exact Hnd|]. split; [|apply NoDup_cons; auto].
        intros x Hx Hin. apply (Hdisj x Hx).
        exact Hin.
Qed.

Lemma scanCapabilities_Some (key : JsValue) (capabilityMap : CapabilityMap)
      (sid : string) :
  scanCapabilities key capabilityMap = Some sid ->
  exists caps name,
    (sid, caps) ∈ capabilityMap /\ key = JStr name /\ name ∈ caps.
Proof.
  induction capabilityMap as [|[sid' caps'] rest IH]; simpl; [discriminate|].
  destruct (includes caps' key) eqn:Hinc.
  - intros [= <-]. destruct (includes_only_strings _ _ Hinc) as (name & -> & Hin).
    exists caps', name. split; [apply elem_of_cons; auto|].
    split; [reflexivity | apply list_elem_of_In; exact Hin].
  - intros H. destruct (IH H) as (caps & name & Hin & Hk & Hn).
    exists caps, name. split; [apply elem_of_cons; auto | auto].
Qed.

(** X4. The gateway only routes to a backend of its configuration that
    declares the routing key: whenever [resolveCapability] returns an id
    over the capability map the constructor built, the routing key is a
    string, the id is a key of [config.mcpServers], and the key is in
    that backend's [capabilities].  No two entries of the built map share
    an id. *)
Theorem routed_backend_declares (c : GatewayConfig) (now : Z)
        (request : JsObject) (sid : string) :
  resolveCapability request (capabilityMap (newGateway c now))
  = inr (Some sid) ->
  (exists cfg name,
      (sid, cfg) ∈ mcpServers c
      /\ getCapabilityToResolve request = JStr name
      /\ name ∈ cfg_capabilities cfg)
  /\ NoDup (capabilityMap (newGateway c now)).*1.
Proof.
  intros Hres. simpl. unfold buildCapabilityMap.
  destruct (buildCapabilityMap_from (mcpServers c) [] (NoDup_nil_2))
    as (Hnd & Hfrom & _).
  split; [|exact Hnd].
  rewrite resolveCapability_key in Hres.
  assert (Hscan : scanCapabilities (getCapabilityToResolve request)
                    (capabilityMap (newGateway c now)) = Some sid).
  { destruct (negb _); [discriminate|].
    destruct (scanCapabilities _ _) as [sid'|]; [congruence|].
    destruct (printable _); discriminate. }
  destruct (scanCapabilities_Some _ _ _ Hscan) as (caps & name & Hin & Hk & Hn).
  simpl in Hin. unfold buildCapabilityMap in Hin.
  destruct (Hfrom sid caps Hin) as [Hnil|(cfg & Hcfg & ->)].
  - apply elem_of_nil in Hnil. contradiction.
  - exists cfg, name. auto.
Qed.

Lemma routed_backend_declares_witness :
  exists cfg name,
    ("linear", cfg) ∈ mcpServers exampleConfig
    /\ getCapabilityToResolve (toolsCall (JNum 1) "linear_get_teams")
       = JStr name
    /\ name ∈ cfg_capabilities cfg.
Proof.
  destruct (routed_backend_declares exampleConfig 0
              (toolsCall (JNum 1) "linear_get_teams") "linear") as [H _].
  - reflexivity.
  - exact H.
Defined.

(** X5. For a configuration whose ids are distinct (as the keys of an
    object are), the capability map lists the backends in configuration
    order, each with its [capabilities]; so routing scans the backends in
    the order of [config.mcpServers] and, for a method and a routing key
    that can be converted to strings, returns the first that declares
    the key, [null] if none does.  (Where the method cannot be
    converted, or the key cannot and no backend declares it,
    [resolveCapability] throws instead.) *)
Theorem capabilityMap_in_config_order (c : GatewayConfig) (now : Z)
        (request : JsObject) :
  NoDup (mcpServers c).*1 ->
  capabilityMap (newGateway c now)
  = (fun e => (e.1, cfg_capabilities e.2)) <$> mcpServers c
  /\ (printable (field "method" request) = true ->
      printable (getCapabilityToResolve request) = true ->
      resolveCapability request (capabilityMap (newGateway c now))
      = inr (fst <$> List.find
                       (fun e => includes (cfg_capabilities e.2)
                                   (getCapabilityToResolve request))
                       (mcpServers c)))
  /\ (printable (field "method" request) = false
      \/ (printable (getCapabilityToResolve request) = false
          /\ List.find (fun e => includes (cfg_capabilities e.2)
                                   (getCapabilityToResolve request))
               (mcpServers c) = None) ->
      resolveCapability request (capabilityMap (newGateway c now))
      = inl (ThrownError "Cannot convert object to primitive value")).
Proof.
  intros Hnd. simpl. unfold buildCapabilityMap.
  destruct (buildCapabilityMap_from (mcpServers c) [] (NoDup_nil_2))
    as (_ & _ & Heq).
  rewrite (Heq Hnd). simpl. split; [reflexivity|].
  rewrite resolveCapability_key.
  assert (Hscan : forall key,
             scanCapabilities key
               ((fun e => (e.1, cfg_capabilities e.2)) <$> mcpServers c)
             = fst <$> List.find (fun e => includes (cfg_capabilities e.2) key)
                         (mcpServers c)).
  { intros key. clear Heq Hnd.
    induction (mcpServers c) as [|[sid cfg] rest IH]; simpl; [reflexivity|].
    destruct (includes (cfg_capabilities cfg) key); simpl;
      [reflexivity | exact IH]. }
  rewrite Hscan. split.
  - intros -> Hk. simpl.
    destruct (List.find _ (mcpServers c)) as [[sid cfg]|]; simpl;
      [reflexivity | rewrite Hk; reflexivity].
  - intros [->|[Hk Hnone]]; [reflexivity|].
    rewrite Hnone, Hk. simpl. destruct (negb _); reflexivity.
Qed.

Lemma capabilityMap_in_config_order_witness :
  NoDup exampleServers.*1
  /\ resolveCapability (toolsCall (JNum 1) "linear_get_teams")
       (capabilityMap (newGateway exampleConfig 0)) = inr (Some "linear").
Proof.
  assert (H : NoDup exampleServers.*1).
  { apply (bool_decide_unpack _). vm_compute. reflexivity. }
  split; [exact H|].
  destruct (capabilityMap_in_config_order exampleConfig 0
              (toolsCall (JNum 1) "linear_get_teams") H) as (_ & Hr & _).
  rewrite (Hr eq_refl eq_refl). reflexivity.
Defined.

End CapabilityMapFacts.

Section WelcomeCapabilities.

Lemma existsb_eqb (x : string) (seen : list string) :
  existsb (String.eqb x) seen = true <-> x ∈ seen.
Proof.
  rewrite existsb_exists. split.
  - intros (y & Hin & Heq). apply String.eqb_eq in Heq. subst.
    apply list_elem_of_In. exact Hin.
  - intros Hin. exists x. split; [apply list_elem_of_In; exact Hin|].
    apply String.eqb_refl.
Qed.

Lemma dedupe_spec (xs : list string) :
  forall seen,
    NoDup (dedupe xs seen)
    /\ (forall x, x ∈ dedupe xs seen <-> x ∈ xs /\ x ∉ seen).
Proof.
  induction xs as [|x0 xs IH]; intros seen; simpl.
  - split; [apply NoDup_nil_2|]. intros x. rewrite elem_of_nil. tauto.
  - destruct (existsb (String.eqb x0) seen) eqn:Hseen.
    + apply existsb_eqb in Hseen. destruct (IH seen) as [Hnd Hiff].
      split; [exact Hnd|]. intros x. rewrite Hiff, elem_of_cons.
      split; [tauto|]. intros [[->|Hin] Hnin]; [contradiction | auto].
    + assert (Hnin0 : x0 ∉ seen).
      { intros Hin. apply existsb_eqb in Hin. congruence. }
      destruct (IH (x0 :: seen)) as [Hnd Hiff]. split.
      * apply NoDup_cons. split; [|exact Hnd].
        rewrite Hiff, elem_of_cons. tauto.
      * intros x. rewrite !elem_of_cons, Hiff, elem_of_cons.
        destruct (decide (x = x0)) as [->|Hne]; tauto.
Qed.

Lemma insert_sorted_perm (x : string) (xs : list string) :
  insert_sorted x xs ≡ₚ x :: xs.
Proof.
  induction xs as [|y xs IH]; simpl; [reflexivity|].
  destruct (String.leb x y); [reflexivity|].
  rewrite IH. apply Permutation_swap.
Qed.

Lemma insert_sorted_sorted (x : string) (xs : list string) :
  Sorted (fun a b => String.leb a b = true) xs ->
  Sorted (fun a b => String.leb a b = true) (insert_sorted x xs).
Proof.
  induction xs as [|y xs IH]; simpl; intros Hs.
  - repeat constructor.
  - destruct (String.leb x y) eqn:Hxy.
    + constructor; [exact Hs | constructor; exact Hxy].
    + assert (Hyx : String.leb y x = true).
      { destruct (String.leb_total x y); congruence. }
      inversion Hs as [|? ? Hs' Hhd]; subst.
      constructor; [apply IH; exact Hs'|].
      destruct xs as [|z xs]; simpl; [constructor; exact Hyx|].
      inversion Hhd; subst.
      destruct (String.leb x z); constructor; assumption.
Qed.

Lemma sort_spec (xs : list string) :
  foldr insert_sorted [] xs ≡ₚ xs
  /\ Sorted (fun a b => String.leb a b = true) (foldr insert_sorted [] xs).
Proof.
  induction xs as [|x xs [IHp IHs]]; simpl.
  - split; [reflexivity | constructor].
  - split; [rewrite insert_sorted_perm, IHp; reflexivity|].
    apply insert_sorted_sorted. exact IHs.
Qed.

Lemma elem_of_concat_snd (x : string) (capabilityMap : CapabilityMap) :
  x ∈ concat (snd <$> capabilityMap) <->
  exists sid caps, (sid, caps) ∈ capabilityMap /\ x ∈ caps.
Proof.
  induction capabilityMap as [|[sid caps] rest IH]; simpl.
  - rewrite elem_of_nil. split; [tauto|].
    intros (? & ? & H & _). apply elem_of_nil in H. exact H.
  - rewrite elem_of_app, IH. split.
    + intros [Hin|(sid' & caps' & Hin & Hx)].
      * exists sid, caps. split; [apply elem_of_cons; auto | exact Hin].
      * exists sid', caps'. split; [apply elem_of_cons; auto | exact Hx].
    + intros (sid' & caps' & Hin & Hx). apply elem_of_cons in Hin.
      destruct Hin as [[= -> ->]|Hin]; [auto | right; eauto].
Qed.

(** X6. The capability list of the WebSocket welcome frame holds exactly
    the capabilities some backend declares, each once, in ascending
    order. *)
Theorem getAvailableCapabilities_sorted_set (gw : Gateway) :
  Sorted (fun a b => String.leb a b = true) (getAvailableCapabilities gw)
  /\ NoDup (getAvailableCapabilities gw)
  /\ (forall x,
         x ∈ getAvailableCapabilities gw <->
         exists sid caps, (sid, caps) ∈ capabilityMap gw /\ x ∈ caps).
Proof.
  unfold getAvailableCapabilities.
  destruct (sort_spec (dedupe (concat (snd <$> capabilityMap gw)) []))
    as [Hperm Hsorted].
  destruct (dedupe_spec (concat (snd <$> capabilityMap gw)) [])
    as [Hnd Hiff].
  split; [exact Hsorted|]. split.
  - rewrite Hperm. exact Hnd.
  - intros x. rewrite Hperm, Hiff, elem_of_concat_snd, elem_of_nil. tauto.
Qed.

End WelcomeCapabilities.

Section SessionLifecycle.

(** X7. Sessions round-trip through the manager: a session just created
    is returned by [getSession] (with [lastActivity] moved to the time of
    the lookup); once removed it is not; removing a session created under
    a fresh id restores the map; and neither operation touches the
    sessions stored under other ids. *)
Theorem session_round_trip (sessions : Sessions) (sessionId user : string)
        (now now' : Z) (tr : Transport) :
  (getSession sessionId now'
     (createSession sessionId now user tr sessions).2).1
  = Some (mkSession sessionId user now now' tr None)
  /\ (getSession sessionId now'
        (removeSession sessionId
           (createSession sessionId now user tr sessions).2)).1 = None
  /\ (sessions !! sessionId = None ->
      removeSession sessionId (createSession sessionId now user tr sessions).2
      = sessions)
  /\ (forall k, k <> sessionId ->
                (createSession sessionId now user tr sessions).2 !! k
                = sessions !! k
                /\ removeSession sessionId sessions !! k = sessions !! k).
Proof.
  repeat apply conj.
  - unfold getSession, createSession. simpl. rewrite lookup_insert_eq.
    reflexivity.
  - unfold getSession. rewrite removeSession_lookup.
    rewrite decide_True by reflexivity. reflexivity.
  - intros Hfresh. unfold removeSession, createSession. simpl.
    rewrite lookup_insert_eq, delete_insert_eq.
    apply delete_id. exact Hfresh.
  - intros k Hne. split.
    + unfold createSession. simpl. apply lookup_insert_ne. congruence.
    + rewrite removeSession_lookup. rewrite decide_False by congruence.
      reflexivity.
Qed.

Lemma session_round_trip_witness :
  removeSession "s-2" (createSession "s-2" 5 "anonymous" Http oneSession).2
  = oneSession.
Proof.
  destruct (session_round_trip oneSession "s-2" "anonymous" 5 6 Http)
    as (_ & _ & Hrestore & _).
  apply Hrestore. reflexivity.
Defined.

(** X8. The idle sweep is a filter: it keeps exactly the sessions whose
    idle time is at most [sessionTimeout] (a session idle for exactly the
    timeout stays), removes all others, and a second sweep at the same
    time removes nothing more. *)
Theorem cleanup_is_filter (config : SessionConfig) (now : Z)
        (sessions : Sessions) :
  cleanupExpiredSessions config now sessions
  = filter (fun entry => now - lastActivity entry.2 <= sessionTimeout config)
           sessions
  /\ cleanupExpiredSessions config now
       (cleanupExpiredSessions config now sessions)
     = cleanupExpiredSessions config now sessions.
Proof.
  assert (Hlook : forall m k,
             cleanupExpiredSessions config now m !! k
             = filter (fun entry : string * Session =>
                         now - lastActivity entry.2 <= sessionTimeout config)
                      m !! k).
  { intros m k. rewrite cleanupExpiredSessions_lookup, map_lookup_filter.
    destruct (m !! k) as [s|]; simpl; [|reflexivity].
    destruct (sessionTimeout config <? now - lastActivity s) eqn:Hexp.
    - apply Z.ltb_lt in Hexp. rewrite option_guard_False by lia. reflexivity.
    - apply Z.ltb_ge in Hexp. rewrite option_guard_True by lia. reflexivity. }
  split.
  - apply map_eq. intros k. apply Hlook.
  - apply map_eq. intros k. rewrite !cleanupExpiredSessions_lookup.
    destruct (sessions !! k) as [s|]; [|reflexivity].
    destruct (sessionTimeout config <? now - lastActivity s) eqn:Hexp;
      [reflexivity | rewrite Hexp; reflexivity].
Qed.

(** X9. Sliding expiration: a lookup rescues a session from the sweeps of
    the next [sessionTimeout] milliseconds, however long it had been idle
    before the lookup. *)
Theorem lookup_rescues_session (config : SessionConfig) (sessions : Sessions)
        (sessionId : string) (s : Session) (now tick : Z) :
  sessions !! sessionId = Some s ->
  tick - now <= sessionTimeout config ->
  cleanupExpiredSessions config tick (getSession sessionId now sessions).2
  !! sessionId = Some (touch now s).
Proof.
  intros Hs Htick. rewrite cleanupExpiredSessions_lookup.
  unfold getSession. rewrite Hs. simpl. rewrite lookup_insert_eq. simpl.
  apply Z.ltb_ge in Htick. rewrite Htick. reflexivity.
Qed.

Lemma lookup_rescues_session_witness :
  cleanupExpiredSessions (sessionConfig tinyConfig) 6000
    (getSession "s-1" 5000 oneSession).2 !! "s-1"
  = Some (touch 5000 (mkSession "s-1" "anonymous" 0 0 Http None)).
Proof.
  apply (lookup_rescues_session (sessionConfig tinyConfig) oneSession "s-1"
           (mkSession "s-1" "anonymous" 0 0 Http None) 5000 6000).
  - reflexivity.
  - simpl. lia.
Defined.

Lemma substring_all (s : string) : String.substring 0 (String.length s) s = s.
Proof. induction s as [|a s IH]; simpl; [reflexivity | rewrite IH; reflexivity]. Qed.

Lemma getSessionFromAuthHeader_bearer (validateToken : string -> option string)
      (token : string) (now : Z) (sessions : Sessions) :
  getSessionFromAuthHeader validateToken ("Bearer " +:+ token) now sessions
  = match validateToken token with
    | Some sessionId =>
        if negb (String.eqb sessionId "") then getSession sessionId now sessions
        else (None, sessions)
    | None => (None, sessions)
    end.
Proof.
  unfold getSessionFromAuthHeader.
  assert (Hprefix : String.prefix "Bearer " ("Bearer " +:+ token) = true).
  { simpl. destruct token; reflexivity. }
  rewrite Hprefix. simpl. rewrite Nat.sub_0_r, substring_all. reflexivity.
Qed.

(** X10. A call that presents, as [Authorization: Bearer <token>], the
    token of a stored session is served under that session at any load:
    no capacity check is made and no session is created; the call is
    routed with the session refreshed to the time of the call, and the
    reply is the response of the routing -- or, where the routing throws
    (an id or a method that cannot be converted to a string),
    [{success: false, error: <message>}]. *)
Theorem bearer_of_live_session_is_served
        (validateToken : string -> option string) (uuid : string) (now : Z)
        (proxy : FetchOutcome) (fan : string -> FetchOutcome) (gw : Gateway)
        (requestBody : JsValue) (mcpRequest : JsObject) (token : string)
        (other : option string) (sessionId : string) (s : Session) :
  validateToken token = Some sessionId ->
  sessionId <> "" ->
  sessionManager gw !! sessionId = Some s ->
  handleHttpToMCP requestBody = inr mcpRequest ->
  let routed :=
    routeAndExecuteRequest proxy fan
      (with_sessionManager (<[sessionId := touch now s]> (sessionManager gw))
         gw)
      mcpRequest (touch now s) in
  handleHttpRequest validateToken uuid now proxy fan gw requestBody
    (mkHeaders (Some ("Bearer " +:+ token)) other)
  = {| gateway := gateway routed; fetched := fetched routed;
       reply := match reply routed with
                | inr mcpResponse => mcpResponse
                | inl e => JObj [("success", JBool false);
                                 ("error", JStr match e with
                                                 | ThrownError message => message
                                                 | ThrownOther => "Unknown error"
                                                 end)]
                end |}
  /\ sessionManager
       (gateway (handleHttpRequest validateToken uuid now proxy fan gw
                   requestBody
                   (mkHeaders (Some ("Bearer " +:+ token)) other)))
     = <[sessionId := touch now s]> (sessionManager gw)
  /\ size (<[sessionId := touch now s]> (sessionManager gw))
     = size (sessionManager gw).
Proof.
  intros Htoken Hne Hs Hreq routed.
  assert (Hcall : handleHttpRequest validateToken uuid now proxy fan gw
                    requestBody
                    (mkHeaders (Some ("Bearer " +:+ token)) other)
                  = {| gateway := gateway routed; fetched := fetched routed;
                       reply := match reply routed with
                                | inr mcpResponse => mcpResponse
                                | inl e => http_failure e
                                end |}).
  { unfold handleHttpRequest, getSessionFromHeaders. simpl.
    rewrite getSessionFromAuthHeader_bearer, Htoken.
    apply String.eqb_neq in Hne. rewrite Hne. simpl.
    unfold getSession. rewrite Hs, Hreq. reflexivity. }
  split; [exact Hcall|]. split.
  - rewrite Hcall. cbn [gateway]. unfold routed.
    rewrite routeAndExecuteRequest_sessions. reflexivity.
  - apply map_size_insert_Some. eauto.
Qed.

Lemma bearer_of_live_session_is_served_witness :
  canCreateNewSession (sessionConfig (config busyGateway))
    (sessionManager busyGateway) = false
  /\ reply (handleHttpRequest knownToken "s-2" 50 backendAnswers allDown
              busyGateway (JObj (bareRequest (JNum 9) "ping")) bearerHeaders)
     = JObj [("jsonrpc", JStr "2.0"); ("id", JNum 9); ("result", JObj [])].
Proof.
  split; [reflexivity|].
  destruct (bearer_of_live_session_is_served knownToken "s-2" 50
              backendAnswers allDown busyGateway
              (JObj (bareRequest (JNum 9) "ping")) (bareRequest (JNum 9) "ping")
              "jwt.s-1" None "s-1"
              (mkSession "s-1" "anonymous" 0 0 Http None)) as [H _].
  - reflexivity.
  - discriminate.
  - reflexivity.
  - reflexivity.
  - change bearerHeaders with (mkHeaders (Some ("Bearer " +:+ "jwt.s-1")) None).
    rewrite H. reflexivity.
Defined.

(** X11. A call without an [Authorization] header takes a session slot
    whenever one is free -- whatever its body, malformed or not, and
    however the routing ends: afterwards a new anonymous HTTP session is
    stored under the generated id and the session count is one higher
    (for an id not in use). *)
Theorem anonymous_call_takes_a_slot
        (validateToken : string -> option string) (uuid : string) (now : Z)
        (proxy : FetchOutcome) (fan : string -> FetchOutcome) (gw : Gateway)
        (requestBody : JsValue) :
  canCreateNewSession (sessionConfig (config gw)) (sessionManager gw) = true ->
  sessionManager gw !! uuid = None ->
  sessionManager
    (gateway (handleHttpRequest validateToken uuid now proxy fan gw
                requestBody (mkHeaders None None)))
  = <[uuid := mkSession uuid "anonymous" now now Http None]>
      (sessionManager gw)
  /\ getActiveSessionCount
       (sessionManager
          (gateway (handleHttpRequest validateToken uuid now proxy fan gw
                      requestBody (mkHeaders None None))))
     = getActiveSessionCount (sessionManager gw) + 1.
Proof.
  intros Hroom Hfresh.
  assert (Hsm : sessionManager
                  (gateway (handleHttpRequest validateToken uuid now proxy fan
                              gw requestBody (mkHeaders None None)))
                = <[uuid := mkSession uuid "anonymous" now now Http None]>
                    (sessionManager gw)).
  { unfold handleHttpRequest, getSessionFromHeaders. simpl. rewrite Hroom.
    simpl. destruct (handleHttpToMCP requestBody); simpl; [reflexivity|].
    rewrite routeAndExecuteRequest_sessions. reflexivity. }
  split; [exact Hsm|]. rewrite Hsm. unfold getActiveSessionCount.
  rewrite map_size_insert_None by exact Hfresh. lia.
Qed.

Lemma anonymous_call_takes_a_slot_witness :
  getActiveSessionCount
    (sessionManager
       (gateway (handleHttpRequest noToken "s-1" 10 backendAnswers allDown
                   exampleGateway malformedBody (mkHeaders None None))))
  = getActiveSessionCount (sessionManager exampleGateway) + 1.
Proof.
  apply (anonymous_call_takes_a_slot noToken "s-1" 10 backendAnswers allDown
           exampleGateway malformedBody); reflexivity.
Defined.

(** X12. A WebSocket connection stores its session bound to the socket,
    with transport [websocket], before anything else.  If the token is
    signed, the welcome frame carries the session id, the token and the
    sorted capabilities, and when the socket closes (or errors) the
    session is removed: the gateway is back where it was before the
    connection.  If signing throws (as [jwt.sign] does under the empty
    secret), the exception leaves the handler: no frame is sent and no
    listener is registered, and the session stays stored until the idle
    sweep removes it, [sessionTimeout] after the connection. *)
Theorem websocket_open_close (generateToken : string -> Thrown + string)
        (uuid : string) (now : Z) (ws : IWebSocket) (gw : Gateway) :
  sessionManager gw !! uuid = None ->
  let opened := handleWebSocketConnection generateToken uuid now ws gw in
  sessionManager opened.1.1 !! uuid
  = Some (mkSession uuid "websocket-user" now now Websocket (Some ws))
  /\ session_id opened.1.2 = uuid
  /\ (forall token,
         generateToken uuid = inr token ->
         opened.2
         = inr [JObj [("type", JStr "connection");
                      ("sessionId", JStr uuid);
                      ("sessionToken", JStr token);
                      ("capabilities",
                       JArr (JStr <$> getAvailableCapabilities gw))]]
         /\ onWebSocketClosed opened.1.1 opened.1.2 = gw)
  /\ (forall e,
         generateToken uuid = inl e ->
         opened.2 = inl e
         /\ getActiveSessionCount (sessionManager opened.1.1)
            = getActiveSessionCount (sessionManager gw) + 1
         /\ forall tick,
             cleanupExpiredSessions (sessionConfig (config gw)) tick
               (sessionManager opened.1.1) !! uuid
             = if sessionTimeout (sessionConfig (config gw)) <? tick - now
               then None
               else Some (mkSession uuid "websocket-user" now now Websocket
                            (Some ws))).
Proof.
  intros Hfresh opened. unfold opened, handleWebSocketConnection,
    onWebSocketClosed. simpl.
  unfold attachWebSocket. rewrite lookup_insert_eq. simpl.
  rewrite insert_insert_eq.
  split; [apply lookup_insert_eq|]. split; [reflexivity|]. split.
  - intros token ->. split; [reflexivity|].
    unfold removeSession. rewrite lookup_insert_eq.
    rewrite delete_insert_eq, delete_id by exact Hfresh.
    destruct gw. reflexivity.
  - intros e ->. split; [reflexivity|]. split.
    + unfold getActiveSessionCount.
      rewrite map_size_insert_None by exact Hfresh. lia.
    + intros tick. rewrite cleanupExpiredSessions_lookup, lookup_insert_eq.
      reflexivity.
Qed.

Lemma websocket_open_close_witness :
  onWebSocketClosed
    (handleWebSocketConnection exampleToken "ws-1" 10 1 tinyGateway).1.1
    (handleWebSocketConnection exampleToken "ws-1" 10 1 tinyGateway).1.2
  = tinyGateway
  /\ (handleWebSocketConnection noSecret "ws-1" 10 1 tinyGateway).2
     = inl (ThrownError "secretOrPrivateKey must have a value")
  /\ getActiveSessionCount
       (sessionManager
          (handleWebSocketConnection noSecret "ws-1" 10 1 tinyGateway).1.1)
     = 1.
Proof.
  destruct (websocket_open_close exampleToken "ws-1" 10 1 tinyGateway)
    as (_ & _ & Hsigned & _); [reflexivity|].
  destruct (websocket_open_close noSecret "ws-1" 10 1 tinyGateway)
    as (_ & _ & _ & Hthrows); [reflexivity|].
  split; [|split].
  - destruct (Hsigned "jwt.ws-1" eq_refl) as [_ H]. exact H.
  - destruct (Hthrows (ThrownError "secretOrPrivateKey must have a value")
                eq_refl) as (H & _). exact H.
  - destruct (Hthrows (ThrownError "secretOrPrivateKey must have a value")
                eq_refl) as (_ & H & _). rewrite H. reflexivity.
Defined.

End SessionLifecycle.

Section Envelopes.

Lemma handleHttpToMCP_accepts (requestBody : JsValue) (o : JsObject) :
  handleHttpToMCP requestBody = inr o <->
  requestBody = JObj o
  /\ field "jsonrpc" o = JStr "2.0"
  /\ truthy (field "method" o) = true.
Proof.
  unfold handleHttpToMCP. split.
  - destruct requestBody; simpl; try discriminate;
      try (destruct (_ || _); discriminate).
    destruct (is_string "2.0" (field "jsonrpc" fields)) eqn:Hj; simpl;
      [|discriminate].
    destruct (truthy (field "method" fields)) eqn:Hm; simpl; [|discriminate].
    intros [= ->]. apply is_string_true in Hj. auto.
  - intros (-> & Hj & Hm). simpl. rewrite Hj, Hm. reflexivity.
Qed.

(** X13. Both transports accept the same envelopes.  [handleHttpToMCP]
    returns a request exactly for an object whose [jsonrpc] is the string
    "2.0" and whose [method] is truthy, and returns that object itself;
    for anything else it throws "Invalid JSON-RPC request".  A WebSocket
    frame is accepted exactly when it parses to a value
    [handleHttpToMCP] accepts; otherwise one -32700 frame is sent. *)
Theorem transports_accept_the_same (JSON_parse : string -> option JsValue)
        (requestBody : JsValue) (message : string) :
  (forall o, handleHttpToMCP requestBody = inr o <->
             requestBody = JObj o
             /\ field "jsonrpc" o = JStr "2.0"
             /\ truthy (field "method" o) = true)
  /\ (forall e, handleHttpToMCP requestBody = inl e ->
                e = ThrownError "Invalid JSON-RPC request")
  /\ handleWebSocketMessage JSON_parse message
     = match JSON_parse message with
       | Some parsed =>
           match handleHttpToMCP parsed with
           | inr o => (Some o, [])
           | inl _ =>
               (None,
                [JObj [("jsonrpc", JStr "2.0");
                       ("error", JObj [("code", JNum (-32700));
                                       ("message", JStr "Parse error")])]])
           end
       | None =>
           (None,
            [JObj [("jsonrpc", JStr "2.0");
                   ("error", JObj [("code", JNum (-32700));
                                   ("message", JStr "Parse error")])]])
       end.
Proof.
  split; [intros o; apply handleHttpToMCP_accepts|]. split.
  - unfold handleHttpToMCP. intros e.
    destruct (_ || _); [congruence|].
    destruct requestBody; congruence.
  - unfold handleWebSocketMessage, handleHttpToMCP.
    destruct (JSON_parse message) as [parsed|]; [|reflexivity].
    destruct (_ || _); [reflexivity|].
    destruct parsed; reflexivity.
Qed.

Lemma transports_accept_the_same_witness :
  handleHttpToMCP (JObj (bareRequest (JNum 5) "ping"))
  = inr (bareRequest (JNum 5) "ping")
  /\ handleWebSocketMessage parsePing "{ping}"
     = (Some (bareRequest (JNum 5) "ping"), []).
Proof.
  destruct (transports_accept_the_same parsePing
              (JObj (bareRequest (JNum 5) "ping")) "{ping}") as (Hacc & _ & Hws).
  split.
  - apply Hacc. repeat split; reflexivity.
  - rewrite Hws. reflexivity.
Defined.

Lemma typeof_string (v : JsValue) :
  String.eqb (js_typeof v) "string" = true -> exists s, v = JStr s.
Proof. destruct v; simpl; try discriminate. eauto. Qed.

(** X14. What the validation hook of [POST /mcp] lets through, the
    gateway handles without a transport error and routes as the table
    says: a body that [validateMCPRequest] finds valid is an object that
    [handleHttpToMCP] accepts, its [method] is a non-empty string, its
    [id] is absent, a string or a number, and if the method is
    [tools/call] then [params.name] is a non-empty string and is the
    routing key. *)
Theorem validated_requests_route_by_name (body : JsValue)
        (errors : list string) :
  validateMCPRequest body = (true, errors) ->
  exists o,
    body = JObj o
    /\ handleHttpToMCP body = inr o
    /\ (exists m, field "method" o = JStr m /\ m <> "")
    /\ (field "id" o = JUndefined
        \/ (exists s, field "id" o = JStr s)
        \/ (exists n, field "id" o = JNum n))
    /\ (field "method" o = JStr "tools/call" ->
        exists name,
          member "name" (field "params" o) = JStr name
          /\ name <> ""
          /\ getCapabilityToResolve o = JStr name
          /\ carriesRoutingParameter o = true).
Proof.
  unfold validateMCPRequest.
  destruct body as [| |b|n|s|items|o]; simpl; try discriminate;
    try (destruct b; discriminate); try (destruct (Z.eqb n 0); discriminate);
    try (destruct (String.eqb s ""); discriminate).
  destruct (is_string "2.0" (field "jsonrpc" o)) eqn:Hj; simpl.
  2:{ repeat match goal with
             | |- context [if ?b then _ else _] => destruct b
             end; simpl; discriminate. }
  destruct (truthy (field "method" o)) eqn:Hm; simpl.
  2:{ repeat match goal with
             | |- context [if ?b then _ else _] => destruct b
             end; simpl; discriminate. }
  destruct (String.eqb (js_typeof (field "method" o)) "string") eqn:Hmt; simpl.
  2:{ repeat match goal with
             | |- context [if ?b then _ else _] => destruct b
             end; simpl; discriminate. }
  destruct (typeof_string _ Hmt) as [m Hmeq].
  assert (Hid : negb (is_undefined (field "id" o))
                && negb (String.eqb (js_typeof (field "id" o)) "string")
                && negb (String.eqb (js_typeof (field "id" o)) "number")
                = false ->
                field "id" o = JUndefined
                \/ (exists s, field "id" o = JStr s)
                \/ (exists n, field "id" o = JNum n)).
  { destruct (field "id" o); simpl; try discriminate; eauto. }
  destruct (negb (is_undefined (field "id" o)) && _ && _) eqn:Hidb; simpl.
  { repeat match goal with
           | |- context [if ?b then _ else _] => destruct b
           end; simpl; discriminate. }
  intros Hvalid. exists o. split; [reflexivity|].
  split; [apply handleHttpToMCP_accepts; apply is_string_true in Hj; auto|].
  split.
  { exists m. split; [exact Hmeq|]. intros ->. rewrite Hmeq in Hm.
    discriminate. }
  split; [apply Hid; reflexivity|].
  intros Htc. rewrite Htc in Hvalid. simpl in Hvalid.
  destruct (truthy (field "params" o)) eqn:Hp; simpl in Hvalid;
    [|discriminate].
  destruct (String.eqb (js_typeof (field "params" o)) "object");
    simpl in Hvalid; [|discriminate].
  destruct (truthy (member "name" (field "params" o))) eqn:Hn;
    simpl in Hvalid.
  2:{ destruct (_ && _) in Hvalid; discriminate. }
  destruct (String.eqb (js_typeof (member "name" (field "params" o)))
              "string") eqn:Hnt; simpl in Hvalid.
  2:{ destruct (_ && _) in Hvalid; discriminate. }
  destruct (typeof_string _ Hnt) as [name Hname].
  exists name. split; [exact Hname|]. split.
  { intros ->. rewrite Hname in Hn. discriminate. }
  unfold getCapabilityToResolve, carriesRoutingParameter, routingParameter,
    opt_member.
  rewrite Htc. simpl. rewrite Hn. auto.
Qed.

Lemma validated_requests_route_by_name_witness :
  exists o,
    JObj (toolsCall (JNum 1) "linear_get_teams") = JObj o
    /\ handleHttpToMCP (JObj (toolsCall (JNum 1) "linear_get_teams")) = inr o.
Proof.
  destruct (validated_requests_route_by_name
              (JObj (toolsCall (JNum 1) "linear_get_teams")) [])
    as (o & Ho & Hacc & _).
  - reflexivity.
  - exists o. split; assumption.
Defined.

End Envelopes.

Section ApiKeys.

Lemma charCode_inj (a b : ascii) : charCode a = charCode b -> a = b.
Proof.
  unfold charCode. intros H. apply N2Z.inj in H.
  rewrite <- (ascii_N_embedding a), <- (ascii_N_embedding b), H. reflexivity.
Qed.

Lemma accumulateDifferences_zero (providedKey : string) :
  forall (configuredKey : string) (result : Z),
    String.length providedKey = String.length configuredKey ->
    (accumulateDifferences result providedKey configuredKey = 0 <->
     result = 0 /\ providedKey = configuredKey).
Proof.
  induction providedKey as [|a p IH]; intros [|b c] result Hlen;
    simpl in *; try discriminate.
  - split; [auto | tauto].
  - injection Hlen as Hlen. rewrite (IH c _ Hlen), Z.lor_eq_0_iff,
      Z.lxor_eq_0_iff.
    split.
    + intros [[Hr Hab] ->]. apply charCode_inj in Hab. subst. auto.
    + intros [Hr [= -> ->]]. auto.
Qed.

(** X15. [isValidApiKey] accepts a key exactly when it equals the
    configured one: keys of different lengths are refused, and for keys
    of one length the differences of all positions are or-ed together, so
    a single differing character refuses the key. *)
Theorem isValidApiKey_iff_equal (providedKey configuredKey : string) :
  isValidApiKey providedKey configuredKey = true <->
  providedKey = configuredKey.
Proof.
  unfold isValidApiKey.
  destruct (Nat.eqb_spec (String.length providedKey)
              (String.length configuredKey)) as [Hlen|Hlen]; simpl.
  - rewrite Z.eqb_eq, (accumulateDifferences_zero _ _ _ Hlen). tauto.
  - split; [discriminate | intros ->; contradiction].
Qed.

Lemma length_stars (n : nat) : String.length (stars n) = n.
Proof. induction n as [|n IH]; simpl; [reflexivity | rewrite IH; reflexivity]. Qed.

Lemma get_stars (n i : nat) :
  (i < n)%nat -> String.get i (stars n) = Some "*"%char.
Proof.
  revert i. induction n as [|n IH]; intros i Hi; [lia|].
  destruct i as [|i]; simpl; [reflexivity | apply IH; lia].
Qed.

(** The first [n] characters kept, the others starred. *)
Lemma keep_then_stars (n : nat) :
  forall s : string,
    (n <= String.length s)%nat ->
    String.length (String.substring 0 n s +:+ stars (String.length s - n))
    = String.length s
    /\ (forall i, (i < n)%nat ->
                  String.get i (String.substring 0 n s
                                +:+ stars (String.length s - n))
                  = String.get i s)
    /\ (forall i, (n <= i < String.length s)%nat ->
                  String.get i (String.substring 0 n s
                                +:+ stars (String.length s - n))
                  = Some "*"%char).
Proof.
  induction n as [|n IH]; intros s Hn.
  - assert (H0 : String.substring 0 0 s = "") by (destruct s; reflexivity).
    rewrite H0, Nat.sub_0_r. simpl. split; [apply length_stars|].
    split; [intros i Hi; lia|]. intros i Hi. apply get_stars. lia.
  - destruct s as [|a s]; simpl in Hn; [lia|].
    destruct (IH s) as (Hlen & Hkeep & Hstar); [lia|].
    simpl. rewrite Hlen. split; [reflexivity|]. split.
    + intros [|i] Hi; [reflexivity | apply Hkeep; lia].
    + intros [|i] Hi; [lia | apply Hstar; lia].
Qed.

(** X16. [maskApiKey] never logs more than the first eight characters of
    a key: the mask has the length of the key, every character from the
    ninth on is a star, the first eight are kept only when the key is
    longer than eight characters, and a key of at most eight characters
    is starred entirely. *)
Theorem maskApiKey_hides (apiKey : string) :
  String.length (maskApiKey apiKey) = String.length apiKey
  /\ (forall i, (8 <= i < String.length apiKey)%nat ->
                String.get i (maskApiKey apiKey) = Some "*"%char)
  /\ ((String.length apiKey <= 8)%nat ->
      maskApiKey apiKey = stars (String.length apiKey))
  /\ ((8 < String.length apiKey)%nat ->
      forall i, (i < 8)%nat ->
                String.get i (maskApiKey apiKey) = String.get i apiKey).
Proof.
  unfold maskApiKey.
  destruct (Nat.leb_spec (String.length apiKey) 8) as [Hshort|Hlong].
  - split; [apply length_stars|]. split; [intros i Hi; lia|].
    split; [reflexivity | lia].
  - destruct (keep_then_stars 8 apiKey) as (Hlen & Hkeep & Hstar); [lia|].
    split; [exact Hlen|]. split; [exact Hstar|].
    split; [lia | intros _; exact Hkeep].
Qed.

Lemma maskApiKey_hides_witness :
  maskApiKey "mcp_0123456789abcdef" = "mcp_0123************"
  /\ maskApiKey "short" = stars 5.
Proof.
  split; [reflexivity|].
  destruct (maskApiKey_hides "short") as (_ & _ & Hshort & _).
  apply Hshort. simpl. lia.
Defined.

End ApiKeys.

Section ServerManagerLifecycle.

Lemma performHealthCheck_lookup (sid : string) (probe : ProbeOutcome)
      (now : Z) (servers : Servers) (B : string) :
  performHealthCheck sid probe now servers !! B
  = if decide (sid = B) then checked probe now <$> servers !! B
    else servers !! B.
Proof.
  unfold performHealthCheck, checked.
  destruct (decide (sid = B)) as [->|Hne].
  - destruct (servers !! B) as [s|] eqn:Hs; [|rewrite Hs; reflexivity].
    simpl. destruct (String.eqb (url s) ""); [exact Hs|].
    apply lookup_insert_eq.
  - destruct (servers !! sid) as [s|]; [|reflexivity].
    destruct (String.eqb (url s) ""); [reflexivity|].
    apply lookup_insert_ne. exact Hne.
Qed.

(** X17. The health report agrees with the gate: it has one entry per
    backend of the manager, always with [instances = 1], and an entry
    says [healthy = 1] exactly when [getServerInstance] would hand the
    backend out, [healthy = 0] otherwise; it lists the backend's
    capabilities and the time of its last check. *)
Theorem health_report_agrees (toISOString : Z -> string) (servers : Servers)
        (B : string) :
  (getHealthStatus toISOString servers !! B = None <-> servers !! B = None)
  /\ (forall entry,
         getHealthStatus toISOString servers !! B = Some entry ->
         instances entry = 1
         /\ (healthy entry = 1 <-> (getServerInstance B servers).1 = Some B)
         /\ (healthy entry = 0 <-> (getServerInstance B servers).1 = None)
         /\ exists s,
             servers !! B = Some s
             /\ reported_capabilities entry = capabilities s
             /\ lastCheck entry = toISOString (lastHealthCheck s)).
Proof.
  unfold getHealthStatus. rewrite lookup_fmap. split.
  - destruct (servers !! B); simpl; split; congruence.
  - intros entry. unfold getServerInstance.
    destruct (servers !! B) as [s|]; simpl; [|discriminate].
    intros [= <-]. simpl. split; [reflexivity|].
    destruct (isHealthy s); simpl; repeat split; try discriminate; eauto.
Qed.

Lemma health_report_agrees_witness :
  (healthy <$> getHealthStatus exampleISO
                 (server_run (newServerManager exampleServers 0) linearUp)
               !! "linear") = Some 1
  /\ (getServerInstance "linear"
        (server_run (newServerManager exampleServers 0) linearUp)).1
     = Some "linear".
Proof.
  assert (H : (healthy <$> getHealthStatus exampleISO
                 (server_run (newServerManager exampleServers 0) linearUp)
               !! "linear") = Some 1) by reflexivity.
  split; [exact H|].
  destruct (getHealthStatus exampleISO
              (server_run (newServerManager exampleServers 0) linearUp)
            !! "linear") as [entry|] eqn:He; [|discriminate].
  destruct (health_report_agrees exampleISO
              (server_run (newServerManager exampleServers 0) linearUp)
              "linear") as [_ Hentry].
  destruct (Hentry entry He) as (_ & Hone & _).
  apply Hone. simpl in H. congruence.
Defined.

Lemma newServerManager_dom (serverConfigs : ServerConfigs) (now : Z)
      (k : string) :
  is_Some (newServerManager serverConfigs now !! k) <->
  k ∈ (filter (fun entry => negb (String.eqb (cfg_url entry.2) ""))
         serverConfigs).*1.
Proof.
  unfold newServerManager.
  assert (Hgen : forall (l : ServerConfigs) (acc : Servers),
             is_Some (foldl (fun servers '(sid, config) =>
                        if negb (String.eqb (cfg_url config) "")
                        then <[sid := {| id := sid; serverId := sid;
                                         url := cfg_url config;
                                         isHealthy := false;
                                         lastHealthCheck := now;
                                         activeConnections := 0;
                                         capabilities := cfg_capabilities config |}]>
                               servers
                        else servers) acc l !! k) <->
             is_Some (acc !! k)
             \/ k ∈ (filter (fun entry : string * ServerConfig =>
                               negb (String.eqb (cfg_url entry.2) "")) l).*1).
  { induction l as [|[sid c] l IH]; intros acc; cbn [foldl].
    - rewrite filter_nil. simpl. rewrite elem_of_nil. tauto.
    - rewrite IH, filter_cons.
      destruct (decide _) as [Hurl|Hurl]; cbn [snd] in Hurl;
        destruct (negb (String.eqb (cfg_url c) "")); try contradiction;
        try (exfalso; apply Hurl; exact I).
      + rewrite fmap_cons, elem_of_cons, lookup_insert. cbn [fst].
        case_decide.
        * subst. split; [auto | intros _; left; eauto].
        * split; [intros [?|?]; auto | intros [?|[?|?]]; auto; congruence].
      + tauto. }
  rewrite Hgen, lookup_empty. split; [intros [[? [=]]|?]; assumption | auto].
Qed.

Lemma serverKeys_spec (serverConfigs : ServerConfigs) (now : Z) :
  NoDup (serverKeys serverConfigs)
  /\ (forall k, k ∈ serverKeys serverConfigs <->
                is_Some (newServerManager serverConfigs now !! k)).
Proof.
  unfold serverKeys.
  destruct (dedupe_spec (filter (fun entry : string * ServerConfig =>
                                   negb (String.eqb (cfg_url entry.2) ""))
                           serverConfigs).*1 []) as [Hnd Hiff].
  split; [exact Hnd|]. intros k.
  rewrite Hiff, newServerManager_dom, elem_of_nil. tauto.
Qed.


Lemma timerTicks_frame (l : list (string * ProbeOutcome * Z)) :
  forall m : ServerManager,
    mgr_serverConfigs (foldl timerTick m l) = mgr_serverConfigs m
    /\ healthCheckIntervals (foldl timerTick m l) = healthCheckIntervals m
    /\ (forall B, is_Some (mgr_servers (foldl timerTick m l) !! B)
                  <-> is_Some (mgr_servers m !! B))
    /\ (forall B, Forall (fun t => t.1.1 <> B) l ->
                  mgr_servers (foldl timerTick m l) !! B = mgr_servers m !! B).
Proof.
  induction l as [|t l IH]; intros m; cbn [foldl].
  - repeat split; auto.
  - destruct (IH (timerTick m t)) as (Hc & Hi & Hd & Hs).
    assert (Ht : mgr_serverConfigs (timerTick m t) = mgr_serverConfigs m
                 /\ healthCheckIntervals (timerTick m t)
                    = healthCheckIntervals m
                 /\ forall B,
                     mgr_servers (timerTick m t) !! B
                     = mgr_servers m !! B
                     \/ (t.1.1 = B
                         /\ mgr_servers (timerTick m t) !! B
                            = checked t.1.2 t.2 <$> mgr_servers m !! B)).
    { unfold timerTick. destruct (healthCheckIntervals m !! t.1.1);
        [|auto]. simpl. split; [reflexivity|]. split; [reflexivity|].
      intros B. rewrite performHealthCheck_lookup.
      destruct (decide (t.1.1 = B)); auto. }
    destruct Ht as (Hc1 & Hi1 & Hs1).
    split; [congruence|]. split; [congruence|]. split.
    + intros B. rewrite Hd. destruct (Hs1 B) as [->|[_ ->]]; [reflexivity|].
      rewrite fmap_is_Some. reflexivity.
    + intros B HB. apply Forall_cons in HB. destruct HB as [Hne HB].
      rewrite (Hs B HB). destruct (Hs1 B) as [->|[Heq _]];
        [reflexivity | contradiction].
Qed.

Lemma initialize_fold (probe : string -> ProbeOutcome) (now : string -> Z)
      (ticks : string -> list (string * ProbeOutcome * Z))
      (keys : list string) :
  NoDup keys ->
  forall m : ServerManager,
    let m' := foldl (firstCheck probe now ticks) m keys in
    mgr_serverConfigs m' = mgr_serverConfigs m
    /\ (forall B, is_Some (mgr_servers m' !! B)
                  <-> is_Some (mgr_servers m !! B))
    /\ (forall B,
           healthCheckIntervals m' !! B
           = if decide (B ∈ keys /\ is_Some (mgr_servers m !! B))
             then Some (period B (mgr_serverConfigs m))
             else healthCheckIntervals m !! B)
    /\ (forall B,
           (forall k, k ∈ keys -> Forall (fun t => t.1.1 <> B) (ticks k)) ->
           mgr_servers m' !! B
           = if decide (B ∈ keys)
             then checked (probe B) (now B) <$> mgr_servers m !! B
             else mgr_servers m !! B).
Proof.
  induction keys as [|k keys IH]; intros Hnd m; cbn [foldl]; cbv zeta.
  - split; [reflexivity|]. split; [reflexivity|]. split; intros B.
    + rewrite decide_False; [reflexivity|]. intros [H _].
      apply elem_of_nil in H. exact H.
    + intros _. rewrite decide_False by apply not_elem_of_nil. reflexivity.
  - apply NoDup_cons in Hnd. destruct Hnd as [Hnin Hnd].
    destruct (timerTicks_frame (ticks k) m) as (Hc0 & Hi0 & Hd0 & Hs0).
    set (m0 := foldl timerTick m (ticks k)) in *.
    set (m1 := firstCheck probe now ticks m k).
    assert (Hc1 : mgr_serverConfigs m1 = mgr_serverConfigs m).
    { unfold m1, firstCheck, startHealthChecks. fold m0. simpl.
      destruct (performHealthCheck _ _ _ _ !! k); simpl; exact Hc0. }
    assert (Hs1 : mgr_servers m1
                  = performHealthCheck k (probe k) (now k) (mgr_servers m0)).
    { unfold m1, firstCheck, startHealthChecks. fold m0. simpl.
      destruct (performHealthCheck _ _ _ _ !! k); reflexivity. }
    assert (Hd1 : forall B, is_Some (mgr_servers m1 !! B)
                            <-> is_Some (mgr_servers m !! B)).
    { intros B. rewrite Hs1, performHealthCheck_lookup, <- Hd0.
      destruct (decide (k = B)); [rewrite fmap_is_Some|]; reflexivity. }
    assert (Ht1 : forall B,
               healthCheckIntervals m1 !! B
               = if decide (k = B /\ is_Some (mgr_servers m !! B))
                 then Some (period B (mgr_serverConfigs m))
                 else healthCheckIntervals m !! B).
    { intros B. unfold m1, firstCheck, startHealthChecks. fold m0. simpl.
      rewrite performHealthCheck_lookup, decide_True by reflexivity.
      destruct (mgr_servers m0 !! k) as [s0|] eqn:Hk; simpl.
      - assert (Hsome : is_Some (mgr_servers m !! k)) by (apply Hd0; eauto).
        destruct (decide (k = B)) as [<-|Hne].
        + rewrite lookup_insert_eq, decide_True by auto.
          unfold period. rewrite Hc0. reflexivity.
        + rewrite lookup_insert_ne by exact Hne.
          rewrite decide_False by tauto. rewrite Hi0. reflexivity.
      - assert (Hnone : ~ is_Some (mgr_servers m !! k)).
        { rewrite <- Hd0, Hk. intros [? [=]]. }
        rewrite Hi0. rewrite decide_False; [reflexivity|].
        intros [<- ?]. contradiction. }
    destruct (IH Hnd m1) as (Hc & Hd & Ht & Hs).
    split; [rewrite Hc; exact Hc1|]. split; [|split]; intros B.
    + rewrite Hd. apply Hd1.
    + rewrite Ht, Hc1, Ht1.
      destruct (decide (B ∈ keys /\ is_Some (mgr_servers m1 !! B)))
        as [[Hin Hsome]|Hno].
      * rewrite (decide_True (P := B ∈ k :: keys /\ _)); [reflexivity|].
        split; [apply elem_of_cons; auto | apply Hd1; exact Hsome].
      * destruct (decide (k = B /\ is_Some (mgr_servers m !! B)))
          as [[<- Hsome]|Hno'].
        -- rewrite (decide_True (P := k ∈ k :: keys /\ _)); [reflexivity|].
           split; [apply elem_of_cons; auto | exact Hsome].
        -- rewrite (decide_False (P := B ∈ k :: keys /\ _)); [reflexivity|].
           intros [Hin Hsome]. apply elem_of_cons in Hin.
           destruct Hin as [->|Hin]; [apply Hno'; auto|].
           apply Hno. split; [exact Hin | apply Hd1; exact Hsome].
    + intros Hquiet.
      rewrite Hs by (intros k' Hk'; apply Hquiet, elem_of_cons; auto).
      rewrite Hs1, performHealthCheck_lookup.
      rewrite (Hs0 B) by (apply Hquiet, elem_of_cons; auto).
      destruct (decide (k = B)) as [<-|Hne].
      * rewrite (decide_False (P := k ∈ keys)) by exact Hnin.
        rewrite (decide_True (P := k ∈ k :: keys)) by (apply elem_of_cons; auto).
        reflexivity.
      * destruct (decide (B ∈ keys)) as [Hin|Hnin'].
        -- rewrite (decide_True (P := B ∈ k :: keys))
             by (apply elem_of_cons; auto).
           reflexivity.
        -- rewrite (decide_False (P := B ∈ k :: keys)); [reflexivity|].
           intros Hin. apply elem_of_cons in Hin. destruct Hin; congruence.
Qed.


(** X18. Start-up probes every backend and gives each a timer.  After
    [initialize] the manager has the backends the constructor made, and
    every backend -- and nothing else -- has a timer, whose period is
    its [healthCheckInterval], or 30000 ms where that is 0, or 1 ms where
    it is below 1 or above 2^31 - 1 (what [setInterval] makes of such a
    delay).  Timers started for earlier backends may tick while later
    first checks are awaited; a backend none of whose timer's checks
    completed during start-up is handed out exactly when its own first
    check saw a 2xx response, and carries the time of that check.
    [shutdown] clears all timers and leaves the health state as it is. *)
Theorem initialize_probes_every_backend (serverConfigs : ServerConfigs)
        (t0 : Z) (probe : string -> ProbeOutcome) (now : string -> Z)
        (ticks : string -> list (string * ProbeOutcome * Z)) (B : string) :
  let started := initialize probe now ticks (newManager serverConfigs t0) in
  (is_Some (mgr_servers started !! B)
   <-> is_Some (newServerManager serverConfigs t0 !! B))
  /\ (is_Some (newServerManager serverConfigs t0 !! B) ->
      healthCheckIntervals started !! B
      = Some match getServerConfig B serverConfigs with
             | Some c =>
                 if cfg_healthCheckInterval c =? 0 then 30000
                 else if (1 <=? cfg_healthCheckInterval c)
                         && (cfg_healthCheckInterval c <=? 2147483647)
                      then cfg_healthCheckInterval c
                      else 1
             | None => 30000
             end)
  /\ (newServerManager serverConfigs t0 !! B = None ->
      healthCheckIntervals started !! B = None)
  /\ ((forall k, Forall (fun t => t.1.1 <> B) (ticks k)) ->
      ((getServerInstance B (mgr_servers started)).1 <> None <->
       is_Some (newServerManager serverConfigs t0 !! B)
       /\ observed_2xx (Some (probe B)) = true)
      /\ (forall s, mgr_servers started !! B = Some s ->
                    lastHealthCheck s = now B))
  /\ healthCheckIntervals (shutdownServerManager started) = ∅
  /\ mgr_servers (shutdownServerManager started) = mgr_servers started.
Proof.
  intros started. unfold started, initialize.
  destruct (serverKeys_spec serverConfigs t0) as [Hnd Hkeys].
  destruct (initialize_fold probe now ticks (serverKeys serverConfigs) Hnd
              (newManager serverConfigs t0)) as (_ & Hd & Ht & Hs).
  simpl in Hd, Ht, Hs. simpl.
  split; [apply Hd|]. split; [|split; [|split; [|split]]].
  - intros Hsome. rewrite Ht. rewrite decide_True; [|split; [apply Hkeys|];
                                                      exact Hsome].
    f_equal. unfold period, setInterval.
    destruct (getServerConfig B serverConfigs) as [c|]; [|reflexivity].
    destruct (cfg_healthCheckInterval c =? 0); reflexivity.
  - intros Hnone. rewrite Ht. rewrite decide_False; [apply lookup_empty|].
    intros [_ [? ?]]. congruence.
  - intros Hquiet.
    assert (Hlook : mgr_servers
                      (foldl (firstCheck probe now ticks)
                         (newManager serverConfigs t0)
                         (serverKeys serverConfigs)) !! B
                    = checked (probe B) (now B)
                        <$> newServerManager serverConfigs t0 !! B).
    { rewrite Hs by (intros k _; apply Hquiet).
      destruct (decide _) as [_|Hnin]; [reflexivity|].
      rewrite Hkeys in Hnin.
      destruct (newServerManager serverConfigs t0 !! B); [|reflexivity].
      exfalso. apply Hnin. eauto. }
    split.
    + rewrite getServerInstance_result, Hlook. split.
      * intros (s & Hsome & Hh).
        destruct (newServerManager serverConfigs t0 !! B) as [s0|] eqn:H0;
          [|discriminate].
        split; [eauto|]. simpl in Hsome. injection Hsome as <-.
        destruct (newServerManager_fresh serverConfigs t0 B s0 H0)
          as (Hurl & _).
        unfold checked in Hh. apply String.eqb_neq in Hurl.
        rewrite Hurl in Hh. simpl in Hh.
        destruct (probe B); [exact Hh | discriminate].
      * intros [[s0 H0] Hobs]. rewrite H0. simpl.
        eexists. split; [reflexivity|].
        destruct (newServerManager_fresh serverConfigs t0 B s0 H0)
          as (Hurl & _).
        unfold checked. apply String.eqb_neq in Hurl. rewrite Hurl. simpl.
        destruct (probe B); [exact Hobs | discriminate].
    + intros s. rewrite Hlook.
      destruct (newServerManager serverConfigs t0 !! B) as [s0|] eqn:H0;
        [|discriminate].
      simpl. intros [= <-].
      destruct (newServerManager_fresh serverConfigs t0 B s0 H0) as (Hurl & _).
      unfold checked. apply String.eqb_neq in Hurl. rewrite Hurl. reflexivity.
  - reflexivity.
  - reflexivity.
Qed.

Lemma initialize_probes_every_backend_witness :
  (getServerInstance "perplexity"
     (mgr_servers (initialize startupProbe startupClock linearTicks
                     (newManager exampleServers 0)))).1 = None
  /\ healthCheckIntervals
       (initialize startupProbe startupClock linearTicks
          (newManager exampleServers 0))
     !! "perplexity" = Some 15000.
Proof.
  destruct (initialize_probes_every_backend exampleServers 0 startupProbe
              startupClock linearTicks "perplexity")
    as (_ & Htimer & _ & Hown & _).
  split.
  - destruct Hown as [Hgate _].
    + intros k. unfold linearTicks.
      destruct (String.eqb k "perplexity"); repeat constructor.
      simpl. discriminate.
    + destruct (getServerInstance "perplexity" _).1 eqn:Hget; [|reflexivity].
      assert (Hne : Some s <> None) by discriminate.
      apply Hgate in Hne. destruct Hne as [_ Hobs]. discriminate.
  - rewrite Htimer; [reflexivity | vm_compute; eauto].
Defined.

End ServerManagerLifecycle.

Section BackendIdentity.

Lemma newServerManager_configured (serverConfigs : ServerConfigs) (now : Z)
      (B : string) (s : ServerInstance) :
  newServerManager serverConfigs now !! B = Some s ->
  id s = B /\ serverId s = B
  /\ exists c, (B, c) ∈ serverConfigs
               /\ url s = cfg_url c /\ capabilities s = cfg_capabilities c.
Proof.
  unfold newServerManager.
  assert (Hgen : forall (l : ServerConfigs) (acc : Servers),
             (forall s', acc !! B = Some s' ->
                         id s' = B /\ serverId s' = B
                         /\ exists c, (B, c) ∈ serverConfigs
                                      /\ url s' = cfg_url c
                                      /\ capabilities s' = cfg_capabilities c) ->
             (forall e, e ∈ l -> e ∈ serverConfigs) ->
             forall s',
               foldl (fun servers '(sid, config) =>
                        if negb (String.eqb (cfg_url config) "")
                        then <[sid := {| id := sid; serverId := sid;
                                         url := cfg_url config;
                                         isHealthy := false;
                                         lastHealthCheck := now;
                                         activeConnections := 0;
                                         capabilities := cfg_capabilities config |}]>
                               servers
                        else servers) acc l !! B = Some s' ->
               id s' = B /\ serverId s' = B
               /\ exists c, (B, c) ∈ serverConfigs
                            /\ url s' = cfg_url c
                            /\ capabilities s' = cfg_capabilities c).
  { induction l as [|[sid c] l IH]; intros acc Hacc Hsub; simpl; [exact Hacc|].
    apply IH; [|intros e He; apply Hsub, elem_of_cons; auto].
    destruct (negb (String.eqb (cfg_url c) "")); [|exact Hacc].
    intros s'. rewrite lookup_insert. case_decide; [|apply Hacc].
    subst. intros [= <-]. simpl. split; [reflexivity|]. split; [reflexivity|].
    exists c. split; [apply Hsub, elem_of_cons; auto | auto]. }
  apply Hgen; [|auto].
  intros s'. rewrite lookup_empty. discriminate.
Qed.

Lemma server_step_same_backend (servers : Servers) (e : ServerEvent)
      (B : string) (s : ServerInstance) :
  server_step servers e !! B = Some s ->
  exists s0, servers !! B = Some s0 /\ same_backend s s0.
Proof.
  assert (Hrefl : forall s0, same_backend s0 s0) by (repeat split).
  destruct e as [sid probe now|sid|sid]; simpl.
  - rewrite performHealthCheck_lookup. case_decide; [|eauto].
    destruct (servers !! B) as [s0|]; simpl; [|discriminate].
    intros [= <-]. exists s0. split; [reflexivity|]. unfold checked.
    destruct (String.eqb (url s0) ""); [apply Hrefl | repeat split].
  - unfold getServerInstance. destruct (servers !! sid) as [s0|] eqn:Hs0;
      simpl; [|eauto].
    destruct (isHealthy s0); simpl; [|eauto].
    rewrite lookup_insert. case_decide; [|eauto].
    subst. intros [= <-]. exists s0. split; [exact Hs0 | repeat split].
  - unfold releaseServerInstance. destruct (servers !! sid) as [s0|] eqn:Hs0;
      [|eauto].
    destruct (0 <? activeConnections s0); [|eauto].
    rewrite lookup_insert. case_decide; [|eauto].
    subst. intros [= <-]. exists s0. split; [exact Hs0 | repeat split].
Qed.

(** X19. Health checks, checkouts and releases never rewrite what a
    backend is: along every run of the server manager each instance keeps
    the id it is stored under, and the URL and capability list of an
    entry of the configuration with that id and a non-empty URL. *)
Theorem backends_keep_their_identity (serverConfigs : ServerConfigs) (t0 : Z)
        (events : list ServerEvent) (B : string) (s : ServerInstance) :
  server_run (newServerManager serverConfigs t0) events !! B = Some s ->
  id s = B /\ serverId s = B /\ url s <> ""
  /\ exists c, (B, c) ∈ serverConfigs
               /\ url s = cfg_url c /\ capabilities s = cfg_capabilities c.
Proof.
  assert (Hgen : forall servers,
             server_run servers events !! B = Some s ->
             exists s0, servers !! B = Some s0 /\ same_backend s s0).
  { induction events as [|e events IH]; intros servers; simpl.
    - intros Hs. exists s. split; [exact Hs | repeat split].
    - intros Hs. destruct (IH _ Hs) as (s1 & Hs1 & Hsame1).
      destruct (server_step_same_backend _ _ _ _ Hs1) as (s0 & Hs0 & Hsame0).
      exists s0. split; [exact Hs0|].
      destruct Hsame1 as (? & ? & ? & ?), Hsame0 as (? & ? & ? & ?).
      repeat split; congruence. }
  intros Hs. destruct (Hgen _ Hs) as (s0 & Hs0 & Hid & Hsid & Hurl & Hcaps).
  destruct (newServerManager_configured _ _ _ _ Hs0)
    as (Hid0 & Hsid0 & c & Hc & Hurl0 & Hcaps0).
  destruct (newServerManager_fresh serverConfigs t0 B s0 Hs0) as (Hne & _).
  split; [congruence|]. split; [congruence|]. split; [congruence|].
  exists c. split; [exact Hc|]. split; congruence.
Qed.

Lemma backends_keep_their_identity_witness :
  exists s,
    server_run (newServerManager exampleServers 0) doubleRelease !! "linear"
    = Some s
    /\ url s <> "".
Proof.
  destruct (server_run (newServerManager exampleServers 0) doubleRelease
            !! "linear") as [s|] eqn:Hs; [|vm_compute in Hs; discriminate].
  exists s. split; [reflexivity|].
  destruct (backends_keep_their_identity exampleServers 0 doubleRelease
              "linear" s Hs) as (_ & _ & Hurl & _).
  exact Hurl.
Defined.

End BackendIdentity.

Section StaticLookup.

Lemma includes_app (xs ys : list string) (v : JsValue) :
  includes (xs ++ ys) v = includes xs v || includes ys v.
Proof. unfold includes. apply existsb_app. Qed.

(** The scan of the gateway over the capability lists that
    [buildMCPServersConfig] makes of tools, resources and prompts. *)
Lemma scan_definitions (defs : list (string * MCPServerDefinition))
      (capability : string) :
  scanCapabilities (JStr capability)
    ((fun e => (e.1, (def_tools e.2 ++ def_resources e.2
                      ++ def_prompts e.2)%list)) <$> defs)
  = getServerByCapability defs capability.
Proof.
  induction defs as [|[name server] rest IH]; simpl; [reflexivity|].
  rewrite !includes_app, orb_assoc.
  destruct (_ || _); [reflexivity | exact IH].
Qed.

Lemma runtimeConfig_capabilities (production : bool)
      (env : string -> option string) (key : string)
      (serverDef : MCPServerDefinition) (entry : ServerConfig) :
  runtimeConfig production env key serverDef = inr entry ->
  cfg_capabilities entry
  = (def_tools serverDef ++ def_resources serverDef
     ++ def_prompts serverDef)%list.
Proof.
  unfold runtimeConfig. destruct (String.eqb _ ""); [discriminate|].
  intros [= <-]. reflexivity.
Qed.

Lemma buildMCPServersConfig_from_enabled (production : bool)
      (devConfig : option (string -> option bool))
      (env : string -> option string)
      (defs : list (string * MCPServerDefinition)) :
  forall (result servers : ServerConfigs),
    NoDup (result.*1 ++ defs.*1) ->
    "__proto__" ∉ defs.*1 ->
    buildMCPServersConfig_from production devConfig env defs result
    = inr servers ->
    (fun e => (e.1, cfg_capabilities e.2)) <$> servers
    = (((fun e => (e.1, cfg_capabilities e.2)) <$> result)
       ++ ((fun e => (e.1, (def_tools e.2 ++ def_resources e.2
                            ++ def_prompts e.2)%list))
             <$> filter (fun e => isServerEnabled devConfig e.1 e.2) defs))%list.
Proof.
  induction defs as [|[key serverDef] defs IH];
    intros result servers Hnd Hproto; cbn [buildMCPServersConfig_from].
  - intros [= <-]. rewrite filter_nil, app_nil_r. reflexivity.
  - rewrite filter_cons. cbn [fst snd].
    rewrite fmap_cons in Hproto. apply not_elem_of_cons in Hproto.
    destruct Hproto as [Hkey Hproto]. cbn [fst] in Hkey.
    assert (Hplain : String.eqb key "__proto__" = false)
      by (apply String.eqb_neq; congruence).
    assert (Hnd' : NoDup (result.*1 ++ defs.*1)).
    { rewrite fmap_cons in Hnd. apply NoDup_app in Hnd.
      destruct Hnd as (Hr & Hdisj & Hd). apply NoDup_cons in Hd.
      apply NoDup_app. split; [exact Hr|]. split; [|tauto].
      intros x Hx Hin. apply (Hdisj x Hx). apply elem_of_cons. auto. }
    destruct (isServerEnabled devConfig key serverDef) eqn:Hen; simpl.
    + destruct (runtimeConfig production env key serverDef) as [e|entry]
        eqn:Hentry; [discriminate|]. cbn [andThen].
      assert (Hfresh : key ∉ result.*1).
      { rewrite fmap_cons in Hnd. apply NoDup_app in Hnd.
        destruct Hnd as (_ & Hdisj & _). intros Hin.
        apply (Hdisj key Hin). apply elem_of_cons. auto. }
      rewrite Hplain, (map_set_fresh _ _ _ Hfresh). intros Hbuild.
      assert (Hnd1 : NoDup ((result ++ [(key, entry)])%list.*1 ++ defs.*1)).
      { rewrite fmap_app, <- app_assoc. simpl. rewrite fmap_cons in Hnd.
        exact Hnd. }
      rewrite (IH _ _ Hnd1 Hproto Hbuild), fmap_app, <- app_assoc. simpl.
      rewrite (runtimeConfig_capabilities _ _ _ _ _ Hentry). reflexivity.
    + apply IH; assumption.
Qed.


(** X20. The static lookup of [@mcp/utils] and the routing of the
    gateway agree on the servers that are enabled.  Where
    [buildMCPServersConfig] returns a configuration, the capability map
    the gateway builds from it lists the enabled servers (enabled in
    their definition and not disabled by the development configuration)
    in registry order, each with its tools, then resources, then prompts;
    so the scan of [resolveCapability] for a capability returns what
    [getServerByCapability] returns over the enabled servers -- over all
    servers if all are enabled -- and never a disabled server, which
    [getServerByCapability] over the whole registry can name.  The server
    [getServerByCapability] returns declares the capability as a tool, a
    resource or a prompt. *)
Theorem getServerByCapability_agrees
        (allMcpServers : list (string * MCPServerDefinition))
        (production : bool) (loaded : option (string -> option bool))
        (env : string -> option string) (servers : ServerConfigs)
        (capability : string) :
  NoDup allMcpServers.*1 ->
  "__proto__" ∉ allMcpServers.*1 ->
  buildMCPServersConfig allMcpServers production loaded env = inr servers ->
  let enabled :=
    filter (fun e => spec_enabled production loaded e.1 e.2) allMcpServers in
  buildCapabilityMap servers
  = (fun e => (e.1, (def_tools e.2 ++ def_resources e.2
                     ++ def_prompts e.2)%list)) <$> enabled
  /\ scanCapabilities (JStr capability) (buildCapabilityMap servers)
     = getServerByCapability enabled capability
  /\ (enabled = allMcpServers ->
      scanCapabilities (JStr capability) (buildCapabilityMap servers)
      = getServerByCapability allMcpServers capability)
  /\ (forall name serverDef,
         (name, serverDef) ∈ allMcpServers ->
         spec_enabled production loaded name serverDef = false ->
         scanCapabilities (JStr capability) (buildCapabilityMap servers)
         <> Some name)
  /\ (forall serverName,
         getServerByCapability allMcpServers capability = Some serverName ->
         exists server,
           (serverName, server) ∈ allMcpServers
           /\ (capability ∈ def_tools server
               \/ capability ∈ def_resources server
               \/ capability ∈ def_prompts server)).
Proof.
  intros Hnd Hproto Hbuild enabled.
  unfold buildMCPServersConfig in Hbuild.
  pose proof (buildMCPServersConfig_from_enabled production _ env
                allMcpServers [] servers Hnd Hproto Hbuild) as Hcaps.
  simpl in Hcaps.
  rewrite (list_filter_iff _
             (fun e => spec_enabled production loaded e.1 e.2)) in Hcaps.
  2:{ intros [key serverDef]. unfold isServerEnabled, spec_enabled.
      cbn [fst snd]. destruct production; simpl; [|reflexivity].
      rewrite andb_true_r. reflexivity. }
  fold enabled in Hcaps.
  assert (Hsub : NoDup enabled.*1).
  { apply (sublist_NoDup _ _ Hnd), fmap_sublist, sublist_filter. }
  assert (Hmap : buildCapabilityMap servers
                 = (fun e => (e.1, (def_tools e.2 ++ def_resources e.2
                                    ++ def_prompts e.2)%list)) <$> enabled).
  { unfold buildCapabilityMap.
    destruct (buildCapabilityMap_from servers [] (NoDup_nil_2))
      as (_ & _ & Heq).
    rewrite Heq; [exact Hcaps|]. simpl.
    replace (servers.*1)
      with (((fun e => (e.1, cfg_capabilities e.2)) <$> servers).*1)
      by (rewrite <- list_fmap_compose; reflexivity).
    rewrite Hcaps, <- list_fmap_compose. exact Hsub. }
  assert (Hscan : scanCapabilities (JStr capability)
                    (buildCapabilityMap servers)
                  = getServerByCapability enabled capability).
  { rewrite Hmap. apply scan_definitions. }
  assert (Hdeclares : forall (defs : list (string * MCPServerDefinition))
                             serverName,
             getServerByCapability defs capability = Some serverName ->
             exists server,
               (serverName, server) ∈ defs
               /\ (capability ∈ def_tools server
                   \/ capability ∈ def_resources server
                   \/ capability ∈ def_prompts server)).
  { induction defs as [|[name server] rest IH]; simpl; [discriminate|].
    intros serverName.
    destruct (includes (def_tools server) (JStr capability)) eqn:Ht; simpl.
    { intros [= <-]. exists server. split; [apply elem_of_cons; auto|].
      left. apply list_elem_of_In, includes_string. exact Ht. }
    destruct (includes (def_resources server) (JStr capability)) eqn:Hr; simpl.
    { intros [= <-]. exists server. split; [apply elem_of_cons; auto|].
      right. left. apply list_elem_of_In, includes_string. exact Hr. }
    destruct (includes (def_prompts server) (JStr capability)) eqn:Hp; simpl.
    { intros [= <-]. exists server. split; [apply elem_of_cons; auto|].
      right. right. apply list_elem_of_In, includes_string. exact Hp. }
    intros H. destruct (IH _ H) as (server' & Hin & Hcap).
    exists server'. split; [apply elem_of_cons; auto | exact Hcap]. }
  split; [exact Hmap|]. split; [exact Hscan|]. split; [|split].
  - intros Hall. rewrite Hscan, Hall. reflexivity.
  - intros name serverDef Hin Hoff. rewrite Hscan. intros Hfound.
    destruct (Hdeclares _ _ Hfound) as (server & Hen & _).
    apply list_elem_of_filter in Hen. destruct Hen as [Hon Hin'].
    cbn [fst snd] in Hon.
    assert (Heq : server = serverDef).
    { clear -Hnd Hin Hin'. induction allMcpServers as [|[k d] l IH];
        [apply elem_of_nil in Hin; contradiction|].
      rewrite fmap_cons in Hnd. apply NoDup_cons in Hnd.
      destruct Hnd as [Hnin Hnd]. cbn [fst] in Hnin.
      apply elem_of_cons in Hin, Hin'.
      destruct Hin as [[= -> ->]|Hin], Hin' as [[= ->]|Hin'].
      - reflexivity.
      - exfalso. apply Hnin. apply list_elem_of_fmap.
        exists (k, server). auto.
      - exfalso. apply Hnin. apply list_elem_of_fmap.
        exists (k, serverDef). auto.
      - apply IH; assumption. }
    subst server. rewrite Hoff in Hon. exact Hon.
  - apply Hdeclares.
Qed.

Lemma getServerByCapability_agrees_witness :
  scanCapabilities (JStr "console_log")
    (buildCapabilityMap registryServers)
  = None
  /\ getServerByCapability exampleDefinitions "console_log" = Some "devtools".
Proof.
  assert (Hnd : NoDup exampleDefinitions.*1).
  { apply (bool_decide_unpack _). vm_compute. reflexivity. }
  assert (Hproto : "__proto__" ∉ exampleDefinitions.*1).
  { apply (bool_decide_unpack _). vm_compute. reflexivity. }
  destruct (getServerByCapability_agrees exampleDefinitions false noDevConfig
              emptyEnv
              registryServers "console_log" Hnd Hproto eq_refl)
    as (_ & Hscan & _).
  split; [rewrite Hscan|]; reflexivity.
Defined.

End StaticLookup.

Section ProtocolMethods.

Lemma isProtocolMethod_true (method : JsValue) :
  isProtocolMethod method = true <->
  exists m, method = JStr m /\ In m protocolMethods.
Proof.
  unfold isProtocolMethod. split.
  - intros H. exact (includes_only_strings _ _ H).
  - intros (m & -> & Hin). apply includes_string. exact Hin.
Qed.

(** X21. Protocol methods are answered inside the gateway.  For
    [initialize], [notifications/initialized], [tools/list],
    [resources/list], [prompts/list] and [ping] the gateway is left as it
    was.  If the id of the request can be converted to a string (as
    every string and number can), the reply is a result with that id
    that depends neither on the health of any backend nor on the
    sessions nor on the session of the caller, and [initialize],
    [notifications/initialized] and [ping] contact no backend at all.
    If the id cannot be converted, the call throws at its entry log:
    there is no result and nothing is fetched, whatever the method. *)
Theorem protocol_methods_are_local (proxy proxy' : FetchOutcome)
        (fan fan' : string -> FetchOutcome) (gw : Gateway)
        (request : JsObject) (session session' : Session)
        (servers : Servers) (sessions : Sessions) :
  isProtocolMethod (field "method" request) = true ->
  gateway (routeAndExecuteRequest proxy fan gw request session) = gw
  /\ (printable (field "id" request) = true ->
      (exists result,
          reply (routeAndExecuteRequest proxy fan gw request session)
          = inr (JObj [("jsonrpc", JStr "2.0"); ("id", field "id" request);
                       ("result", result)]))
      /\ reply (routeAndExecuteRequest proxy' fan
                  (with_serverManager servers
                     (with_sessionManager sessions gw))
                  request session')
         = reply (routeAndExecuteRequest proxy fan gw request session)
      /\ (In (field "method" request)
             [JStr "initialize"; JStr "notifications/initialized";
              JStr "ping"] ->
          fetched (routeAndExecuteRequest proxy fan gw request session) = []
          /\ reply (routeAndExecuteRequest proxy fan' gw request session)
             = reply (routeAndExecuteRequest proxy fan gw request session)))
  /\ (printable (field "id" request) = false ->
      routeAndExecuteRequest proxy fan gw request session
      = {| gateway := gw; fetched := [];
           reply := inl (ThrownError
                           "Cannot convert object to primitive value") |}).
Proof.
  intros Hp. pose proof Hp as Hstr. apply isProtocolMethod_true in Hstr.
  destruct Hstr as (m & Hm & Hin).
  assert (Hpm : printable (field "method" request) = true)
    by (rewrite Hm; reflexivity).
  split; [|split].
  - unfold routeAndExecuteRequest. rewrite route_entry, Hp.
    destruct (_ && _); [|reflexivity].
    destruct (handleProtocolMethod fan gw request) as [urls [e|response]];
      reflexivity.
  - intros Hid. unfold routeAndExecuteRequest.
    rewrite route_entry, Hid, Hpm, Hp. cbn [andb].
    unfold handleProtocolMethod, getAvailableTools, getAvailableResources,
      getAvailablePrompts.
    rewrite Hm, !fanOut_spec. simpl in Hin.
    destruct Hin as [<-|[<-|[<-|[<-|[<-|[<-|[]]]]]]]; simpl;
      (split; [eexists; reflexivity|]); (split; [reflexivity|]);
      intros Hlocal;
      repeat (destruct Hlocal as [Hlocal|Hlocal]; try discriminate Hlocal);
      try contradiction; split; reflexivity.
  - intros Hid. unfold routeAndExecuteRequest. rewrite route_entry, Hid.
    reflexivity.
Qed.

Lemma protocol_methods_are_local_witness :
  reply (routeAndExecuteRequest backendAnswers allDown exampleGateway
           (bareRequest (JNum 5) "ping") exampleSession)
  = inr (JObj [("jsonrpc", JStr "2.0"); ("id", JNum 5); ("result", JObj [])])
  /\ fetched (routeAndExecuteRequest backendAnswers allDown exampleGateway
                (bareRequest (JNum 5) "ping") exampleSession) = []
  /\ fetched (routeAndExecuteRequest backendAnswers allDown exampleGateway
                (opaqueId "tools/list") exampleSession) = [].
Proof.
  destruct (protocol_methods_are_local backendAnswers backendAnswers allDown
              allDown exampleGateway (bareRequest (JNum 5) "ping")
              exampleSession exampleSession ∅ ∅ eq_refl)
    as (_ & Hlocal & _).
  destruct (protocol_methods_are_local backendAnswers backendAnswers allDown
              allDown exampleGateway (opaqueId "tools/list")
              exampleSession exampleSession ∅ ∅ eq_refl)
    as (_ & _ & Hthrows).
  destruct (Hlocal eq_refl) as (_ & _ & Hnone).
  destruct Hnone as [Hf _]; [simpl; auto|].
  split; [reflexivity|]. split; [exact Hf|].
  rewrite (Hthrows eq_refl). reflexivity.
Defined.

End ProtocolMethods.

Section HttpSessions.

(** X22. A bearer token that does not verify, or that names a session no
    longer stored, is not an error: the call is handled exactly as a call
    without an [Authorization] header (a new anonymous session if a slot
    is free, the capacity error otherwise). *)
Theorem stale_token_is_anonymous (validateToken : string -> option string)
        (uuid : string) (now : Z) (proxy : FetchOutcome)
        (fan : string -> FetchOutcome) (gw : Gateway) (requestBody : JsValue)
        (token : string) (other : option string) :
  validateToken token = None
  \/ (exists sessionId, validateToken token = Some sessionId
                        /\ sessionManager gw !! sessionId = None) ->
  handleHttpRequest validateToken uuid now proxy fan gw requestBody
    (mkHeaders (Some ("Bearer " +:+ token)) other)
  = handleHttpRequest validateToken uuid now proxy fan gw requestBody
      (mkHeaders None None).
Proof.
  intros Hstale. unfold handleHttpRequest, getSessionFromHeaders. simpl.
  rewrite getSessionFromAuthHeader_bearer.
  destruct Hstale as [->|(sessionId & -> & Hgone)]; [reflexivity|].
  destruct (negb (String.eqb sessionId "")); [|reflexivity].
  unfold getSession. rewrite Hgone. reflexivity.
Qed.

Lemma stale_token_is_anonymous_witness :
  handleHttpRequest knownToken "s-2" 50 backendAnswers allDown exampleGateway
    (JObj (bareRequest (JNum 9) "ping")) staleHeaders
  = handleHttpRequest knownToken "s-2" 50 backendAnswers allDown exampleGateway
      (JObj (bareRequest (JNum 9) "ping")) (mkHeaders None None).
Proof.
  change staleHeaders with (mkHeaders (Some ("Bearer " +:+ "jwt.gone")) None).
  apply stale_token_is_anonymous. left. reflexivity.
Defined.

(** X23. At capacity the HTTP path fails fast: a call without a session
    is refused with [{success: false, error: "Maximum concurrent sessions
    reached"}] before its body is looked at; no session is created, no
    other session is evicted, and no backend is contacted. *)
Theorem http_refuses_at_capacity (validateToken : string -> option string)
        (uuid : string) (now : Z) (proxy : FetchOutcome)
        (fan : string -> FetchOutcome) (gw : Gateway) (requestBody : JsValue) :
  canCreateNewSession (sessionConfig (config gw)) (sessionManager gw) = false ->
  handleHttpRequest validateToken uuid now proxy fan gw requestBody
    (mkHeaders None None)
  = {| gateway := gw; fetched := [];
       reply := JObj [("success", JBool false);
                      ("error", JStr "Maximum concurrent sessions reached")] |}.
Proof.
  intros Hfull. unfold handleHttpRequest, getSessionFromHeaders. simpl.
  rewrite Hfull. simpl. destruct gw. reflexivity.
Qed.

Lemma http_refuses_at_capacity_witness :
  gateway (handleHttpRequest noToken "s-2" 50 backendAnswers allDown busyGateway
             (JObj (bareRequest (JNum 9) "ping")) (mkHeaders None None))
  = busyGateway.
Proof.
  rewrite (http_refuses_at_capacity noToken "s-2" 50 backendAnswers allDown
             busyGateway (JObj (bareRequest (JNum 9) "ping")));
    reflexivity.
Defined.

End HttpSessions.

Section Relay.

(** X24. Once routing has found a healthy backend (for a request whose
    id can be converted to a string, as every string and number can), the
    gateway is a transparent relay.  The request is posted to [<url>/mcp]
    of that backend and whatever JSON the backend answers is the reply,
    as it is: a result, a JSON-RPC error, and also the body of a non-2xx
    response.  The reply is the gateway's own -32603 "Internal error"
    with the id of the request only when the call throws ([data] is the
    message of the error, "Unknown error" for a thrown non-error), when
    the body is not JSON, or when a 2xx response carries [null]. *)
Theorem forwarded_call_relays (proxy : FetchOutcome)
        (fan : string -> FetchOutcome) (gw : Gateway) (request : JsObject)
        (session : Session) (sid : string) (s : ServerInstance) :
  printable (field "id" request) = true ->
  isProtocolMethod (field "method" request) = false ->
  resolveCapability request (capabilityMap gw) = inr (Some sid) ->
  sid <> "" ->
  serverManager gw !! sid = Some s ->
  isHealthy s = true ->
  let own (data : string) :=
    JObj [("jsonrpc", JStr "2.0"); ("id", field "id" request);
          ("error", JObj [("code", JNum (-32603));
                          ("message", JStr "Internal error");
                          ("data", JStr data)])] in
  fetched (routeAndExecuteRequest proxy fan gw request session)
  = [url s +:+ "/mcp"]
  /\ reply (routeAndExecuteRequest proxy fan gw request session)
     = inr match proxy with
           | FetchThrew e | FetchResponse _ (inl e) =>
               own match e with
                   | ThrownError message => message
                   | ThrownOther => "Unknown error"
                   end
           | FetchResponse ok (inr body) =>
               match ok, body with
               | true, JNull =>
                   own "Cannot read properties of null (reading 'error')"
               | true, JUndefined =>
                   own "Cannot read properties of undefined (reading 'error')"
               | _, _ => body
               end
           end.
Proof.
  intros Hid Hnp Hres Hne Hs Hh own.
  assert (Hpm : printable (field "method" request) = true).
  { rewrite resolveCapability_key in Hres.
    destruct (printable (field "method" request)); [reflexivity|].
    discriminate. }
  unfold routeAndExecuteRequest.
  rewrite route_entry, Hid, Hpm, Hnp, Hres. cbn [andb].
  apply String.eqb_neq in Hne. rewrite Hne.
  unfold getServerInstance. rewrite Hs, Hh. simpl.
  rewrite lookup_insert_eq. simpl. split; [reflexivity|]. f_equal.
  destruct proxy as [[m|]|ok [[m|]|body]]; simpl; try reflexivity.
  destruct ok; simpl; [|destruct body; reflexivity].
  destruct body; reflexivity.
Qed.

Lemma forwarded_call_relays_witness :
  reply (routeAndExecuteRequest backendAnswers allDown gatewayLinearUp
           (toolsCall (JNum 1) "linear_get_teams") exampleSession)
  = inr (JObj [("jsonrpc", JStr "2.0"); ("id", JNum 1);
               ("result", JObj [("content", JArr [])])]).
Proof.
  destruct (forwarded_call_relays backendAnswers allDown gatewayLinearUp
              (toolsCall (JNum 1) "linear_get_teams") exampleSession "linear"
              (mkServerInstance "linear" "linear" "http://localhost:3001"
                 true 5 0
                 ["linear_get_teams"; "linear://teams";
                  "create_issue_workflow"]))
    as [_ Hreply].
  - reflexivity.
  - reflexivity.
  - reflexivity.
  - discriminate.
  - reflexivity.
  - reflexivity.
  - rewrite Hreply. reflexivity.
Defined.

End Relay.
